(** * Pro-audit-ai: the report-assembly and normalization pipeline

    A shallow embedding of the four pieces of the repository that carry
    invariants:

    - [createSafeReport] (the Report Normalizer), in the two revisions of
      the application entry file that the repository holds
      ([Part000] for [src/unnamed/part_000], [Part001] for
      [src/unnamed/part_001]);
    - the model fallback loop of [handleAudit] (the Model Invocation
      Controller);
    - [fetchRealAuditData] (the Performance Data Fetcher);
    - the [AuditReport] interface of [src/types.ts].

    JavaScript values are a tagged union, objects are association lists in
    property enumeration order, exceptions are an explicit completion
    type, and the ambient clock and network are explicit inputs. *)

From Stdlib Require Import String Ascii List Bool Arith ZArith QArith Qround Lia Lqa.
From Stdlib Require Import DecimalString.
From Stdlib Require Import Sorting.Sorted Sorting.Permutation.
Import ListNotations.

Local Open Scope string_scope.
Local Open Scope list_scope.

(** ** JavaScript numbers

    A JS number is NaN, an infinity, or a finite double.  A finite double
    is carried by its exact rational value; the program only compares
    numbers, takes maxima and looks at the sign of a difference, and these
    agree on doubles and on their exact values.  The two zeros are not
    distinguished (both are falsy, and nothing here divides by them). *)

Inductive JsNumber : Type :=
| NaN
| NegInf
| Fin (q : Q)
| PosInf.

Definition Qltb (a b : Q) : bool := negb (Qle_bool b a).

(** [a < b] on numbers; anything compared with NaN is false. *)
Definition num_ltb (a b : JsNumber) : bool :=
  match a, b with
  | NaN, _ | _, NaN => false
  | NegInf, NegInf => false
  | NegInf, _ => true
  | _, NegInf => false
  | PosInf, _ => false
  | Fin _, PosInf => true
  | Fin x, Fin y => Qltb x y
  end.

(** [a == b] on numbers (numeric equality, NaN is unequal to itself). *)
Definition num_eqb (a b : JsNumber) : bool :=
  match a, b with
  | NegInf, NegInf | PosInf, PosInf => true
  | Fin x, Fin y => Qeq_bool x y
  | _, _ => false
  end.

(** [a >= b] and [a > b] as JS evaluates them. *)
Definition num_geb (a b : JsNumber) : bool := num_ltb b a || num_eqb a b.
Definition num_gtb (a b : JsNumber) : bool := num_ltb b a.

(** [Math.max(a, b)]: NaN if either argument is NaN. *)
Definition Math_max (a b : JsNumber) : JsNumber :=
  match a, b with
  | NaN, _ | _, NaN => NaN
  | _, _ => if num_ltb a b then b else a
  end.

(** The sign of [a - b], which is all [Array.prototype.sort] consumes of a
    comparator's result ([None] stands for NaN, which sort treats as 0).
    On finite doubles the rounded difference has the sign of the exact
    one. *)
Definition sub_sign (a b : JsNumber) : option comparison :=
  match a, b with
  | NaN, _ | _, NaN => None
  | PosInf, PosInf | NegInf, NegInf => None
  | PosInf, _ | _, NegInf => Some Gt
  | NegInf, _ | _, PosInf => Some Lt
  | Fin x, Fin y => Some (Qcompare x y)
  end.

Definition num_of_nat (n : nat) : JsNumber := Fin (inject_Z (Z.of_nat n)).
Definition num_of_Z (z : Z) : JsNumber := Fin (inject_Z z).

(** The literal [0.9] denotes the double 0x3FECCCCCCCCCCCCD. *)
Definition lit_0_9 : JsNumber := Fin (8106479329266893 # 9007199254740992).

(** ** JavaScript values *)

#[warnings="-register-all"]
Inductive JsVal : Type :=
| JUndefined
| JNull
| JBool (b : bool)
| JNum (n : JsNumber)
| JStr (s : string)
| JArr (items : list JsVal)
| JObj (props : list (string * JsVal)).

Definition JInt (z : Z) : JsVal := JNum (num_of_Z z).

(** Thrown values: every exception this program meets is an [Error]
    object, of which [name] and [message] are read. *)
Record JsError : Type := mkError { name : string; message : string }.

Definition TypeError (m : string) : JsError := mkError "TypeError" m.
Definition Error (m : string) : JsError := mkError "Error" m.

(** ** Completions: an expression yields a value or throws *)

Inductive Completion (A : Type) : Type :=
| Normal (a : A)
| Throw (e : JsError).
Arguments Normal {A} a.
Arguments Throw {A} e.

Definition bind {A B} (c : Completion A) (k : A -> Completion B) : Completion B :=
  match c with
  | Normal a => k a
  | Throw e => Throw e
  end.

Declare Scope js_scope.
Delimit Scope js_scope with js.
Notation "x <- c ;; k" := (bind c (fun x => k))
  (at level 61, c at next level, right associativity) : js_scope.
Local Open Scope js_scope.

(** [array.map(f)] where [f] may throw: elements are visited in order and
    the first exception ends the call. *)
Fixpoint array_map {A B} (f : A -> Completion B) (l : list A) : Completion (list B) :=
  match l with
  | [] => Normal []
  | x :: rest =>
      y <- f x ;;
      ys <- array_map f rest ;;
      Normal (y :: ys)
  end.

(** ** Truthiness, strict comparisons with constants, property reads *)

Definition num_truthy (n : JsNumber) : bool :=
  match n with
  | NaN => false
  | Fin q => negb (Qeq_bool q 0)
  | NegInf | PosInf => true
  end.

Definition truthy (v : JsVal) : bool :=
  match v with
  | JUndefined | JNull => false
  | JBool b => b
  | JNum n => num_truthy n
  | JStr s => negb (s =? "")
  | JArr _ | JObj _ => true
  end.

Definition nullish (v : JsVal) : bool :=
  match v with
  | JUndefined | JNull => true
  | _ => false
  end.

(** [a || b] *)
Definition js_or (a b : JsVal) : JsVal := if truthy a then a else b.

(** [v === "..."] for a string constant. *)
Definition strict_eq_str (v : JsVal) (s : string) : bool :=
  match v with
  | JStr t => t =? s
  | _ => false
  end.

(** [v === 1] *)
Definition strict_eq_one (v : JsVal) : bool :=
  match v with
  | JNum n => num_eqb n (Fin 1)
  | _ => false
  end.

Fixpoint own (props : list (string * JsVal)) (k : string) : JsVal :=
  match props with
  | [] => JUndefined
  | (k', v) :: rest => if k' =? k then v else own rest k
  end.

(** [v[k]] for a value that is neither [null] nor [undefined].  Objects
    come from [JSON.parse] or from object literals, so a read finds an own
    property or nothing: none of the names this program reads is a member
    of [Object.prototype].  For the same names an array, a string, a number
    or a boolean has no such property, apart from [length]. *)
Definition prop (v : JsVal) (k : string) : JsVal :=
  match v with
  | JObj props => own props k
  | JArr items => if k =? "length" then JNum (num_of_nat (List.length items)) else JUndefined
  | JStr s => if k =? "length" then JNum (num_of_nat (String.length s)) else JUndefined
  | _ => JUndefined
  end.

(** [v.k]: a TypeError on [null] and [undefined]. *)
Definition member (v : JsVal) (k : string) : Completion JsVal :=
  if nullish v
  then Throw (TypeError ("Cannot read properties of null or undefined (reading " ++ k ++ ")"))
  else Normal (prop v k).

(** [v?.k] *)
Definition opt_member (v : JsVal) (k : string) : JsVal :=
  if nullish v then JUndefined else prop v k.

(** ** Strings *)

(** [s.split(sep)] for a one-character separator. *)
Fixpoint split_on (sep : ascii) (s : string) : list string :=
  match s with
  | EmptyString => [EmptyString]
  | String c rest =>
      if Ascii.eqb c sep then EmptyString :: split_on sep rest
      else match split_on sep rest with
           | [] => [String c EmptyString]
           | hd :: tl => String c hd :: tl
           end
  end.

(** [s.split(sep)[0]] *)
Definition first_segment (sep : ascii) (s : string) : string :=
  match split_on sep s with
  | [] => EmptyString
  | hd :: _ => hd
  end.

Fixpoint strip_prefix (p s : string) : option string :=
  match p, s with
  | EmptyString, _ => Some s
  | String a p', String b s' => if Ascii.eqb a b then strip_prefix p' s' else None
  | String _ _, EmptyString => None
  end.

(** [url.replace(/^https?:\/\//, '')] *)
Definition strip_scheme (url : string) : string :=
  match strip_prefix "https://" url with
  | Some rest => rest
  | None => match strip_prefix "http://" url with
            | Some rest => rest
            | None => url
            end
  end.

(** A string is the UTF-8 encoding of the JavaScript string; [ascii_only]
    says that it holds ASCII characters only. *)
Definition ascii_only (s : string) : bool :=
  forallb (fun c => (nat_of_ascii c <? 128)%nat) (list_ascii_of_string s).

(** Upper-casing ASCII text: the letters a-z are mapped, every other
    character is kept. *)
Definition upper_ascii (c : ascii) : ascii :=
  let n := nat_of_ascii c in
  if (97 <=? n)%nat && (n <=? 122)%nat then ascii_of_nat (n - 32) else c.

Fixpoint upper_text (s : string) : string :=
  match s with
  | EmptyString => EmptyString
  | String c rest => String (upper_ascii c) (upper_text rest)
  end.

(** ** Path reads: [path.split('.').reduce((acc, part) => acc && acc[part], obj)] *)

Definition reducer (acc : Completion JsVal) (part : string) : Completion JsVal :=
  a <- acc ;;
  if truthy a then member a part else Normal a.

Definition path_reduce (obj : JsVal) (path : string) : Completion JsVal :=
  fold_left reducer (split_on "." path) (Normal obj).

(** The same reduction with the guard folded in: it has no throwing step. *)
Definition step (acc : JsVal) (part : string) : JsVal :=
  if truthy acc then prop acc part else acc.

Definition resolve (obj : JsVal) (path : string) : JsVal :=
  fold_left step (split_on "." path) obj.

(** [val !== undefined && val !== null && val !== ""] *)
Definition usable (val : JsVal) : bool :=
  match val with
  | JUndefined | JNull => false
  | JStr s => negb (s =? "")
  | _ => true
  end.

(** [Array.isArray(val) && val.length > 0] *)
Definition nonempty_array (val : JsVal) : bool :=
  match val with
  | JArr (_ :: _) => true
  | _ => false
  end.

(** ** The host

    Text-to-number parsing, number formatting, rounded IEEE-754
    multiplication and division, the Unicode case mapping and the members
    of [Object.prototype] are left to the host.  Every theorem below holds
    for all hosts.

    [toUpperCase s] is [s.toUpperCase()]: the case mapping of Unicode,
    which on ASCII text maps the letters a-z and keeps every other
    character.

    [inherited k] is what a template literal prints for
    [Object.prototype[k]] when [Object.prototype] has a member named [k],
    and [None] when it has none.  Each of these members is a function
    ([constructor], [toString], [valueOf], ...) or, for [__proto__], the
    prototype itself: all of them are truthy. *)

Class Host : Type := {
  StringToNumber : string -> JsNumber;
  NumberToString : JsNumber -> string;
  float_mul : JsNumber -> JsNumber -> JsNumber;
  float_div : JsNumber -> JsNumber -> JsNumber;
  toUpperCase : string -> string;
  toUpperCase_ascii : forall s, ascii_only s = true -> toUpperCase s = upper_text s;
  inherited : string -> option string
}.

Fixpoint join (sep : string) (l : list string) : string :=
  match l with
  | [] => ""
  | [s] => s
  | s :: rest => s ++ sep ++ join sep rest
  end.

Section Conversions.
Context {H : Host}.

(** [String(v)], as a template literal applies it. *)
Fixpoint ToString (v : JsVal) : string :=
  match v with
  | JUndefined => "undefined"
  | JNull => "null"
  | JBool true => "true"
  | JBool false => "false"
  | JNum n => NumberToString n
  | JStr s => s
  | JArr items =>
      join "," (map (fun x => if nullish x then "" else ToString x) items)
  | JObj _ => "[object Object]"
  end.

(** [Number(v)] *)
Definition Number (v : JsVal) : JsNumber :=
  match v with
  | JUndefined => NaN
  | JNull => Fin 0
  | JBool true => Fin 1
  | JBool false => Fin 0
  | JNum n => n
  | JStr s => StringToNumber s
  | JArr _ | JObj _ => StringToNumber (ToString v)
  end.

(** [Math.round(x)]: the integer nearest to [x], halves upwards. *)
Definition Math_round (x : JsNumber) : JsNumber :=
  match x with
  | Fin q => Fin (inject_Z (Qfloor (q + (1 # 2))))
  | other => other
  end.

(** [Math.round((v || 0) * 100)] *)
Definition percent (v : JsVal) : JsNumber :=
  Math_round (float_mul (Number (js_or v (JInt 0))) (Fin 100)).
End Conversions.

(** ** Object literals, spread and array literals *)

(** [{ k1: e1, k2: e2, ... }]: the property expressions are evaluated in
    order and the first exception ends the literal. *)
Fixpoint evaluate (entries : list (string * Completion JsVal))
  : Completion (list (string * JsVal)) :=
  match entries with
  | [] => Normal []
  | (k, c) :: rest =>
      v <- c ;;
      vs <- evaluate rest ;;
      Normal ((k, v) :: vs)
  end.

Definition object (entries : list (string * Completion JsVal)) : Completion JsVal :=
  props <- evaluate entries ;;
  Normal (JObj props).

Notation "k ':::' e" := (k, Normal e) (at level 60, no associativity) : js_scope.

Definition array (c : Completion (list JsVal)) : Completion JsVal :=
  items <- c ;;
  Normal (JArr items).

(** Arrays of string literals and of two-property object literals. *)
Definition strs (l : list string) : list JsVal := map JStr l.

Definition rows (k1 k2 : string) (l : list (string * string)) : list JsVal :=
  map (fun r => JObj [(k1, JStr (fst r)); (k2, JStr (snd r))]) l.

Definition index_name (i : nat) : string := NilEmpty.string_of_uint (Nat.to_uint i).

Fixpoint indexed {A} (f : A -> JsVal) (i : nat) (l : list A) : list (string * JsVal) :=
  match l with
  | [] => []
  | x :: rest => (index_name i, f x) :: indexed f (S i) rest
  end.

Fixpoint chars (s : string) : list string :=
  match s with
  | EmptyString => []
  | String c rest => String c EmptyString :: chars rest
  end.

(** The properties that [{ ...v }] copies: the own enumerable properties of
    an object, the elements of an array, the characters of a string, and
    nothing for any other value ([null] and [undefined] included).  A
    string is taken byte by byte, which is character by character when it
    is ASCII. *)
Definition spread (v : JsVal) : list (string * JsVal) :=
  match v with
  | JObj props => props
  | JArr items => indexed (fun x => x) 0 items
  | JStr s => indexed JStr 0 (chars s)
  | _ => []
  end.

(** Defining property [k] in a literal after a spread: an existing
    property keeps its position and takes the new value, a new one goes to
    the end. *)
Fixpoint define (props : list (string * JsVal)) (k : string) (v : JsVal)
  : list (string * JsVal) :=
  match props with
  | [] => [(k, v)]
  | (k', v') :: rest =>
      if k' =? k then (k, v) :: rest else (k', v') :: define rest k v
  end.

(** ** Currency symbols *)

Definition CURRENCY_SYMBOLS : list (string * string) :=
  [("USD", "$"); ("GBP", "£"); ("AUD", "A$"); ("CAD", "C$"); ("EUR", "€")].

Fixpoint table_get (t : list (string * string)) (k : string) : option string :=
  match t with
  | [] => None
  | (k', v) :: rest => if k' =? k then Some v else table_get rest k
  end.

(** [CURRENCY_SYMBOLS[currency] || "$"], as the template literals print
    it.  [CURRENCY_SYMBOLS] is an object literal: the read finds one of its
    five own properties, or else a member that it inherits from
    [Object.prototype], which is truthy and is printed in place of a
    symbol; only when it finds neither is the symbol the dollar sign. *)
Definition symbol_of {H : Host} (currency : string) : string :=
  match table_get CURRENCY_SYMBOLS currency with
  | Some s => s
  | None => match inherited currency with
            | Some text => text
            | None => "$"
            end
  end.

(** [url.replace(/^https?:\/\//, '').split('/')[0]] *)
Definition domain_of (url : string) : string := first_segment "/" (strip_scheme url).

(** * The generative API, as [handleAudit] sees it

    A call to [ai.models.generateContent] for a model settles after some
    milliseconds with a response or with an error, or never settles. *)
Inductive Generation : Type :=
| Fulfils (after : N) (res : JsVal)
| Rejects (after : N) (e : JsError)
| Hangs.

(** [Math.round(ms/1000)] printed in a template literal. *)
Definition seconds_text (ms : N) : string :=
  NilZero.string_of_uint (N.to_uint ((ms + 500) / 1000)).

(** [new Set(l)] spread into an array: first occurrences, in order. *)
Fixpoint unique_from (seen l : list string) : list string :=
  match l with
  | [] => []
  | x :: rest =>
      if existsb (String.eqb x) seen then unique_from seen rest
      else x :: unique_from (x :: seen) rest
  end.

Definition unique (l : list string) : list string := unique_from [] l.


(** * part_001: [createSafeReport] with the score multiplier and the
      measured screenshot *)

Module Part001.
Section Normalizer.
Context {H : Host}.

Definition get (obj : JsVal) (path : string) (fallback : JsVal) : JsVal :=
  match path_reduce obj path with
  | Normal val => if usable val then val else fallback
  | Throw _ => fallback
  end.

Definition getArray (obj : JsVal) (path : string) (fallback : list JsVal) : list JsVal :=
  match path_reduce obj path with
  | Normal (JArr (x :: l)) => x :: l
  | _ => fallback
  end.

(** The score multiplier: the revenue risk from the performance score. *)
Definition revenueRisk (sym : string) (perfScore : JsNumber) : string :=
  if num_geb perfScore (Fin 90) then sym ++ "0 - " ++ sym ++ "5,000 Risk"
  else if num_geb perfScore (Fin 50) then sym ++ "25,000 - " ++ sym ++ "45,000 Risk"
  else sym ++ "80,000+ Risk".

(** The callback of [.map] on the recommendations. *)
Definition complete (rec : JsVal) : Completion JsVal :=
  projectedRevenue <- member rec "projectedRevenue" ;;
  projectedCustomers <- member rec "projectedCustomers" ;;
  Normal (JObj (define (define (spread rec)
    "projectedRevenue" (js_or projectedRevenue (JStr "High Impact")))
    "projectedCustomers" (js_or projectedCustomers (JStr "+5-10%")))).

(** [dateStr] is what
    [new Date().toLocaleDateString('en-US', {month:'long', year:'numeric'}).toUpperCase()]
    yields when the call is made: the clock is an input. *)
Definition createSafeReport (dateStr : string) (data : JsVal) (url : string)
    (perfScore : JsNumber) (currency : string) (screenshot : JsVal)
  : Completion JsVal :=
  let domain := domain_of url in
  let sym := symbol_of currency in
  object [
    ("titlePage", object [
      "reportTitle" ::: JStr "Website Audit Pro";
      "subTitle" ::: get data "titlePage.subTitle" (JStr "Professional Business & Website Analysis");
      "websiteName" ::: get data "titlePage.websiteName" (JStr (toUpperCase domain));
      "businessType" ::: get data "titlePage.businessType" (JStr "Digital Business");
      "url" ::: JStr url;
      "date" ::: JStr dateStr;
      "preparedBy" ::: JStr "AI STUDIERS";
      "preparedFor" ::: JStr "STRATEGIC PARTNER";
      "clientCompany" ::: JStr (toUpperCase domain);
      "screenshot" ::: js_or (js_or screenshot
          (opt_member (opt_member data "titlePage") "screenshot")) (JStr "")
    ]);
    ("roiAnalysis", object [
      "estimatedLostRevenue" ::: JStr (revenueRisk sym perfScore);
      "potentialConversionIncrease" ::: get data "roiAnalysis.potentialConversionIncrease" (JStr "15-22%");
      "customerLifetimeValueImpact" ::: get data "roiAnalysis.customerLifetimeValueImpact" (JStr "Critical Strategic Risk");
      "summary" ::: get data "roiAnalysis.summary" (JStr "Technical friction and brand positioning gaps are directly impacting your bottom line.")
    ]);
    ("executiveSummary", object [
      "overallScore" ::: JNum (Number (get data "executiveSummary.overallScore" (JNum (Math_max perfScore (Fin 65)))));
      "grade" ::: get data "executiveSummary.grade" (JStr (if num_gtb perfScore (Fin 80) then "A-" else "B"));
      "categoryScores" ::: JArr (getArray data "executiveSummary.categoryScores" (rows "category" "score" [
        ("Technical", "8/10"); ("Design & UX", "7/10");
        ("Content", "6/10"); ("SEO", "8/10");
        ("Conversion", "5/10"); ("Mobile", "7/10");
        ("Trust", "6/10"); ("Clarity", "7/10")]));
      "keyFindings" ::: JArr (getArray data "executiveSummary.keyFindings" (strs ["Page load times on mobile exceed the 3-second threshold."; "Differentiation missing."; "Typography inconsistent."; "Trust signals missing."; "Mobile nav issues."]));
      "immediateActions" ::: JArr (getArray data "executiveSummary.immediateActions" (strs ["Optimize hero assets."; "Restructure header."; "Fix layout shifts."]))
    ]);
    ("businessIntelligence", object [
      "companyProfile" ::: JArr (getArray data "businessIntelligence.companyProfile" (rows "item" "details" [("Legal Name", toUpperCase domain); ("Founded", "N/A"); ("Team Size", "N/A"); ("Service Area", "Global")]));
      "businessModel" ::: JArr (getArray data "businessIntelligence.businessModel" (rows "element" "information" [("Target Market", "Premium B2B"); ("Pricing Strategy", "Value-Based"); ("Revenue Streams", "Direct Client Projects")]));
      "valueProposition" ::: get data "businessIntelligence.valueProposition" (JStr "Delivering technically superior digital experiences.");
      "differentiationClaims" ::: JArr (getArray data "businessIntelligence.differentiationClaims" (strs ["Technical Excellence"; "Rapid Scaling"]));
      "gapAnalysis" ::: JArr (getArray data "businessIntelligence.gapAnalysis" (strs ["Digital Presence maturity does not match service quality."]));
      ("onlinePresence", object [
        "websiteTech" ::: get data "businessIntelligence.onlinePresence.websiteTech" (JStr "Modern Architecture");
        "socialMedia" ::: JArr (getArray data "businessIntelligence.onlinePresence.socialMedia" (rows "platform" "status" [("LinkedIn", "Active"); ("Instagram", "Not Present")]))
      ])
    ]);
    ("technicalAudit", object [
      "performance" ::: JArr (getArray data "technicalAudit.performance" (strs ["HTTPS/SSL Secure: ACTIVE"; "Mobile Responsiveness: OPTIMIZED"; "Page Load Speed: MODERATE"; "Browser Compatibility: MODERN"]));
      ("siteStructure", object [
        "navigationClarity" ::: get data "technicalAudit.siteStructure.navigationClarity" (JStr "8/10");
        "menuItems" ::: get data "technicalAudit.siteStructure.menuItems" (JStr "HOME | SERVICES | PORTFOLIO | ABOUT | CONTACT");
        "contactAccessibility" ::: get data "technicalAudit.siteStructure.contactAccessibility" (JStr "High - Fixed Header CTA")
      ]);
      "seoTechnical" ::: JArr (getArray data "technicalAudit.seoTechnical" (rows "element" "status" [("Page Title", "Optimized"); ("Meta Description", "Present"); ("URL Structure", "Clean"); ("Sitemap Present", "✓"); ("Robots.txt", "✓"); ("Schema Markup", "✗")]))
    ]);
    ("contentAudit", object [
      ("homepageAnalysis", object [
        "firstImpression" ::: get data "contentAudit.homepageAnalysis.firstImpression" (JStr "Professional aesthetic with clear focal points.");
        "valueCommunication" ::: get data "contentAudit.homepageAnalysis.valueCommunication" (JStr "Moderate.");
        "heroSection" ::: get data "contentAudit.homepageAnalysis.heroSection" (JStr "WE BUILD DIGITAL FUTURES");
        "primaryCTA" ::: get data "contentAudit.homepageAnalysis.primaryCTA" (JStr "START YOUR PROJECT")
      ]);
      "pageInventory" ::: JArr (getArray data "contentAudit.pageInventory" [
        JObj [("page", JStr "About Page"); ("status", JStr "Present"); ("quality", JStr "7/10"); ("notes", JStr "Lacks team personality.")];
        JObj [("page", JStr "Services Page"); ("status", JStr "Present"); ("quality", JStr "9/10"); ("notes", JStr "Comprehensive breakdown.")];
        JObj [("page", JStr "Contact Page"); ("status", JStr "Present"); ("quality", JStr "8/10"); ("notes", JStr "Clear form.")]]);
      "contentQuality" ::: JArr (getArray data "contentAudit.contentQuality" (rows "aspect" "rating" [("Writing Quality", "EXCELLENT"); ("Content Depth", "SURFACE-LEVEL"); ("Industry Authority", "DEVELOPING"); ("Content Freshness", "OCCASIONAL UPDATES")]));
      "visualDesign" ::: JArr (getArray data "contentAudit.visualDesign" (rows "aspect" "details" [("Design Era", "Modern 2024-25"); ("Brand Consistency", "Strong Palette Control"); ("Typography", "Professional Sans-Serif"); ("Imagery Quality", "High-quality Assets")]))
    ]);
    ("conversionInsights", object [
      "ctaVisibility" ::: get data "conversionInsights.ctaVisibility" (JStr "7/10");
      "primaryCtas" ::: JArr (getArray data "conversionInsights.primaryCtas" (strs ["Get Started"; "Free Audit"; "Contact Expert"]));
      "leadGeneration" ::: JArr (getArray data "conversionInsights.leadGeneration" (rows "element" "status" [("Contact Forms", "Present"); ("Phone Prominence", "Moderate"); ("Email Signup", "✗ Missing")]));
      "frictionPoints" ::: JArr (getArray data "conversionInsights.frictionPoints" (strs ["Lack of trust badges near forms."; "Multi-step form complexity."]));
      "trustSignals" ::: JArr (getArray data "conversionInsights.trustSignals" (rows "type" "status" [("Testimonials", "✓ Found"); ("Case Studies", "✗ Missing"); ("Client Logos", "✓ Present"); ("Privacy Policy", "✓ Present")]))
    ]);
    ("seoMarketing", object [
      "keywords" ::: JArr (getArray data "seoMarketing.keywords" (strs ["Innovation"; "B2B Solutions"; "Market Leader"]));
      "localSeo" ::: get data "seoMarketing.localSeo" (JStr "Present but lacks local review density.");
      "contentMarketing" ::: JArr (getArray data "seoMarketing.contentMarketing" (rows "aspect" "status" [("Blog Status", "Abandoned"); ("Educational Value", "Low"); ("Thought Leadership", "Developing")]));
      "contentTypes" ::: JArr (getArray data "seoMarketing.contentTypes" (strs ["Blog"; "Case Studies"; "Whitepapers"]))
    ]);
    ("competitivePositioning", object [
      "positioningStatement" ::: get data "competitivePositioning.positioningStatement" (JStr "The reliable technical partner for scaling enterprises.");
      "differentiation" ::: get data "competitivePositioning.differentiation" (JStr "Technical precision and rapid turnaround.");
      "industryComparison" ::: JArr (getArray data "competitivePositioning.industryComparison" (rows "metric" "rating" [("Sophistication", "Above Average"); ("Price Point", "Premium")]));
      "marketGaps" ::: JArr (getArray data "competitivePositioning.marketGaps" (strs ["Lack of interactive pricing tools."; "Minimal video case studies."]))
    ]);
    ("mobileExperience", object [
      "analysis" ::: JArr (getArray data "mobileExperience.analysis" (rows "aspect" "rating" [("Touch Targets", "Adequate"); ("Navigation", "Good"); ("Page Speed", "Moderate"); ("CTA Visibility", "Visible")]));
      "issues" ::: JArr (getArray data "mobileExperience.issues" (strs ["LCP over 3s."; "Horizontal scroll issues on smaller devices."]))
    ]);
    ("criticalIssues", object [
      "high" ::: JArr (getArray data "criticalIssues.high" (rows "title" "desc" [("LCP Failure", "Hero image is not optimized, causing significant render delay."); ("Form Friction", "Validation errors are not clear on small screens.")]));
      "medium" ::: JArr (getArray data "criticalIssues.medium" (rows "title" "desc" [("Branding Gaps", "Inconsistent logo usage.")]));
      "low" ::: JArr (getArray data "criticalIssues.low" (rows "title" "desc" [("Meta Density", "Keywords could be better optimized.")]))
    ]);
    ("recommendations", array (array_map complete (getArray data "recommendations" [
      JObj [("title", JStr "Optimize Hero Assets"); ("priority", JStr "9/10"); ("impact", JStr "High"); ("effort", JStr "Low"); ("why", JStr "Current assets delay page visibility."); ("how", JArr (strs ["Apply WebP formats"; "Set explicit dimensions"])); ("expectedOutcome", JStr "30% faster LCP");
            ("projectedRevenue", JStr (sym ++ "5k")); ("projectedCustomers", JStr "+10%")]])));
    ("growthOpportunities", object [
      "quickWins" ::: JArr (getArray data "growthOpportunities.quickWins" (rows "title" "metric" [("Favicon Update", "Brand"); ("SSL Check", "Trust")]));
      "strategic" ::: JArr (getArray data "growthOpportunities.strategic" (rows "title" "metric" [("Interactive Audit Tool", "Leads")]));
      "longTerm" ::: JArr (getArray data "growthOpportunities.longTerm" (rows "title" "metric" [("Multi-market SEO", "Traffic")]))
    ]);
    ("competitiveIntelligence", object [
      "competitorAnalysis" ::: JArr (getArray data "competitiveIntelligence.competitorAnalysis" [
        JObj [("name", JStr "Industry Leader A"); ("known", JStr "Known Competitor"); ("description", JStr "Aggressive pricing and high content output.")];
        JObj [("name", JStr "Direct Rival B"); ("known", JStr "Known Competitor"); ("description", JStr "Minimalist approach, focus on luxury market.")]]);
      "advantages" ::: JArr (getArray data "competitiveIntelligence.advantages" (strs ["Superior technical stack"; "Faster deployment cycles"; "Personalized client service model"]))
    ]);
    ("finalSummary", object [
      "overallScore" ::: JNum (Number (get data "executiveSummary.overallScore" (JNum (Math_max perfScore (Fin 65)))));
      "breakdown" ::: JArr (getArray data "finalSummary.breakdown" (rows "category" "score" [
        ("TECHNICAL", "8/10"); ("DESIGN & UX", "7/10");
        ("CONTENT", "6/10"); ("SEO", "8/10");
        ("CONVERSION", "5/10"); ("MOBILE", "7/10");
        ("TRUST", "6/10"); ("CLARITY", "7/10")]));
      "summaryText" ::: get data "finalSummary.summaryText" (JStr "Your digital ecosystem shows significant promise, but technical hurdles in performance and conversion clarity are currently capping your growth. Implementing the high-priority recommendations will likely yield immediate ROI.")
    ]);
    "actionPlan" ::: JArr (getArray data "actionPlan" [
      JObj [("step", JInt 1); ("action", JStr "Fix LCP"); ("owner", JStr "Dev"); ("timeline", JStr "Week 1")]])
  ].
End Normalizer.

Section Controller.
(** The helper for the AI timeout. *)
Definition timeoutPromise (ms : N) (promise : Generation) : Completion JsVal :=
  let timed_out := Error ("Analysis Request Timed Out (" ++ seconds_text ms
    ++ "s limit). The model is busy.") in
  match promise with
  | Fulfils after value => if (after <? ms)%N then Normal value else Throw timed_out
  | Rejects after reason => if (after <? ms)%N then Throw reason else Throw timed_out
  | Hangs => Throw timed_out
  end.

Variable generateContent : string -> Generation.

(** The generation stage of [handleAudit]: one call, for the selected
    [model].  As in [Part000.generate], the models attempted come with
    the outcome. *)
Definition generate (model : string) : list string * Completion JsVal :=
  ([model], timeoutPromise 180000 (generateContent model)).
End Controller.
End Part001.

(** * part_000: [createSafeReport] with six default recommendations *)

Module Part000.
Section Normalizer.
Context {H : Host}.

(** Robust getter that rejects empty strings/nulls. *)
Definition get (obj : JsVal) (path : string) (fallback : JsVal) : Completion JsVal :=
  val <- path_reduce obj path ;;
  Normal (if usable val then val else fallback).

(** Robust array getter that rejects empty arrays. *)
Definition getArray (obj : JsVal) (path : string) (fallback : list JsVal)
  : Completion (list JsVal) :=
  val <- path_reduce obj path ;;
  Normal (match val with
          | JArr (x :: l) => x :: l
          | _ => fallback
          end).

(** The callback of [.map] on the recommendations: ensure these fields
    exist even if the API misses them. *)
Definition complete (rec : JsVal) : Completion JsVal :=
  projectedRevenue <- member rec "projectedRevenue" ;;
  projectedCustomers <- member rec "projectedCustomers" ;;
  Normal (JObj (define (define (spread rec)
    "projectedRevenue" (js_or projectedRevenue (JStr "High Impact Potential")))
    "projectedCustomers" (js_or projectedCustomers (JStr "+5-10% Uplift")))).

Definition recommendation (title priority impact effort why : string)
    (how : list string) (expectedOutcome projectedRevenue projectedCustomers : string)
  : JsVal :=
  JObj [("title", JStr title); ("priority", JStr priority); ("impact", JStr impact);
        ("effort", JStr effort); ("why", JStr why); ("how", JArr (strs how));
        ("expectedOutcome", JStr expectedOutcome);
        ("projectedRevenue", JStr projectedRevenue);
        ("projectedCustomers", JStr projectedCustomers)].

Definition createSafeReport (dateStr : string) (data : JsVal) (url : string)
    (perfScore : JsNumber) (currency : string) : Completion JsVal :=
  let domain := domain_of url in
  let sym := symbol_of currency in
  object [
    ("titlePage", object [
      "reportTitle" ::: JStr "Website Audit Pro";
      ("subTitle", get data "titlePage.subTitle" (JStr "Professional Business & Website Analysis"));
      ("websiteName", get data "titlePage.websiteName" (JStr (toUpperCase domain)));
      ("businessType", get data "titlePage.businessType" (JStr "Digital Business"));
      "url" ::: JStr url;
      "date" ::: JStr dateStr;
      "preparedBy" ::: JStr "AI STUDIERS";
      "preparedFor" ::: JStr "STRATEGIC PARTNER";
      "clientCompany" ::: JStr (toUpperCase domain);
      "screenshot" ::: js_or (opt_member (opt_member data "titlePage") "screenshot") (JStr "")
    ]);
    ("roiAnalysis", object [
      ("estimatedLostRevenue", get data "roiAnalysis.estimatedLostRevenue" (JStr (sym ++ "45,000 - " ++ sym ++ "85,000 / yr")));
      ("potentialConversionIncrease", get data "roiAnalysis.potentialConversionIncrease" (JStr "15-22%"));
      ("customerLifetimeValueImpact", get data "roiAnalysis.customerLifetimeValueImpact" (JStr "Critical Strategic Risk"));
      ("summary", get data "roiAnalysis.summary" (JStr "Technical friction and brand positioning gaps are directly impacting your bottom line."))
    ]);
    ("executiveSummary", object [
      ("overallScore", v <- get data "executiveSummary.overallScore" (JNum (Math_max perfScore (Fin 65))) ;; Normal (JNum (Number v)));
      ("grade", get data "executiveSummary.grade" (JStr (if num_gtb perfScore (Fin 80) then "A-" else "B")));
      ("categoryScores", array (getArray data "executiveSummary.categoryScores" (rows "category" "score" [
        ("Technical", "8/10");
        ("Design & UX", "7/10");
        ("Content", "6/10");
        ("SEO", "8/10");
        ("Conversion", "5/10");
        ("Mobile", "7/10");
        ("Trust", "6/10");
        ("Clarity", "7/10")])));
      ("keyFindings", array (getArray data "executiveSummary.keyFindings" (strs [
        "Page load times on mobile exceed the 3-second threshold.";
        "Value proposition lacks differentiation from primary competitors.";
        "Inconsistent typography and CTA styling dilutes brand authority.";
        "Trust signals (case studies) are missing from the primary path.";
        "Mobile navigation menu obscures high-priority contact information."])));
      ("immediateActions", array (getArray data "executiveSummary.immediateActions" (strs [
        "Optimize hero assets to reduce LCP by ~1.5s.";
        "Restructure header to prioritize the unique value proposition.";
        "Fix layout shifts (CLS) on service landing pages."])))
    ]);
    ("businessIntelligence", object [
      ("companyProfile", array (getArray data "businessIntelligence.companyProfile" (rows "item" "details" [
        ("Legal Name", toUpperCase domain);
        ("Founded", "N/A");
        ("Team Size", "N/A");
        ("Service Area", "Global")])));
      ("businessModel", array (getArray data "businessIntelligence.businessModel" (rows "element" "information" [
        ("Target Market", "Premium B2B");
        ("Pricing Strategy", "Value-Based");
        ("Revenue Streams", "Direct Client Projects")])));
      ("valueProposition", get data "businessIntelligence.valueProposition" (JStr "Delivering technically superior digital experiences."));
      ("differentiationClaims", array (getArray data "businessIntelligence.differentiationClaims" (strs ["Technical Excellence"; "Rapid Scaling"])));
      ("gapAnalysis", array (getArray data "businessIntelligence.gapAnalysis" (strs ["Digital Presence maturity does not match service quality."])));
      ("onlinePresence", object [
        ("websiteTech", get data "businessIntelligence.onlinePresence.websiteTech" (JStr "Modern Architecture"));
        ("socialMedia", array (getArray data "businessIntelligence.onlinePresence.socialMedia" (rows "platform" "status" [
          ("LinkedIn", "Active");
          ("Instagram", "Not Present")])))
      ])
    ]);
    ("technicalAudit", object [
      ("performance", array (getArray data "technicalAudit.performance" (strs [
        "HTTPS/SSL Secure: ACTIVE";
        "Mobile Responsiveness: OPTIMIZED";
        "Page Load Speed: MODERATE (2.4s)";
        "Browser Compatibility: MODERN"])));
      ("siteStructure", object [
        ("navigationClarity", get data "technicalAudit.siteStructure.navigationClarity" (JStr "8/10"));
        ("menuItems", get data "technicalAudit.siteStructure.menuItems" (JStr "HOME | SERVICES | PORTFOLIO | ABOUT | CONTACT"));
        ("contactAccessibility", get data "technicalAudit.siteStructure.contactAccessibility" (JStr "High - Fixed Header CTA"))
      ]);
      ("seoTechnical", array (getArray data "technicalAudit.seoTechnical" (rows "element" "status" [
        ("Page Title", "Optimized");
        ("Meta Description", "Present");
        ("URL Structure", "Clean");
        ("Sitemap Present", "✓");
        ("Robots.txt", "✓");
        ("Schema Markup", "✗")])))
    ]);
    ("contentAudit", object [
      ("homepageAnalysis", object [
        ("firstImpression", get data "contentAudit.homepageAnalysis.firstImpression" (JStr "Professional aesthetic with clear focal points."));
        ("valueCommunication", get data "contentAudit.homepageAnalysis.valueCommunication" (JStr "Moderate."));
        ("heroSection", get data "contentAudit.homepageAnalysis.heroSection" (JStr "WE BUILD DIGITAL FUTURES"));
        ("primaryCTA", get data "contentAudit.homepageAnalysis.primaryCTA" (JStr "START YOUR PROJECT"))
      ]);
      ("pageInventory", array (getArray data "contentAudit.pageInventory" [
        JObj [("page", JStr "About Page"); ("status", JStr "Present"); ("quality", JStr "7/10"); ("notes", JStr "Lacks team personality.")];
        JObj [("page", JStr "Services Page"); ("status", JStr "Present"); ("quality", JStr "9/10"); ("notes", JStr "Comprehensive breakdown.")];
        JObj [("page", JStr "Contact Page"); ("status", JStr "Present"); ("quality", JStr "8/10"); ("notes", JStr "Clear form.")]]));
      ("contentQuality", array (getArray data "contentAudit.contentQuality" (rows "aspect" "rating" [
        ("Writing Quality", "Excellent");
        ("Content Depth", "Surface-level");
        ("Industry Authority", "Developing");
        ("Content Freshness", "Occasional Updates")])));
      ("visualDesign", array (getArray data "contentAudit.visualDesign" (rows "aspect" "details" [
        ("Design Era", "Modern 2024-25");
        ("Brand Consistency", "Strong Palette Control");
        ("Typography", "Professional Sans-Serif");
        ("Imagery Quality", "High-quality Assets")])))
    ]);
    ("conversionInsights", object [
      ("ctaVisibility", get data "conversionInsights.ctaVisibility" (JStr "7/10"));
      ("primaryCtas", array (getArray data "conversionInsights.primaryCtas" (strs ["Get Started"; "Free Audit"; "Contact Expert"])));
      ("leadGeneration", array (getArray data "conversionInsights.leadGeneration" (rows "element" "status" [
        ("Contact Forms", "Present");
        ("Phone Prominence", "Moderate");
        ("Email Signup", "✗ Missing")])));
      ("frictionPoints", array (getArray data "conversionInsights.frictionPoints" (strs ["Lack of trust badges near forms."; "Multi-step form complexity."])));
      ("trustSignals", array (getArray data "conversionInsights.trustSignals" (rows "type" "status" [
        ("Testimonials", "✓ Found");
        ("Case Studies", "✗ Missing");
        ("Client Logos", "✓ Present");
        ("Privacy Policy", "✓ Present")])))
    ]);
    ("seoMarketing", object [
      ("keywords", array (getArray data "seoMarketing.keywords" (strs ["Innovation"; "B2B Solutions"; "Market Leader"])));
      ("localSeo", get data "seoMarketing.localSeo" (JStr "Present but lacks local review density."));
      ("contentMarketing", array (getArray data "seoMarketing.contentMarketing" (rows "aspect" "status" [
        ("Blog Status", "Abandoned");
        ("Educational Value", "Low");
        ("Thought Leadership", "Developing")])));
      ("contentTypes", array (getArray data "seoMarketing.contentTypes" (strs ["Blog"; "Case Studies"; "Whitepapers"])))
    ]);
    ("competitivePositioning", object [
      ("positioningStatement", get data "competitivePositioning.positioningStatement" (JStr "The reliable technical partner for scaling enterprises."));
      ("differentiation", get data "competitivePositioning.differentiation" (JStr "Technical precision and rapid turnaround."));
      ("industryComparison", array (getArray data "competitivePositioning.industryComparison" (rows "metric" "rating" [
        ("Sophistication", "Above Average");
        ("Price Point", "Premium")])));
      ("marketGaps", array (getArray data "competitivePositioning.marketGaps" (strs ["Lack of interactive pricing tools."; "Minimal video case studies."])))
    ]);
    ("mobileExperience", object [
      ("analysis", array (getArray data "mobileExperience.analysis" (rows "aspect" "rating" [
        ("Touch Targets", "Adequate");
        ("Navigation", "Good");
        ("Page Speed", "Moderate");
        ("CTA Visibility", "Visible")])));
      ("issues", array (getArray data "mobileExperience.issues" (strs ["LCP over 3s."; "Horizontal scroll issues on smaller devices."])))
    ]);
    ("criticalIssues", object [
      ("high", array (getArray data "criticalIssues.high" (rows "title" "desc" [
        ("LCP Failure", "Hero image is not optimized, causing significant render delay.");
        ("Form Friction", "Validation errors are not clear on small screens.")])));
      ("medium", array (getArray data "criticalIssues.medium" (rows "title" "desc" [
        ("Branding Gaps", "Footer fonts differ from primary brand styles.")])));
      ("low", array (getArray data "criticalIssues.low" (rows "title" "desc" [
        ("Meta Density", "Description tags lack local keyword saturation.")])))
    ]);
    ("recommendations", array (
      recs <- getArray data "recommendations" [
        recommendation "Optimize Hero Assets" "9/10" "High" "Low"
          "Current assets delay page visibility."
          ["Apply WebP formats"; "Set explicit dimensions"]
          "30% faster LCP"
          (sym ++ "2,500 - " ++ sym ++ "5,000 / yr")
          "+5-8% Retention";
        recommendation "Implement Schema Markup" "8/10" "High" "Medium"
          "Search engines struggle to parse rich data."
          ["Add JSON-LD for Organization"; "Tag Service pages"]
          "Higher organic CTR"
          (sym ++ "1,200 - " ++ sym ++ "3,000 / yr")
          "+12% Organic Traffic";
        recommendation "Simplify Contact Forms" "8/10" "High" "Low"
          "High field count causes drop-offs."
          ["Reduce fields to 3"; "Add auto-fill"]
          "15% More Inquiries"
          (sym ++ "10,000+ / yr")
          "+15% Leads";
        recommendation "Add Social Proof" "7/10" "Medium" "Low"
          "Users lack trust signals on landing pages."
          ["Embed Google Reviews"; "Show client logos"]
          "Lower Bounce Rate"
          (sym ++ "4,000 - " ++ sym ++ "8,000 / yr")
          "+5% Conv. Rate";
        recommendation "Fix Mobile Nav" "7/10" "Medium" "Medium"
          "Menu is hard to tap on small screens."
          ["Increase tap targets"; "Simplify hierarchy"]
          "Better Mobile UX"
          "Indirect Growth"
          "Reduced Churn";
        recommendation "Create Lead Magnet" "6/10" "Medium" "High"
          "No value exchange for early-stage visitors."
          ["Write industry whitepaper"; "Setup email automation"]
          "Build Email List"
          (sym ++ "5,000+ Long Term")
          "+25 Monthly Subscribers"] ;;
      array_map complete recs));
    ("growthOpportunities", object [
      ("quickWins", array (getArray data "growthOpportunities.quickWins" (rows "title" "metric" [("Favicon Update", "Brand consistency"); ("SSL Check", "Trust signal")])));
      ("strategic", array (getArray data "growthOpportunities.strategic" (rows "title" "metric" [("Interactive Audit Tool", "+25% Lead Gen")])));
      ("longTerm", array (getArray data "growthOpportunities.longTerm" (rows "title" "metric" [("Multi-market SEO", "+100% Reach")])))
    ]);
    ("competitiveIntelligence", object [
      ("competitorAnalysis", array (getArray data "competitiveIntelligence.competitorAnalysis" [
        JObj [("name", JStr "Industry Leader A"); ("known", JStr "Known"); ("description", JStr "Aggressive pricing and high content output.")];
        JObj [("name", JStr "Direct Rival B"); ("known", JStr "Known"); ("description", JStr "Minimalist approach, focus on luxury market.")]]));
      ("advantages", array (getArray data "competitiveIntelligence.advantages" (strs ["Superior technical stack"; "Personalized client service model"; "Faster deployment cycles"])))
    ]);
    ("finalSummary", object [
      ("overallScore", v <- get data "executiveSummary.overallScore" (JNum (Math_max perfScore (Fin 65))) ;; Normal (JNum (Number v)));
      ("breakdown", array (getArray data "finalSummary.breakdown" (rows "category" "score" [
        ("Technical", "8/10");
        ("Design & UX", "7/10");
        ("Content", "6/10");
        ("SEO", "8/10");
        ("Conversion", "5/10");
        ("Mobile", "7/10");
        ("Trust", "6/10");
        ("Clarity", "7/10")])));
      ("summaryText", get data "finalSummary.summaryText" (JStr "Your digital ecosystem shows significant promise, but technical hurdles in performance and conversion clarity are currently capping your growth. Implementing the high-priority recommendations will likely yield immediate ROI."))
    ]);
    ("actionPlan", array (getArray data "actionPlan" [
      JObj [("step", JInt 1); ("action", JStr "Implement Hero Fixes"); ("owner", JStr "Dev"); ("timeline", JStr "Week 1")]]))
  ].
End Normalizer.

Section Controller.
(** The helper for the AI timeout: the promise wins if it settles before
    the timer fires. *)
Definition timeoutPromise (ms : N) (promise : Generation) : Completion JsVal :=
  let timed_out := Error ("Analysis Request Timed Out (" ++ seconds_text ms
    ++ "s limit). The model is busy or the prompt is too complex.") in
  match promise with
  | Fulfils after value => if (after <? ms)%N then Normal value else Throw timed_out
  | Rejects after reason => if (after <? ms)%N then Throw reason else Throw timed_out
  | Hangs => Throw timed_out
  end.

Definition fallbackModels : list string :=
  ["gemini-3-flash-preview"; "gemini-2.5-flash"; "gemini-flash-latest"].

(** Ensure selected model is first, then fallbacks, removing duplicates. *)
Definition modelQueue (model : string) : list string :=
  model :: filter (fun m => negb (m =? model)) fallbackModels.

Definition uniqueQueue (model : string) : list string := unique (modelQueue model).

Variable generateContent : string -> Generation.

(** 3 minutes timeout (180000 ms). *)
Definition attemptGeneration (modelToTry : string) : Completion JsVal :=
  timeoutPromise 180000 (generateContent modelToTry).

(** The [for] loop over the queue, from position [i] on.  The first
    component of the result is the models attempted, in order (the lines
    the loop logs); the second is [res] after the loop, or the error
    thrown to the outer [catch]. *)
Fixpoint attempt_from (queue : list string) : list string * Completion JsVal :=
  match queue with
  | [] => ([], Normal JUndefined)
  | currentModel :: rest =>
      match attemptGeneration currentModel with
      | Normal res => ([currentModel], Normal res)
      | Throw e =>
          match rest with
          | [] => ([currentModel],
                   Throw (Error ("All models failed. Last error: " ++ message e)))
          | _ :: _ =>
              let (tried, outcome) := attempt_from rest in
              (currentModel :: tried, outcome)
          end
      end
  end.

(** The generation stage of [handleAudit] for the selected [model]. *)
Definition generate (model : string) : list string * Completion JsVal :=
  attempt_from (uniqueQueue model).
End Controller.
End Part000.

(** * One host, to run examples

    Decimal integer text is read as that integer, integers are printed in
    decimal, products and quotients are exact, and text is upper-cased as
    ASCII text is: ECMAScript does the same wherever no rounding takes
    place and the text is ASCII.  It serves the closed examples only; every
    general theorem is stated for an arbitrary host. *)

Fixpoint digits_value (s : string) (acc : Z) : option Z :=
  match s with
  | EmptyString => Some acc
  | String c rest =>
      let n := Z.of_nat (nat_of_ascii c) in
      if ((48 <=? n) && (n <=? 57))%Z then digits_value rest (10 * acc + (n - 48))%Z
      else None
  end.

Definition num_text (n : JsNumber) : string :=
  match n with
  | NaN => "NaN"
  | PosInf => "Infinity"
  | NegInf => "-Infinity"
  | Fin q => NilZero.string_of_int (Z.to_int (Qfloor q))
  end.

Definition lift2 (f : Q -> Q -> Q) (a b : JsNumber) : JsNumber :=
  match a, b with
  | Fin x, Fin y => Fin (f x y)
  | _, _ => NaN
  end.

(** The members of [Object.prototype], printed as V8 prints them. *)
Definition Object_prototype : list (string * string) :=
  [("constructor", "function Object() { [native code] }");
   ("__defineGetter__", "function __defineGetter__() { [native code] }");
   ("__defineSetter__", "function __defineSetter__() { [native code] }");
   ("hasOwnProperty", "function hasOwnProperty() { [native code] }");
   ("__lookupGetter__", "function __lookupGetter__() { [native code] }");
   ("__lookupSetter__", "function __lookupSetter__() { [native code] }");
   ("isPrototypeOf", "function isPrototypeOf() { [native code] }");
   ("propertyIsEnumerable", "function propertyIsEnumerable() { [native code] }");
   ("toString", "function toString() { [native code] }");
   ("valueOf", "function valueOf() { [native code] }");
   ("__proto__", "[object Object]");
   ("toLocaleString", "function toLocaleString() { [native code] }")].

Definition sample_host : Host := {|
  StringToNumber := fun s =>
    match digits_value s 0 with
    | Some z => Fin (inject_Z z)
    | None => NaN
    end;
  NumberToString := num_text;
  float_mul := lift2 Qmult;
  float_div := lift2 Qdiv;
  toUpperCase := upper_text;
  toUpperCase_ascii := fun s _ => eq_refl;
  inherited := table_get Object_prototype
|}.

(** * The [AuditReport] interface of [types.ts] *)














(** * services/performanceService: [fetchRealAuditData] *)

(** ** White space

    [s.trim()] and the class of white space in a regular expression take
    the WhiteSpace and LineTerminator characters of ECMAScript.  In UTF-8
    they are: one of the bytes 09 to 0D and 20; C2 A0 (U+00A0);
    E1 9A 80 (U+1680); E2 80 80 to E2 80 8A (U+2000 to U+200A);
    E2 80 A8, E2 80 A9 and E2 80 AF (U+2028, U+2029 and U+202F);
    E2 81 9F (U+205F); E3 80 80 (U+3000); EF BB BF (U+FEFF). *)
Definition is_space (c : ascii) : bool :=
  let n := nat_of_ascii c in
  (n =? 32)%nat || ((9 <=? n)%nat && (n <=? 13)%nat).

Definition is_space2 (c1 c2 : ascii) : bool :=
  (nat_of_ascii c1 =? 194)%nat && (nat_of_ascii c2 =? 160)%nat.

Definition is_space3 (c1 c2 c3 : ascii) : bool :=
  let n1 := nat_of_ascii c1 in
  let n2 := nat_of_ascii c2 in
  let n3 := nat_of_ascii c3 in
  ((n1 =? 225) && (n2 =? 154) && (n3 =? 128))%nat
  || ((n1 =? 226) && (n2 =? 128)
      && (((128 <=? n3) && (n3 <=? 138)) || (n3 =? 168) || (n3 =? 169) || (n3 =? 175)))%nat
  || ((n1 =? 226) && (n2 =? 129) && (n3 =? 159))%nat
  || ((n1 =? 227) && (n2 =? 128) && (n3 =? 128))%nat
  || ((n1 =? 239) && (n2 =? 187) && (n3 =? 191))%nat.

(** What follows the white-space character that [s] starts with, when it
    starts with one. *)
Definition white_space (s : string) : option string :=
  match s with
  | EmptyString => None
  | String c1 rest1 =>
      if is_space c1 then Some rest1
      else match rest1 with
           | EmptyString => None
           | String c2 rest2 =>
               if is_space2 c1 c2 then Some rest2
               else match rest2 with
                    | EmptyString => None
                    | String c3 rest3 => if is_space3 c1 c2 c3 then Some rest3 else None
                    end
           end
  end.

(** Two of them, for the examples: the no-break space and the byte-order
    mark. *)
Definition nbsp : string := String (ascii_of_nat 194) (String (ascii_of_nat 160) EmptyString).

Definition bom : string :=
  String (ascii_of_nat 239) (String (ascii_of_nat 187) (String (ascii_of_nat 191) EmptyString)).

(** An ASCII byte that is not white space: it is part of no white-space
    character. *)
Definition plain (c : ascii) : bool :=
  (nat_of_ascii c <? 128)%nat && negb (is_space c).

(** [s.trimStart()]: the white-space characters at the start go. *)
Fixpoint trim_start (s : string) : string :=
  match s with
  | EmptyString => s
  | String c1 rest1 =>
      if is_space c1 then trim_start rest1
      else match rest1 with
           | EmptyString => s
           | String c2 rest2 =>
               if is_space2 c1 c2 then trim_start rest2
               else match rest2 with
                    | EmptyString => s
                    | String c3 rest3 => if is_space3 c1 c2 c3 then trim_start rest3 else s
                    end
           end
  end.

(** [s] holds white-space characters only. *)
Fixpoint all_space (s : string) : bool :=
  match s with
  | EmptyString => true
  | String c1 rest1 =>
      if is_space c1 then all_space rest1
      else match rest1 with
           | EmptyString => false
           | String c2 rest2 =>
               if is_space2 c1 c2 then all_space rest2
               else match rest2 with
                    | EmptyString => false
                    | String c3 rest3 => if is_space3 c1 c2 c3 then all_space rest3 else false
                    end
           end
  end.

(** [s.trimEnd()]: the text is cut at the first place after which it holds
    white space only. *)
Fixpoint trim_end (s : string) : string :=
  match s with
  | EmptyString => EmptyString
  | String c rest => if all_space s then EmptyString else String c (trim_end rest)
  end.

(** [s.trim()] *)
Definition trim (s : string) : string := trim_end (trim_start s).

Definition startsWith (s p : string) : bool :=
  match strip_prefix p s with
  | Some _ => true
  | None => false
  end.

(** [Object.values(v)] *)
Definition Object_values (v : JsVal) : Completion (list JsVal) :=
  match v with
  | JUndefined | JNull => Throw (TypeError "Cannot convert undefined or null to object")
  | JObj props => Normal (map snd props)
  | JArr items => Normal items
  | JStr s => Normal (map JStr (chars s))
  | _ => Normal []
  end.

(** [array.filter(p)] where [p] may throw. *)
Fixpoint array_filter {A} (p : A -> Completion bool) (l : list A) : Completion (list A) :=
  match l with
  | [] => Normal []
  | x :: rest =>
      keep <- p x ;;
      kept <- array_filter p rest ;;
      Normal (if keep then x :: kept else kept)
  end.

(** [array.sort(compare)], where only the sign of [compare(a, b)] matters
    and NaN counts as 0.  ECMAScript asks for a stable sort; for a
    consistent comparator every stable sort gives the same array, here the
    one of insertion from the left. *)
Section Sort.
Context {A : Type} (compare : A -> A -> option comparison).

Fixpoint insert (x : A) (sorted : list A) : list A :=
  match sorted with
  | [] => [x]
  | y :: rest =>
      match compare x y with
      | Some Lt => x :: y :: rest
      | _ => y :: insert x rest
      end
  end.

Definition array_sort (l : list A) : list A :=
  fold_left (fun sorted x => insert x sorted) l [].
End Sort.

(** What the network does with the request: the response head arrives
    after some milliseconds, or the request fails after some milliseconds,
    or nothing ever comes back.  [res.json()] then settles with the parsed
    body or rejects. *)
Inductive Body : Type :=
| Parsed (data : JsVal)
| Unparsable (e : JsError).

Record Response : Type := mkResponse { ok : bool; statusText : string; body : Body }.

Inductive Network : Type :=
| Responds (after : N) (res : Response)
| Fails (after : N) (e : JsError)
| Silent.

Record Opportunity : Type := mkOpportunity {
  title : JsVal;
  description : JsVal;
  savings : JsVal
}.

Record CrawlData : Type := mkCrawlData {
  performanceScore : JsNumber;
  seoScore : JsNumber;
  accessibilityScore : JsNumber;
  bestPracticesScore : JsNumber;
  lcp : JsVal;
  cls : JsVal;
  fcp : JsVal;
  totalSize : JsNumber;
  fieldLcp : JsVal;
  fieldInp : JsVal;
  fieldCls : JsVal;
  screenshot : JsVal;
  metaDescription : JsVal;
  documentTitle : JsVal;
  imageAltMissing : JsVal;
  https : bool;
  viewport : bool;
  opportunities : list Opportunity;
  errors : list string
}.

Module PerformanceService.
Section Fetcher.
Context {H : Host}.

(** The abort controller fires after 60 seconds. *)
Definition timeout_ms : N := 60000.

Definition AbortError : JsError := mkError "AbortError" "signal is aborted without reason".

(** [await fetch(buildUrl(activeKey), { signal: controller.signal })]:
    whatever has not arrived when the timer fires is aborted. *)
Definition fetch (net : Network) : Completion Response :=
  match net with
  | Responds after res => if (after <? timeout_ms)%N then Normal res else Throw AbortError
  | Fails after e => if (after <? timeout_ms)%N then Throw e else Throw AbortError
  | Silent => Throw AbortError
  end.

(** [await res.json()] *)
Definition json (res : Response) : Completion JsVal :=
  match body res with
  | Parsed data => Normal data
  | Unparsable e => Throw e
  end.

(** [await res.json().catch(() => ({}))] *)
Definition json_or_empty (res : Response) : JsVal :=
  match body res with
  | Parsed data => data
  | Unparsable _ => JObj []
  end.

Definition getFieldMetric (loadingExperience : JsVal) (metricName : string) : JsVal :=
  let metric := opt_member (prop loadingExperience "metrics") metricName in
  if negb (truthy metric) then JNull
  else JObj [("score", prop metric "category"); ("value", prop metric "percentile")].

(** The filter callback:
    [audit.details?.type === 'opportunity' && (audit.score !== null && audit.score < 0.9)] *)
Definition is_opportunity (audit : JsVal) : Completion bool :=
  details <- member audit "details" ;;
  Normal (strict_eq_str (opt_member details "type") "opportunity"
          && (match prop audit "score" with JNull => false | _ => true end
              && num_ltb (Number (prop audit "score")) lit_0_9)).

(** [x.details?.overallSavingsMs || 0], as the comparator subtracts it. *)
Definition overallSavingsMs (audit : JsVal) : JsNumber :=
  Number (js_or (opt_member (prop audit "details") "overallSavingsMs") (JInt 0)).

(** The sort callback: the sign of
    [(b.details?.overallSavingsMs || 0) - (a.details?.overallSavingsMs || 0)]. *)
Definition by_savings (a b : JsVal) : option comparison :=
  sub_sign (overallSavingsMs b) (overallSavingsMs a).

Definition summary (audit : JsVal) : Opportunity := {|
  title := prop audit "title";
  description := prop audit "description";
  savings := js_or (prop audit "displayValue") (JStr "")
|}.

(** The audits kept for the record, before they are summarized. *)
Definition ranked (audits : JsVal) : Completion (list JsVal) :=
  values <- Object_values audits ;;
  kept <- array_filter is_opportunity values ;;
  Normal (firstn 5 (array_sort by_savings kept)).

Definition opportunities_of (audits : JsVal) : Completion (list Opportunity) :=
  top <- ranked audits ;;
  Normal (map summary top).

(** The body of the [try] block. *)
Definition measure (net : Network) : Completion CrawlData :=
  res <- fetch net ;;
  if negb (ok res) then
    let errorBody := json_or_empty res in
    error <- member errorBody "error" ;;
    Throw (Error ("PageSpeed API Error: "
                  ++ ToString (js_or (opt_member error "message") (JStr (statusText res))))%string)
  else
    data <- json res ;;
    lighthouseResult <- member data "lighthouseResult" ;;
    audits <- member lighthouseResult "audits" ;;
    categories <- member lighthouseResult "categories" ;;
    let loadingExperience := js_or (prop data "loadingExperience") (JObj []) in
    opportunities <- opportunities_of audits ;;
    performance <- member categories "performance" ;;
    Normal {|
      performanceScore := percent (opt_member performance "score");
      seoScore := percent (opt_member (prop categories "seo") "score");
      accessibilityScore := percent (opt_member (prop categories "accessibility") "score");
      bestPracticesScore := percent (opt_member (prop categories "best-practices") "score");
      lcp := js_or (opt_member (prop audits "largest-contentful-paint") "numericValue") (JInt 0);
      cls := js_or (opt_member (prop audits "cumulative-layout-shift") "numericValue") (JInt 0);
      fcp := js_or (opt_member (prop audits "first-contentful-paint") "numericValue") (JInt 0);
      totalSize := Math_round (float_div
        (Number (js_or (opt_member (prop audits "total-byte-weight") "numericValue") (JInt 0)))
        (Fin 1024));
      fieldLcp := getFieldMetric loadingExperience "LARGEST_CONTENTFUL_PAINT_MS";
      fieldInp := getFieldMetric loadingExperience "INTERACTION_TO_NEXT_PAINT";
      fieldCls := getFieldMetric loadingExperience "CUMULATIVE_LAYOUT_SHIFT_SCORE";
      screenshot := js_or (opt_member (opt_member (prop audits "final-screenshot") "details") "data") JNull;
      metaDescription :=
        JStr (if strict_eq_one (opt_member (prop audits "meta-description") "score")
              then "Present" else "Missing");
      documentTitle :=
        if strict_eq_one (opt_member (prop audits "document-title") "score")
        then prop (prop audits "document-title") "displayValue"
        else JStr "Missing";
      imageAltMissing :=
        js_or (opt_member (opt_member (opt_member (prop audits "image-alt") "details") "items") "length")
              (JInt 0);
      https := strict_eq_one (opt_member (prop audits "is-on-https") "score");
      viewport := strict_eq_one (opt_member (prop audits "viewport") "score");
      opportunities := opportunities;
      errors := []
    |}.

(** The record of the [catch] block: default "failed" data, so that the
    app does not crash. *)
Definition failed (e : JsError) : CrawlData := {|
  performanceScore := Fin 0; seoScore := Fin 0; accessibilityScore := Fin 0;
  bestPracticesScore := Fin 0;
  lcp := JInt 0; cls := JInt 0; fcp := JInt 0; totalSize := Fin 0;
  fieldLcp := JNull; fieldInp := JNull; fieldCls := JNull; screenshot := JNull;
  metaDescription := JNull; documentTitle := JNull; imageAltMissing := JInt 0;
  https := false; viewport := false; opportunities := [];
  errors := [if name e =? "AbortError" then "PageSpeed Analysis Timed Out (Skipped)"
             else message e]
|}.

(** [(pageSpeedKey?.trim()) || (geminiKey?.trim()) || (process.env.API_KEY?.trim())] *)
Definition resolve_key (geminiKey : string) (pageSpeedKey envKey : option string)
  : option string :=
  let pick (k : option string) : option string :=
    match k with
    | Some s => if trim s =? "" then None else Some (trim s)
    | None => None
    end in
  match pick pageSpeedKey with
  | Some k => Some k
  | None => match pick (Some geminiKey) with
            | Some k => Some k
            | None => pick envKey
            end
  end.

(** [net] is the network's reaction to the request built by [buildUrl]
    for the target URL and the key. *)
(** The URL that is measured: the trimmed input, with [https://] put in
    front of it when it names no scheme. *)
Definition target_of (url : string) : string :=
  let targetUrl := trim url in
  if negb (startsWith targetUrl "http://") && negb (startsWith targetUrl "https://")
  then ("https://" ++ targetUrl)%string
  else targetUrl.

Definition fetchRealAuditData (net : string -> string -> Network)
    (url geminiKey : string) (pageSpeedKey envKey : option string)
  : Completion CrawlData :=
  let targetUrl := target_of url in
  match resolve_key geminiKey pageSpeedKey envKey with
  | None => Throw (Error "No API Key found. Please configure process.env.API_KEY or use Settings.")
  | Some activeKey =>
      match measure (net targetUrl activeKey) with
      | Normal record => Normal record
      | Throw e => Normal (failed e)
      end
  end.
End Fetcher.
End PerformanceService.

(** * Vocabulary of the statements *)

(** The value at a path of own properties, as a reader of the report (or of
    the candidate) finds it. *)
Definition field (v : JsVal) (k : string) : JsVal :=
  match v with
  | JObj props => own props k
  | _ => JUndefined
  end.

Definition select (v : JsVal) (path : list string) : JsVal := fold_left field path v.

(** The value stands for nothing supplied ([undefined], [null], [""]) or
    is truthy; what is left out is [false], [0] and [NaN]. *)
Definition passable (v : JsVal) : bool := truthy v || negb (usable v).

(** Every section that encloses the leaf of [path] is passable. *)
Fixpoint sections_passable (v : JsVal) (path : list string) : bool :=
  match path with
  | [] => true
  | k :: rest => passable v && sections_passable (field v k) rest
  end.

(** The report with the value at [path] replaced by [x]. *)
Fixpoint replace_at (path : list string) (x : JsVal) (v : JsVal) : JsVal :=
  match path with
  | [] => x
  | k :: rest =>
      match v with
      | JObj props =>
          JObj (map (fun kv => if fst kv =? k then (fst kv, replace_at rest x (snd kv)) else kv)
                    props)
      | _ => v
      end
  end.

Definition on_result {A B} (f : A -> B) (c : Completion A) : Completion B :=
  match c with
  | Normal a => Normal (f a)
  | Throw e => Throw e
  end.

(** [v[i]] on an array. *)
Definition item (v : JsVal) (i : nat) : JsVal :=
  match v with
  | JArr items => nth i items JUndefined
  | _ => JUndefined
  end.

(** The recommendations a candidate supplies: its non-empty list at
    [recommendations], if it has one. *)
Definition supplied_recommendations (data : JsVal) : list JsVal :=
  match resolve data "recommendations" with
  | JArr items => items
  | _ => []
  end.

(** No supplied recommendation is [null]. *)
Definition null_free (data : JsVal) : bool :=
  forallb (fun rec => negb (nullish rec)) (supplied_recommendations data).

(** Partial and total correctness of a call. *)
Definition Ensures {A} (c : Completion A) (P : A -> Prop) : Prop :=
  forall a, c = Normal a -> P a.

Definition Returns {A} (c : Completion A) (P : A -> Prop) : Prop :=
  exists a, c = Normal a /\ P a.

(** The paths that [createSafeReport] reads through [get] and keeps as
    found (in part_000 also [roiAnalysis.estimatedLostRevenue]), and the
    paths it reads through [getArray] and keeps as found. *)
Definition scalar_paths : list string := [
  "titlePage.subTitle"; "titlePage.websiteName"; "titlePage.businessType";
  "roiAnalysis.potentialConversionIncrease"; "roiAnalysis.customerLifetimeValueImpact";
  "roiAnalysis.summary";
  "executiveSummary.grade";
  "businessIntelligence.valueProposition";
  "businessIntelligence.onlinePresence.websiteTech";
  "technicalAudit.siteStructure.navigationClarity";
  "technicalAudit.siteStructure.menuItems";
  "technicalAudit.siteStructure.contactAccessibility";
  "contentAudit.homepageAnalysis.firstImpression";
  "contentAudit.homepageAnalysis.valueCommunication";
  "contentAudit.homepageAnalysis.heroSection";
  "contentAudit.homepageAnalysis.primaryCTA";
  "conversionInsights.ctaVisibility";
  "seoMarketing.localSeo";
  "competitivePositioning.positioningStatement";
  "competitivePositioning.differentiation";
  "finalSummary.summaryText"].

Definition list_paths : list string := [
  "executiveSummary.categoryScores"; "executiveSummary.keyFindings";
  "executiveSummary.immediateActions";
  "businessIntelligence.companyProfile"; "businessIntelligence.businessModel";
  "businessIntelligence.differentiationClaims"; "businessIntelligence.gapAnalysis";
  "businessIntelligence.onlinePresence.socialMedia";
  "technicalAudit.performance"; "technicalAudit.seoTechnical";
  "contentAudit.pageInventory"; "contentAudit.contentQuality"; "contentAudit.visualDesign";
  "conversionInsights.primaryCtas"; "conversionInsights.leadGeneration";
  "conversionInsights.frictionPoints"; "conversionInsights.trustSignals";
  "seoMarketing.keywords"; "seoMarketing.contentMarketing"; "seoMarketing.contentTypes";
  "competitivePositioning.industryComparison"; "competitivePositioning.marketGaps";
  "mobileExperience.analysis"; "mobileExperience.issues";
  "criticalIssues.high"; "criticalIssues.medium"; "criticalIssues.low";
  "growthOpportunities.quickWins"; "growthOpportunities.strategic";
  "growthOpportunities.longTerm";
  "competitiveIntelligence.competitorAnalysis"; "competitiveIntelligence.advantages";
  "finalSummary.breakdown";
  "actionPlan"].

(** The override law and the default law at one path: [r] is the report
    for the candidate [data] and [r0] the report for the empty candidate,
    which holds the defaults. *)
Definition scalar_law (data r r0 : JsVal) (path : list string) : Prop :=
  (usable (select data path) = true -> select r path = select data path)
  /\ (usable (select data path) = false -> sections_passable data path = true ->
      select r path = select r0 path).

Definition list_law (data r r0 : JsVal) (path : list string) : Prop :=
  (nonempty_array (select data path) = true -> select r path = select data path)
  /\ (nonempty_array (select data path) = false -> select r path = select r0 path).

Definition laws (scalars lists : list string) (data r r0 : JsVal) : Prop :=
  (forall p, In p scalars -> scalar_law data r r0 (split_on "." p))
  /\ (forall p, In p lists -> list_law data r r0 (split_on "." p)).

(** A candidate with nulls, empty strings, an empty list and a
    recommendation without projections, for the examples. *)
Definition partial_candidate : JsVal := JObj [
  ("titlePage", JObj [("subTitle", JStr ""); ("websiteName", JNull);
                      ("businessType", JStr "SaaS")]);
  ("roiAnalysis", JNull);
  ("executiveSummary", JObj [("keyFindings", JArr []); ("grade", JStr "B+")]);
  ("recommendations", JArr [JObj [
     ("title", JStr "Compress images"); ("priority", JStr "9/10");
     ("impact", JStr "High"); ("effort", JStr "Low"); ("why", JStr "Slow hero.");
     ("how", JArr [JStr "Use WebP"]); ("expectedOutcome", JStr "Faster LCP")]])].

(** What the fallback loop does with a queue, given what each attempt
    yields: the models tried are a prefix of the queue, every one of them
    but the last failed, and the outcome is that of the last one, a success
    being returned as it is and a failure being reported only when the
    queue is used up. *)
Definition fails (attempt : string -> Completion JsVal) (m : string) : Prop :=
  exists e, attempt m = Throw e.

Definition fallback_rule (attempt : string -> Completion JsVal)
    (queue tried : list string) (outcome : Completion JsVal) : Prop :=
  exists earlier last_model rest,
    tried = earlier ++ [last_model]
    /\ queue = tried ++ rest
    /\ (forall m, In m earlier -> fails attempt m)
    /\ match outcome with
       | Normal res => attempt last_model = Normal res
       | Throw err =>
           rest = []
           /\ exists e, attempt last_model = Throw e
                        /\ err = Error ("All models failed. Last error: " ++ message e)
       end.

(** A generative API for the examples: the first two fallback models are
    overloaded, the third answers after 1.2 seconds, anything else hangs. *)
Definition busy_api (m : string) : Generation :=
  if m =? "gemini-flash-latest" then Fulfils 1200 (JObj [("text", JStr "{}")])
  else if (m =? "gemini-3-flash-preview") || (m =? "gemini-2.5-flash")
       then Rejects 300 (mkError "ApiError" "The model is overloaded.")
       else Hangs.

(** ** The fetcher's failures and its opportunities *)

(** The record carries nothing measured: every number is 0, both flags are
    false, there are no opportunities, and there is a diagnostic. *)
Definition degraded (r : CrawlData) : Prop :=
  performanceScore r = Fin 0 /\ seoScore r = Fin 0
  /\ accessibilityScore r = Fin 0 /\ bestPracticesScore r = Fin 0
  /\ lcp r = JInt 0 /\ cls r = JInt 0 /\ fcp r = JInt 0 /\ totalSize r = Fin 0
  /\ imageAltMissing r = JInt 0
  /\ https r = false /\ viewport r = false
  /\ opportunities r = []
  /\ exists diagnostic, errors r = [diagnostic].

(** A payload that cannot be mapped: there is none, or it lacks the
    Lighthouse result, its audits or its categories, or one of the audits is
    [null]. *)
Inductive Malformed (data : JsVal) : Prop :=
| no_payload : nullish data = true -> Malformed data
| no_result : nullish (prop data "lighthouseResult") = true -> Malformed data
| no_audits :
    nullish (prop (prop data "lighthouseResult") "audits") = true -> Malformed data
| no_categories :
    nullish (prop (prop data "lighthouseResult") "categories") = true -> Malformed data
| null_audit (values : list JsVal) :
    Object_values (prop (prop data "lighthouseResult") "audits") = Normal values ->
    existsb nullish values = true -> Malformed data.

(** The ways in which the fetch fails internally. *)
Inductive InternalFailure : Network -> Prop :=
| timed_out_silent : InternalFailure Silent
| timed_out_response (after : N) (res : Response) :
    (60000 <= after)%N -> InternalFailure (Responds after res)
| network_failure (after : N) (e : JsError) : InternalFailure (Fails after e)
| bad_status (after : N) (res : Response) :
    ok res = false -> InternalFailure (Responds after res)
| unparsable_body (after : N) (res : Response) (e : JsError) :
    body res = Unparsable e -> InternalFailure (Responds after res)
| malformed_payload (after : N) (res : Response) (data : JsVal) :
    body res = Parsed data -> Malformed data -> InternalFailure (Responds after res).

(** The filter callback on an audit that is not [null]. *)
Definition qualifies {H : Host} (audit : JsVal) : bool :=
  strict_eq_str (opt_member (prop audit "details") "type") "opportunity"
  && (match prop audit "score" with JNull => false | _ => true end
      && num_ltb (Number (prop audit "score")) lit_0_9).


(** A Lighthouse payload for the examples: ten audits, seven of them
    opportunities below the threshold, one of which states no savings. *)
Definition audit (kind : string) (score : JsVal) (saved : Z) (name : string) : JsVal :=
  JObj [("title", JStr name); ("description", JStr "...");
        ("score", score); ("displayValue", JStr "saves time");
        ("details", JObj [("type", JStr kind); ("overallSavingsMs", JInt saved)])].




(** Two responses for the examples: a refusal that explains itself, and a
    success whose body holds no Lighthouse result. *)
Definition refusal : Response :=
  mkResponse false "Too Many Requests"
    (Parsed (JObj [("error", JObj [("message", JStr "Quota exceeded.")])])).

Definition hollow : Response := mkResponse true "OK" (Parsed (JObj [])).

(** ** The rules that the statements name *)







(** * The rest of the program

    What follows embeds what the sections above leave out of the same
    files: the request that the fetcher builds, the preparation of the
    model's reply for [JSON.parse], [handleAudit] as a whole in both
    revisions, the name of the exported file, the progress shown during a
    run, and the settings kept in [localStorage]. *)

(** ** The request of the fetcher

    [buildUrl] appends seven parameters to the endpoint's [URL] and prints
    it.  A string is the UTF-8 encoding of the JavaScript string; the
    serializer of [URLSearchParams] works on these bytes. *)

(** The bytes that the [application/x-www-form-urlencoded] serializer
    leaves as they are: ASCII letters and digits, [*], [-], [.] and [_]. *)
Definition form_safe (c : ascii) : bool :=
  let n := nat_of_ascii c in
  ((48 <=? n)%nat && (n <=? 57)%nat) || ((65 <=? n)%nat && (n <=? 90)%nat)
  || ((97 <=? n)%nat && (n <=? 122)%nat)
  || (n =? 42)%nat || (n =? 45)%nat || (n =? 46)%nat || (n =? 95)%nat.

(** An upper-case hexadecimal digit. *)
Definition hex_digit (n : nat) : ascii :=
  if (n <? 10)%nat then ascii_of_nat (48 + n) else ascii_of_nat (55 + n).

(** One byte, serialized: itself, [+] for a space, or [%XX]. *)
Definition form_byte (c : ascii) : string :=
  if form_safe c then String c EmptyString
  else if Ascii.eqb c " " then "+"
  else String "%" (String (hex_digit (nat_of_ascii c / 16))
                  (String (hex_digit (nat_of_ascii c mod 16)) EmptyString)).

Fixpoint form_encode (s : string) : string :=
  match s with
  | EmptyString => EmptyString
  | String c rest => (form_byte c ++ form_encode rest)%string
  end.

(** [u.searchParams.toString()] for the parameters appended, in order. *)
Definition form_serialize (params : list (string * string)) : string :=
  join "&" (map (fun p => (form_encode (fst p) ++ "=" ++ form_encode (snd p))%string) params).

Definition endpoint : string :=
  "https://www.googleapis.com/pagespeedonline/v5/runPagespeed".

(** [buildUrl(key)], with the [targetUrl] it closes over. *)
Definition buildUrl (targetUrl key : string) : string :=
  (endpoint ++ "?" ++ form_serialize [
     ("url", targetUrl);
     ("category", "PERFORMANCE");
     ("category", "SEO");
     ("category", "ACCESSIBILITY");
     ("category", "BEST_PRACTICES");
     ("strategy", "DESKTOP");
     ("key", key)])%string.

(** The character [c] occurs in [s]. *)
Fixpoint occurs (c : ascii) (s : string) : bool :=
  match s with
  | EmptyString => false
  | String d rest => Ascii.eqb d c || occurs c rest
  end.

(** A key that is missing or holds white space only. *)
Definition blank (k : option string) : bool :=
  match k with
  | Some s => trim s =? ""
  | None => true
  end.

(** * The reply of the model, before [JSON.parse]

    [res.text.trim().replace(/```json\s*/g, "").replace(/```\s*$/g, "")] *)

(** The number of bytes of the white-space character that [s] starts
    with, and 0 when it starts with none. *)
Definition white_length (s : string) : nat :=
  match white_space s with
  | Some rest => String.length s - String.length rest
  | None => 0
  end.

(** [s.replace(/```json\s*/g, "")]: every opening fence goes, with the white
    space that follows it.  [skipping] says that such a fence has just been
    read and its white space is being passed over; [pending] counts the
    bytes still to pass over of what has been recognised, a fence or a
    white-space character. *)
Fixpoint without_json_fences (skipping : bool) (pending : nat) (s : string) : string :=
  match s with
  | EmptyString => EmptyString
  | String c rest =>
      match pending with
      | S n => without_json_fences skipping n rest
      | O =>
          match (if skipping then white_length s else 0%nat) with
          | S n => without_json_fences true n rest
          | O =>
              if startsWith s "```json" then without_json_fences true 6 rest
              else String c (without_json_fences false 0 rest)
          end
      end
  end.

(** [/```\s*$/] matches at the start of [s]. *)
Definition closes (s : string) : bool :=
  match strip_prefix "```" s with
  | Some rest => all_space rest
  | None => false
  end.

(** [s.replace(/```\s*$/g, "")]: the first place from which a fence and
    white space run to the end of the text is where the text is cut. *)
Fixpoint without_closing_fence (s : string) : string :=
  match s with
  | EmptyString => EmptyString
  | String c rest => if closes s then EmptyString else String c (without_closing_fence rest)
  end.

(** [text.trim()] as a method call: a TypeError on anything but a string. *)
Definition String_trim (text : JsVal) : Completion string :=
  match text with
  | JStr s => Normal (trim s)
  | JUndefined | JNull =>
      Throw (TypeError "Cannot read properties of null or undefined (reading trim)")
  | _ => Throw (TypeError "res.text.trim is not a function")
  end.

(** What [res] is turned into before it is parsed. *)
Definition unfenced (res : JsVal) : Completion string :=
  text <- member res "text" ;;
  trimmed <- String_trim text ;;
  Normal (without_closing_fence (without_json_fences false 0 trimmed)).

(** * The application state and one audit run *)

(** [JSON.parse] and [JSON.stringify] are left to the host. *)
Class Json : Type := {
  JSON_parse : string -> Completion JsVal;
  JSON_stringify : JsVal -> string
}.

(** What surrounds a run: [process.env.API_KEY], the network's reaction to
    the PageSpeed request for a target and a key, the reaction of the
    generative API to a request made with a key, for a model, with a
    prompt, and the month and year on the clock. *)
Record World : Type := mkWorld {
  API_KEY : option string;
  pagespeed : string -> string -> Network;
  generateContent : string -> string -> string -> Generation;
  today : string
}.

Inductive Status : Type :=
| status_idle
| status_analyzing
| status_complete
| status_error.

(** The state of [App] that [handleAudit] reads and writes. *)
Record AppState : Type := mkAppState {
  app_url : string;
  app_status : Status;
  app_loadingProgress : JsNumber;
  app_report : option JsVal;
  app_error : option string;
  app_psKey : string;
  app_apiKey : string;
  app_model : string;
  app_currency : string
}.

(** [a || b] on strings, and [err.message || "Audit synthesis failed."]. *)
Definition or_string (a b : string) : string := if a =? "" then b else a.

(** What the [try] block leaves in the state, and what the [catch] block
    leaves. *)
Definition completed_with (st : AppState) (r : JsVal) : AppState := {|
  app_url := app_url st;
  app_status := status_complete;
  app_loadingProgress := Fin 100;
  app_report := Some r;
  app_error := None;
  app_psKey := app_psKey st;
  app_apiKey := app_apiKey st;
  app_model := app_model st;
  app_currency := app_currency st
|}.

Definition failed_with (st : AppState) (err : JsError) : AppState := {|
  app_url := app_url st;
  app_status := status_error;
  app_loadingProgress := app_loadingProgress st;
  app_report := app_report st;
  app_error := Some (or_string (message err) "Audit synthesis failed.");
  app_psKey := app_psKey st;
  app_apiKey := app_apiKey st;
  app_model := app_model st;
  app_currency := app_currency st
|}.

(** [realData.opportunities.map(o => o.title)] *)
Definition titles (realData : CrawlData) : JsVal :=
  JArr (map title (opportunities realData)).

Definition nl : string := String (ascii_of_nat 10) EmptyString.
Definition dq : string := String (ascii_of_nat 34) EmptyString.

Definition bool_text (b : bool) : string := if b then "true" else "false".

(** [${CURRENCY_SYMBOLS[currency]}] in a template literal: a code that
    names neither a symbol nor a member of [Object.prototype] prints as
    [undefined]. *)
Definition symbol_text {H : Host} (currency : string) : string :=
  match table_get CURRENCY_SYMBOLS currency with
  | Some s => s
  | None => match inherited currency with
            | Some text => text
            | None => "undefined"
            end
  end.

(** ** part_001: [getEnvKey] and [handleAudit] *)

Module App001.
Section Handler.
Context {H : Host} {J : Json}.
Variable world : World.

(** [process.env.API_KEY] when there is one and it is not empty. *)
Definition getEnvKey : option string :=
  match API_KEY world with
  | Some k => if k =? "" then None else Some k
  | None => None
  end.

Definition prompt (url : string) (realData : CrawlData) (currency : string) : string :=
  String.concat "" [
    "Audit "; url; ". REAL DATA: PageSpeed: "; NumberToString (performanceScore realData); ", LCP: "; ToString (lcp realData); "ms, HTTPS: "; bool_text (https realData); "."; nl;
    "            Issues: "; JSON_stringify (titles realData); "."; nl;
    "            Generate strictly valid JSON matching AuditReport schema."; nl;
    "            Use currency: "; currency; "."].

(** The body of the [try] block: what is passed to [setReport], or what is
    thrown to the [catch] block. *)
Definition synthesize (st : AppState) : Completion JsVal :=
  let envKey := getEnvKey in
  let activeKey := or_string (app_apiKey st)
                     (match envKey with Some k => k | None => "" end) in
  if activeKey =? "" then
    Throw (Error "API Key is missing. Please add your Gemini API Key in Settings.")
  else
    realData <- PerformanceService.fetchRealAuditData (pagespeed world)
                  (app_url st) activeKey (Some (app_psKey st)) (API_KEY world) ;;
    res <- Part001.timeoutPromise 180000
             (generateContent world activeKey (app_model st)
                (prompt (app_url st) realData (app_currency st))) ;;
    text <- unfenced res ;;
    parsed <- JSON_parse text ;;
    Part001.createSafeReport (today world) parsed (app_url st)
      (performanceScore realData) (app_currency st) (screenshot realData).

Definition handleAudit (st : AppState) : AppState :=
  if app_url st =? "" then st
  else
    match synthesize st with
    | Normal r => completed_with st r
    | Throw err => failed_with st err
    end.
End Handler.
End App001.

(** ** part_000: [handleAudit] with the fallback loop, and the name of the
       exported file *)

Module App000.
Section Handler.
Context {H : Host} {J : Json}.
Variable world : World.

Definition prompt (url : string) (realData : CrawlData) (currency : string) : string :=
  String.concat "" [
    "Perform a full professional audit for "; url; ". "; nl;
    "            "; nl;
    "            REAL DATA CONTEXT:"; nl;
    "            - PageSpeed Score: "; NumberToString (performanceScore realData); "/100"; nl;
    "            - LCP: "; ToString (lcp realData); "ms"; nl;
    "            - CLS: "; ToString (cls realData); nl;
    "            - HTTPS: "; bool_text (https realData); nl;
    "            - Technical Issues: "; JSON_stringify (titles realData); nl;
    nl;
    "            STRICTLY FOLLOW THIS 13-SECTION STRUCTURE:"; nl;
    "            1. Title Page: Include 'businessType' (e.g., SaaS, E-commerce)."; nl;
    "            2. Executive Summary: Include 'immediateActions' (Top 3 critical fixes)."; nl;
    "            3. Business Intelligence: "; nl;
    "               - Company Profile table."; nl;
    "               - Business Model table (Target Market, Pricing, Revenue)."; nl;
    "               - Value Prop, Differentiation, Gap Analysis."; nl;
    "               - Online Presence (Tech Stack, Social Media)."; nl;
    "            4. Technical Audit: Use provided Performance data."; nl;
    "            5. Content Audit: Homepage, Page Inventory, Quality, Visual Design."; nl;
    "            6. Conversion: CTA Analysis, Trust Signals (Testimonials, Case Studies, Logos, Privacy Policy), Friction Points."; nl;
    "            7. SEO Marketing: Keywords, Local SEO, Content Types."; nl;
    "            8. Competitive Positioning: Statement, Industry Comparison table (Sophistication/Price), Market Gaps."; nl;
    "            9. Mobile Experience: Analysis + Specific Issues list."; nl;
    "            10. Critical Issues: High/Med/Low priority."; nl;
    "            11. Strategic Action Plan (Recommendations): 6 detailed items. Each must have: "; nl;
    "               - Title, Priority, Impact, Effort, Why, How (steps), Expected Outcome."; nl;
    "               - **projectedRevenue**: Calculate estimated annual revenue increase (e.g., '"; symbol_text currency; "5,000 - "; symbol_text currency; "10,000') using conservative industry conversion benchmarks (1-3% improvement) based on the specific fix. **Detect the business type:** IF RESTAURANT use "; dq; "Covers"; dq; " & "; dq; "Avg Check"; dq; ". IF ECOMMERCE use "; dq; "Conversion Rate"; dq; ". IF SERVICE use "; dq; "Lead Quality"; dq; "."; nl;
    "               - **projectedCustomers**: Calculate estimated customer/lead increase (e.g., '+15-20% leads' or '+50 monthly covers')."; nl;
    "            12. Growth Opportunities: Quick Wins, Strategic, Long-term."; nl;
    "            13. Competitive Intelligence."; nl;
    "            "; nl;
    "            IMPORTANT: ALL FINANCIAL VALUES (Revenue, LTV, etc.) MUST BE IN "; currency; " ("; symbol_text currency; ")."; nl;
    nl;
    "            Return ONLY valid JSON matching the AuditReport schema."].

Definition synthesize (st : AppState) : Completion JsVal :=
  let activeKey := or_string (app_apiKey st)
                     (match API_KEY world with Some k => k | None => "" end) in
  if activeKey =? "" then
    Throw (Error "API Key is missing. Please add your Gemini API Key in Settings.")
  else
    realData <- PerformanceService.fetchRealAuditData (pagespeed world)
                  (app_url st) activeKey (Some (app_psKey st)) (API_KEY world) ;;
    res <- snd (Part000.generate
                  (fun modelToTry =>
                     generateContent world activeKey modelToTry
                       (prompt (app_url st) realData (app_currency st)))
                  (app_model st)) ;;
    text <- unfenced res ;;
    parsed <- JSON_parse text ;;
    Part000.createSafeReport (today world) parsed (app_url st)
      (performanceScore realData) (app_currency st).

Definition handleAudit (st : AppState) : AppState :=
  if app_url st =? "" then st
  else
    match synthesize st with
    | Normal r => completed_with st r
    | Throw err => failed_with st err
    end.
End Handler.

(** [s.replace(/[^a-z0-9]/gi, '_')].  The pattern is applied to UTF-16 code
    units: an ASCII letter or digit is kept, and every other code unit
    becomes an underscore.  On the UTF-8 bytes of the string, a character
    of one to three bytes is one code unit and a character of four bytes is
    two; continuation bytes add nothing. *)
Definition alphanumeric (c : ascii) : bool :=
  let n := nat_of_ascii c in
  ((48 <=? n)%nat && (n <=? 57)%nat) || ((65 <=? n)%nat && (n <=? 90)%nat)
  || ((97 <=? n)%nat && (n <=? 122)%nat).

Definition underscored (c : ascii) : string :=
  let n := nat_of_ascii c in
  if alphanumeric c then String c EmptyString
  else if (n <? 128)%nat then "_"
  else if (n <? 192)%nat then ""
  else if (n <? 240)%nat then "_"
  else "__".

Fixpoint sanitized (s : string) : string :=
  match s with
  | EmptyString => EmptyString
  | String c rest => (underscored c ++ sanitized rest)%string
  end.

(** The [filename] of [handleDownloadPDF], for the report on display. *)
Definition filename (report : JsVal) : Completion string :=
  titlePage <- member report "titlePage" ;;
  websiteName <- member titlePage "websiteName" ;;
  match websiteName with
  | JStr s => Normal (sanitized s ++ "_Audit_Pro.pdf")%string
  | JUndefined | JNull =>
      Throw (TypeError "Cannot read properties of null or undefined (reading replace)")
  | _ => Throw (TypeError "report.titlePage.websiteName.replace is not a function")
  end.
End App000.

(** A name of ASCII letters, digits and underscores. *)
Definition name_safe (s : string) : Prop :=
  forallb (fun c => App000.alphanumeric c || Ascii.eqb c "_") (list_ascii_of_string s) = true.

(** ** The progress shown while a run is analysing *)

(** The updater of the interval: [prev => (prev >= 99 ? 99 : prev + 0.5)].
    Halves add up without rounding. *)
Definition tick (prev : Q) : Q := if Qle_bool 99 prev then 99 else prev + (1 # 2).

(** The progress after [n] intervals of a run, which starts from 0. *)
Fixpoint progress (n : nat) : Q :=
  match n with
  | O => 0
  | S m => tick (progress m)
  end.

(** [Math.round(loadingProgress)], as the screen prints it. *)
Definition shown (p : Q) : Z := Qfloor (p + (1 # 2)).

(** ** More vocabulary for the normalizer *)

(** A completed recommendation keeps whatever else the supplied one holds:
    every property but the two projections reads as it did in the
    properties that the spread copied. *)
Definition keeps (rec out : JsVal) : Prop :=
  forall k, k <> "projectedRevenue" -> k <> "projectedCustomers" ->
            field out k = own (spread rec) k.

(** [spread] copies a string byte by byte, and [{ ...rec }] copies it one
    UTF-16 code unit at a time: they agree on every value that is not a
    string, and on ASCII strings. *)
Definition spread_as_copied (rec : JsVal) : bool :=
  match rec with
  | JStr s => ascii_only s
  | _ => true
  end.

(** The paths of the candidate that [createSafeReport] reduces, in
    part_001 and in part_000. *)
Definition paths_read001 : list string :=
  "executiveSummary.overallScore" :: "recommendations" :: (scalar_paths ++ list_paths)%list.

Definition paths_read000 : list string :=
  "roiAnalysis.estimatedLostRevenue" :: paths_read001.

(** Two candidates in which the reduction
    [path.split('.').reduce((acc, part) => acc && acc[part], data)]
    finds the same at each of the [paths], and in which
    [data?.titlePage?.screenshot] is the same. *)
Definition alike (paths : list string) (d1 d2 : JsVal) : Prop :=
  (forall p, In p paths -> resolve d1 p = resolve d2 p)
  /\ opt_member (opt_member d1 "titlePage") "screenshot"
     = opt_member (opt_member d2 "titlePage") "screenshot".

(** A [JSON] for the examples, which parse the text of an empty object,
    with white space around it or without, and print an empty list of
    titles; it is right on these and serves nothing else.  Every general
    theorem is stated for an arbitrary [Json]. *)
Definition sample_json : Json := {|
  JSON_parse := fun text =>
    if trim text =? "{}" then Normal (JObj [])
    else Throw (mkError "SyntaxError" "Unexpected token in JSON");
  JSON_stringify := fun v =>
    match v with
    | JArr [] => "[]"
    | _ => "null"
    end
|}.

(** A world for the examples: no key in the environment, a PageSpeed API
    that refuses, and a generative API that answers every request with an
    empty object in a fence. *)
Definition sample_world : World := {|
  API_KEY := None;
  pagespeed := fun _ _ => Responds 800 refusal;
  generateContent := fun _ _ _ =>
    Fulfils 4000 (JObj [("text", JStr ("```json" ++ nl ++ "{}" ++ nl ++ "```"))]);
  today := "NOVEMBER 2026"
|}.





(** * The settings kept in [localStorage]

    The storage of the page is closed to it (every access throws a
    SecurityError, as when the browser denies it) or open, with its items.
    Quotas are not modelled: a write to an open storage succeeds. *)

Inductive Storage : Type :=
| Blocked
| Open (items : list (string * string)).

Definition SecurityError : JsError :=
  mkError "SecurityError" "The operation is insecure.".

Fixpoint stored (items : list (string * string)) (key : string) : option string :=
  match items with
  | [] => None
  | (k, v) :: rest => if k =? key then Some v else stored rest key
  end.

Fixpoint store (items : list (string * string)) (key value : string)
  : list (string * string) :=
  match items with
  | [] => [(key, value)]
  | (k, v) :: rest =>
      if k =? key then (k, value) :: rest else (k, v) :: store rest key value
  end.

(** [localStorage.getItem(key)]: the value, or [null]. *)
Definition localStorage_getItem (s : Storage) (key : string) : Completion (option string) :=
  match s with
  | Blocked => Throw SecurityError
  | Open items => Normal (stored items key)
  end.

(** [localStorage.setItem(key, value)], with the storage it leaves. *)
Definition localStorage_setItem (s : Storage) (key value : string) : Completion Storage :=
  match s with
  | Blocked => Throw SecurityError
  | Open items => Normal (Open (store items key value))
  end.

(** The settings of [App] that are kept: the two keys, the currency and
    the theme. *)
Record Settings : Type := mkSettings {
  psKey : string;
  apiKey : string;
  currency_code : string;
  darkMode : bool
}.

(** [item || fallback] for what [getItem] returns. *)
Definition item_or (item : option string) (fallback : string) : string :=
  match item with
  | Some v => or_string v fallback
  | None => fallback
  end.

(** [item === 'dark'] *)
Definition is_dark (item : option string) : bool :=
  match item with
  | Some v => v =? "dark"
  | None => false
  end.

Definition theme_name (dark : bool) : string := if dark then "dark" else "light".

(** ** part_001: [safeLocalStorage], the initial state and the two effects
       that write the settings back *)

Module safeLocalStorage.

(** [try { return localStorage.getItem(key); } catch (e) { return null; }] *)
Definition getItem (s : Storage) (key : string) : option string :=
  match localStorage_getItem s key with
  | Normal item => item
  | Throw _ => None
  end.

(** [try { localStorage.setItem(key, value); } catch (e) {}] *)
Definition setItem (s : Storage) (key value : string) : Storage :=
  match localStorage_setItem s key value with
  | Normal s' => s'
  | Throw _ => s
  end.

End safeLocalStorage.

Module Settings001.

(** The initializers of [useState]. *)
Definition initial (s : Storage) : Settings := {|
  psKey := item_or (safeLocalStorage.getItem s "pro-ps-key") "";
  apiKey := item_or (safeLocalStorage.getItem s "pro-api-key") "";
  currency_code := item_or (safeLocalStorage.getItem s "pro-currency") "USD";
  darkMode := is_dark (safeLocalStorage.getItem s "pro-theme")
|}.

(** The effect on [psKey], [currency] and [apiKey], then the effect on
    [darkMode]. *)
Definition persist (s : Storage) (cfg : Settings) : Storage :=
  let s1 := safeLocalStorage.setItem s "pro-ps-key" (psKey cfg) in
  let s2 := safeLocalStorage.setItem s1 "pro-currency" (currency_code cfg) in
  let s3 := safeLocalStorage.setItem s2 "pro-api-key" (apiKey cfg) in
  safeLocalStorage.setItem s3 "pro-theme" (theme_name (darkMode cfg)).

End Settings001.

(** ** part_000: the same on [localStorage] itself *)

Module Settings000.

Definition initial (s : Storage) : Completion Settings :=
  ps <- localStorage_getItem s "pro-ps-key" ;;
  api <- localStorage_getItem s "pro-api-key" ;;
  cur <- localStorage_getItem s "pro-currency" ;;
  theme <- localStorage_getItem s "pro-theme" ;;
  Normal {|
    psKey := item_or ps "";
    apiKey := item_or api "";
    currency_code := item_or cur "USD";
    darkMode := is_dark theme
  |}.

Definition persist (s : Storage) (cfg : Settings) : Completion Storage :=
  s1 <- localStorage_setItem s "pro-ps-key" (psKey cfg) ;;
  s2 <- localStorage_setItem s1 "pro-currency" (currency_code cfg) ;;
  s3 <- localStorage_setItem s2 "pro-api-key" (apiKey cfg) ;;
  localStorage_setItem s3 "pro-theme" (theme_name (darkMode cfg)).

End Settings000.

(** * The application as a state machine

    What the handlers of the page do to the state, one call at a time: the
    url field and the settings dialog set their fields, the form calls
    [handleAudit], the buttons [Try Again] and [Reset] set the status to
    idle, and the button [Use Flash] of part_000 also selects the flash
    model.  A run of [handleAudit] is taken as one step, with the world
    it runs in. *)

Inductive Event : Type :=
| SetUrl (value : string)
| SetPsKey (value : string)
| SetApiKey (value : string)
| SetModel (value : string)
| SetCurrency (value : string)
| Submit (world : World)
| TryAgain
| UseFlash.

Definition with_url (st : AppState) (v : string) : AppState :=
  mkAppState v (app_status st) (app_loadingProgress st) (app_report st) (app_error st)
    (app_psKey st) (app_apiKey st) (app_model st) (app_currency st).

Definition with_psKey (st : AppState) (v : string) : AppState :=
  mkAppState (app_url st) (app_status st) (app_loadingProgress st) (app_report st)
    (app_error st) v (app_apiKey st) (app_model st) (app_currency st).

Definition with_apiKey (st : AppState) (v : string) : AppState :=
  mkAppState (app_url st) (app_status st) (app_loadingProgress st) (app_report st)
    (app_error st) (app_psKey st) v (app_model st) (app_currency st).

Definition with_model (st : AppState) (v : string) : AppState :=
  mkAppState (app_url st) (app_status st) (app_loadingProgress st) (app_report st)
    (app_error st) (app_psKey st) (app_apiKey st) v (app_currency st).

Definition with_currency (st : AppState) (v : string) : AppState :=
  mkAppState (app_url st) (app_status st) (app_loadingProgress st) (app_report st)
    (app_error st) (app_psKey st) (app_apiKey st) (app_model st) v.

Definition with_status (st : AppState) (v : Status) : AppState :=
  mkAppState (app_url st) v (app_loadingProgress st) (app_report st) (app_error st)
    (app_psKey st) (app_apiKey st) (app_model st) (app_currency st).

(** The state in which [App] starts, given the settings read from the
    storage. *)
Definition starting (cfg : Settings) : AppState := {|
  app_url := "";
  app_status := status_idle;
  app_loadingProgress := Fin 0;
  app_report := None;
  app_error := None;
  app_psKey := psKey cfg;
  app_apiKey := apiKey cfg;
  app_model := "gemini-3-pro-preview";
  app_currency := currency_code cfg
|}.

Section Machine.
Context {H : Host} {J : Json}.

(** part_001 has no [Use Flash] button: the event does not occur there. *)
Definition step001 (st : AppState) (ev : Event) : AppState :=
  match ev with
  | SetUrl v => with_url st v
  | SetPsKey v => with_psKey st v
  | SetApiKey v => with_apiKey st v
  | SetModel v => with_model st v
  | SetCurrency v => with_currency st v
  | Submit world => App001.handleAudit world st
  | TryAgain => with_status st status_idle
  | UseFlash => st
  end.

Definition step000 (st : AppState) (ev : Event) : AppState :=
  match ev with
  | SetUrl v => with_url st v
  | SetPsKey v => with_psKey st v
  | SetApiKey v => with_apiKey st v
  | SetModel v => with_model st v
  | SetCurrency v => with_currency st v
  | Submit world => App000.handleAudit world st
  | TryAgain => with_status st status_idle
  | UseFlash => with_status (with_model st "gemini-3-flash-preview") status_idle
  end.
End Machine.

(** What the screens rely on: the report screen has a report to show, the
    error screen has a message that is not empty, and between two calls
    the state is not left analysing. *)
Definition presentable (st : AppState) : Prop :=
  (app_status st = status_complete -> exists r, app_report st = Some r)
  /\ (app_status st = status_error ->
      exists told, app_error st = Some told /\ told <> "")
  /\ app_status st <> status_analyzing.

(** * Properties *)

Local Open Scope string_scope.

(** ** Numbers *)







(** ** Path reads *)

Lemma truthy_not_nullish (v : JsVal) : truthy v = true -> nullish v = false.
Proof. destruct v; simpl; congruence. Qed.

Lemma reducer_normal (a : JsVal) (part : string) :
  reducer (Normal a) part = Normal (step a part).
Proof.
  unfold reducer, step, member; simpl.
  destruct (truthy a) eqn:T; [rewrite (truthy_not_nullish _ T)|]; reflexivity.
Qed.

(** The reducer never throws: the guard [acc &&] keeps every read away
    from [null] and [undefined]. *)
Lemma path_reduce_normal (obj : JsVal) (path : string) :
  path_reduce obj path = Normal (resolve obj path).
Proof.
  unfold path_reduce, resolve.
  generalize (split_on "." path) as parts. intros parts; revert obj.
  induction parts as [|p ps IH]; intros obj; cbn [fold_left]; [reflexivity|].
  rewrite reducer_normal. apply IH.
Qed.

Lemma get001 (obj : JsVal) (path : string) (fallback : JsVal) :
  Part001.get obj path fallback
  = if usable (resolve obj path) then resolve obj path else fallback.
Proof. unfold Part001.get. rewrite path_reduce_normal. reflexivity. Qed.

Lemma getArray001 (obj : JsVal) (path : string) (fallback : list JsVal) :
  Part001.getArray obj path fallback
  = match resolve obj path with JArr (x :: l) => x :: l | _ => fallback end.
Proof. unfold Part001.getArray. rewrite path_reduce_normal. reflexivity. Qed.

(** Without [try]/[catch] the getters of part_000 still always return, and
    return what those of part_001 return. *)
Lemma get000 (obj : JsVal) (path : string) (fallback : JsVal) :
  Part000.get obj path fallback = Normal (Part001.get obj path fallback).
Proof.
  unfold Part000.get. rewrite get001, path_reduce_normal. reflexivity.
Qed.

Lemma getArray000 (obj : JsVal) (path : string) (fallback : list JsVal) :
  Part000.getArray obj path fallback = Normal (Part001.getArray obj path fallback).
Proof.
  unfold Part000.getArray. rewrite getArray001, path_reduce_normal. reflexivity.
Qed.

(** ** Running the normalizer *)

(** Exposes the report built by part_001: either the recommendations were
    completed and the report is the object literal, or one of them threw. *)
Lemma normal001 {H : Host} (dateStr : string) (data : JsVal) (url : string)
    (perfScore : JsNumber) (currency : string) (screenshot : JsVal)
  : { c | Part001.createSafeReport dateStr data url perfScore currency screenshot = c }.
Proof.
  eexists. unfold Part001.createSafeReport.
  cbn [object evaluate bind array].
  reflexivity.
Defined.

Ltac run001 R :=
  match type of R with
  | Part001.createSafeReport ?d ?data ?url ?p ?c ?s = _ =>
      rewrite (proj2_sig (normal001 d data url p c s)) in R
  end;
  cbn [proj1_sig normal001] in R;
  match type of R with
  | context [array_map ?f ?l] =>
      let recs := fresh "recs" in
      let Erecs := fresh "Erecs" in
      destruct (array_map f l) as [recs|] eqn:Erecs;
      cbn [object evaluate bind array] in R;
      [injection R as <- | discriminate R]
  end.

(** The same for part_000, whose getters are first replaced by the values
    they return. *)
Lemma normal000 {H : Host} (dateStr : string) (data : JsVal) (url : string)
    (perfScore : JsNumber) (currency : string)
  : { c | Part000.createSafeReport dateStr data url perfScore currency = c }.
Proof.
  eexists. unfold Part000.createSafeReport.
  rewrite ?get000, ?getArray000.
  cbn [object evaluate bind array].
  reflexivity.
Defined.

Ltac run000 R :=
  match type of R with
  | Part000.createSafeReport ?d ?data ?url ?p ?c = _ =>
      rewrite (proj2_sig (normal000 d data url p c)) in R
  end;
  cbn [proj1_sig normal000] in R;
  match type of R with
  | context [array_map ?f ?l] =>
      let recs := fresh "recs" in
      let Erecs := fresh "Erecs" in
      destruct (array_map f l) as [recs|] eqn:Erecs;
      cbn [object evaluate bind array] in R;
      [injection R as <- | discriminate R]
  end.

Section Completing.
Context {H : Host}.

Lemma complete001_returns (rec : JsVal) :
  nullish rec = false -> exists out, Part001.complete rec = Normal out.
Proof.
  intros N. unfold Part001.complete, member. rewrite N. cbn [bind]. eauto.
Qed.

Lemma complete000_returns (rec : JsVal) :
  nullish rec = false -> exists out, Part000.complete rec = Normal out.
Proof.
  intros N. unfold Part000.complete, member. rewrite N. cbn [bind]. eauto.
Qed.

Lemma array_map_returns {A B} (f : A -> Completion B) (l : list A) :
  (forall x, In x l -> exists y, f x = Normal y) ->
  exists ys, array_map f l = Normal ys.
Proof.
  induction l as [|x l IH]; intros F; cbn [array_map]; [eauto|].
  destruct (F x (or_introl eq_refl)) as [y ->].
  destruct IH as [ys ->]; [intros z Z; apply F; right; exact Z|].
  cbn [bind]. eauto.
Qed.

Lemma array_map_length {A B} (f : A -> Completion B) (l : list A) (ys : list B) :
  array_map f l = Normal ys -> List.length ys = List.length l.
Proof.
  revert ys; induction l as [|x l IH]; intros ys; cbn [array_map].
  - intros [= <-]. reflexivity.
  - destruct (f x); cbn [bind]; [|discriminate].
    destruct (array_map f l); cbn [bind]; [|discriminate].
    intros [= <-]. simpl. f_equal. apply IH. reflexivity.
Qed.

(** The recommendations a call works on: the supplied ones when there are
    some, the defaults otherwise. *)
Lemma getArray_recommendations (data : JsVal) (fallback : list JsVal) :
  Part001.getArray data "recommendations" fallback
  = match supplied_recommendations data with
    | [] => fallback
    | supplied => supplied
    end.
Proof.
  rewrite getArray001. unfold supplied_recommendations.
  destruct (resolve data "recommendations") as [| | | | |[|x l]|]; reflexivity.
Qed.

Lemma null_free_in (data : JsVal) (rec : JsVal) :
  null_free data = true -> In rec (supplied_recommendations data) -> nullish rec = false.
Proof.
  unfold null_free. rewrite forallb_forall. intros F I.
  apply negb_true_iff. apply F. exact I.
Qed.

(** Part_001 returns a report whenever no supplied recommendation is
    [null]. *)
Lemma createSafeReport001_returns (dateStr : string) (data : JsVal) (url : string)
    (perfScore : JsNumber) (currency : string) (screenshot : JsVal) :
  null_free data = true ->
  exists r, Part001.createSafeReport dateStr data url perfScore currency screenshot = Normal r.
Proof.
  intros NF. rewrite (proj2_sig (normal001 dateStr data url perfScore currency screenshot)).
  cbn [proj1_sig normal001].
  match goal with
  | |- context [array_map ?f ?l] =>
      destruct (array_map_returns f l) as [recs ->]
  end.
  - intros rec I. apply complete001_returns.
    rewrite getArray_recommendations in I.
    destruct (supplied_recommendations data) as [|x l] eqn:S.
    + destruct I as [<-|[]]. reflexivity.
    + apply (null_free_in data); [exact NF|]. rewrite S. exact I.
  - cbn [object evaluate bind array]. eauto.
Qed.

Lemma createSafeReport000_returns (dateStr : string) (data : JsVal) (url : string)
    (perfScore : JsNumber) (currency : string) :
  null_free data = true ->
  exists r, Part000.createSafeReport dateStr data url perfScore currency = Normal r.
Proof.
  intros NF. rewrite (proj2_sig (normal000 dateStr data url perfScore currency)).
  cbn [proj1_sig normal000].
  match goal with
  | |- context [array_map ?f ?l] =>
      destruct (array_map_returns f l) as [recs ->]
  end.
  - intros rec I. apply complete000_returns.
    rewrite getArray_recommendations in I.
    destruct (supplied_recommendations data) as [|x l] eqn:S.
    + cbn [In] in I. unfold Part000.recommendation in I.
      repeat (destruct I as [<-|I]; [reflexivity|]). destruct I.
    + apply (null_free_in data); [exact NF|]. rewrite S. exact I.
  - cbn [object evaluate bind array]. eauto.
Qed.
End Completing.
(** ** Fixed title-page fields *)

Section TitlePage.
Context {H : Host}.

End TitlePage.


(** ** Risk tiers *)

Section RiskTiers.
Context {H : Host}.


End RiskTiers.


(** ** Strict reads and the getters *)

Lemma select_undefined (path : list string) : select JUndefined path = JUndefined.
Proof. unfold select. induction path as [|k rest IH]; simpl; auto. Qed.

Lemma field_usable_object (v : JsVal) (k : string) :
  usable (field v k) = true -> prop v k = field v k /\ truthy v = true.
Proof. destruct v; simpl; try discriminate. auto. Qed.

Lemma select_usable_step (v : JsVal) (path : list string) (k : string) :
  usable (select (field v k) path) = true -> field v k <> JUndefined.
Proof.
  intros U E. rewrite E, select_undefined in U. discriminate.
Qed.

Lemma field_object (v : JsVal) (k : string) :
  field v k <> JUndefined -> prop v k = field v k /\ truthy v = true.
Proof. destruct v; simpl; try congruence. auto. Qed.

(** A usable value found by strict reading is the value the getter's
    reduction finds. *)
Lemma resolve_parts_select (path : list string) (v : JsVal) :
  usable (select v path) = true -> fold_left step path v = select v path.
Proof.
  revert v; induction path as [|k rest IH]; intros v U; [reflexivity|].
  cbn [fold_left select] in *. fold (select (field v k) rest) in *.
  destruct (field_object v k (select_usable_step v rest k U)) as [P T].
  unfold step. rewrite T, P. apply IH. exact U.
Qed.

Lemma fold_step_falsy (path : list string) (v : JsVal) :
  truthy v = false -> fold_left step path v = v.
Proof.
  intros T. induction path as [|k rest IH]; [reflexivity|].
  cbn [fold_left]. unfold step at 2. rewrite T. exact IH.
Qed.

(** Where strict reading finds nothing usable, so does the reduction,
    unless it stops on a [false] or a [0] on the way. *)
Lemma resolve_parts_unusable (path : list string) (v : JsVal) :
  ~ In "length" path ->
  sections_passable v path = true ->
  usable (select v path) = false -> usable (fold_left step path v) = false.
Proof.
  revert v; induction path as [|k rest IH]; intros v NL S U; [exact U|].
  cbn [sections_passable] in S. apply andb_true_iff in S. destruct S as [P S].
  assert (K : k <> "length") by (intros ->; apply NL; left; reflexivity).
  assert (NL' : ~ In "length" rest) by (intros I; apply NL; right; exact I).
  destruct (truthy v) eqn:T.
  - cbn [fold_left select] in *. unfold step at 2. rewrite T.
    assert (E : prop v k = field v k).
    { destruct v; simpl; try reflexivity;
        (destruct (k =? "length") eqn:EK; [apply String.eqb_eq in EK; contradiction|reflexivity]). }
    rewrite E. apply IH; assumption.
  - rewrite fold_step_falsy by exact T.
    unfold passable in P. rewrite T in P. simpl in P.
    apply negb_true_iff in P. exact P.
Qed.

(** ** Score derivation *)

Section Scores.
Context {H : Host}.



End Scores.



(** ** Determinism *)

Section Determinism.
Context {H : Host}.

(** C9, amended. Given the same candidate, url, score, currency and
    screenshot, two calls return reports that agree in every field other
    than [titlePage.date], which holds the month and year read from the
    clock when the call is made: the report of a call at another time is
    the same report with that one field replaced, and a call that throws,
    throws whatever the clock says.  Nothing else of the environment is
    read. *)
Theorem clock_sets_only_the_date (d1 d2 : string) (data : JsVal) (url : string)
    (perfScore : JsNumber) (currency : string) (screenshot : JsVal) :
  Part001.createSafeReport d2 data url perfScore currency screenshot
  = on_result (replace_at ["titlePage"; "date"] (JStr d2))
      (Part001.createSafeReport d1 data url perfScore currency screenshot)
  /\ Part000.createSafeReport d2 data url perfScore currency
     = on_result (replace_at ["titlePage"; "date"] (JStr d2))
         (Part000.createSafeReport d1 data url perfScore currency)
  /\ Ensures (Part001.createSafeReport d1 data url perfScore currency screenshot)
       (fun r => select r ["titlePage"; "date"] = JStr d1)
  /\ Ensures (Part000.createSafeReport d1 data url perfScore currency)
       (fun r => select r ["titlePage"; "date"] = JStr d1).
Proof.
  split; [|split; [|split]].
  - pose proof (proj2_sig (normal001 d1 data url perfScore currency screenshot)) as N1.
    pose proof (proj2_sig (normal001 d2 data url perfScore currency screenshot)) as N2.
    cbn [proj1_sig normal001] in N1, N2.
    etransitivity; [exact N2|].
    match type of N1 with
    | _ = ?b => transitivity (on_result (replace_at ["titlePage"; "date"] (JStr d2)) b)
    end; [|f_equal; symmetry; exact N1].
    clear N1 N2.
    match goal with
    | |- context [array_map ?f ?l] => destruct (array_map f l) as [recs|]
    end; cbn [object evaluate bind array on_result]; reflexivity.
  - pose proof (proj2_sig (normal000 d1 data url perfScore currency)) as N1.
    pose proof (proj2_sig (normal000 d2 data url perfScore currency)) as N2.
    cbn [proj1_sig normal000] in N1, N2.
    etransitivity; [exact N2|].
    match type of N1 with
    | _ = ?b => transitivity (on_result (replace_at ["titlePage"; "date"] (JStr d2)) b)
    end; [|f_equal; symmetry; exact N1].
    clear N1 N2.
    match goal with
    | |- context [array_map ?f ?l] => destruct (array_map f l) as [recs|]
    end; cbn [object evaluate bind array on_result]; reflexivity.
  - intros r R. run001 R. reflexivity.
  - intros r R. run000 R. reflexivity.
Qed.
End Determinism.

(** C9 as stated fails: the same arguments in January and in February give
    two reports that differ in [titlePage.date]. *)
Lemma reports_differ_across_months :
  Returns (Part001.createSafeReport (H := sample_host) "JANUARY 2026" (JObj [])
             "example.com" (Fin 72) "USD" JNull)
    (fun r1 =>
       Returns (Part001.createSafeReport (H := sample_host) "FEBRUARY 2026" (JObj [])
                  "example.com" (Fin 72) "USD" JNull)
         (fun r2 =>
            select r1 ["titlePage"; "date"] = JStr "JANUARY 2026"
            /\ select r2 ["titlePage"; "date"] = JStr "FEBRUARY 2026"
            /\ r1 <> r2)).
Proof.
  eexists. split; [vm_compute; reflexivity|].
  eexists. split; [vm_compute; reflexivity|].
  split; [reflexivity|]. split; [reflexivity|].
  intros E. apply (f_equal (fun r => select r ["titlePage"; "date"])) in E.
  vm_compute in E. discriminate E.
Qed.

(** ** Recommendations *)

Lemma own_define_same (props : list (string * JsVal)) (k : string) (v : JsVal) :
  own (define props k v) k = v.
Proof.
  induction props as [|[k' v'] rest IH]; simpl.
  - rewrite String.eqb_refl. reflexivity.
  - destruct (k' =? k) eqn:E; simpl.
    + rewrite String.eqb_refl. reflexivity.
    + rewrite E. exact IH.
Qed.

Lemma own_define_other (props : list (string * JsVal)) (k k' : string) (v : JsVal) :
  k <> k' -> own (define props k v) k' = own props k'.
Proof.
  intros N. induction props as [|[k0 v0] rest IH]; simpl.
  - destruct (k =? k') eqn:E; [apply String.eqb_eq in E; contradiction|reflexivity].
  - destruct (k0 =? k) eqn:E; simpl.
    + apply String.eqb_eq in E. subst k0.
      destruct (k =? k') eqn:E'; [apply String.eqb_eq in E'; contradiction|reflexivity].
    + destruct (k0 =? k'); [reflexivity|exact IH].
Qed.

Lemma js_or_truthy (a : JsVal) (s : string) : s <> "" -> truthy (js_or a (JStr s)) = true.
Proof.
  intros N. unfold js_or. destruct (truthy a) eqn:T; [exact T|].
  simpl. destruct (s =? "") eqn:E; [apply String.eqb_eq in E; contradiction|reflexivity].
Qed.

(** A truthy string is a non-empty one, and a supplied string or a
    missing value always leaves a non-empty string. *)
Lemma js_or_string (a : JsVal) (s : string) :
  s <> "" ->
  (match a with JStr _ | JUndefined | JNull => True | _ => False end) ->
  exists t, js_or a (JStr s) = JStr t /\ t <> "".
Proof.
  intros N A. unfold js_or. destruct a; try contradiction; simpl.
  - eauto.
  - eauto.
  - destruct (s0 =? "") eqn:E; simpl; [eauto|].
    exists s0. split; [reflexivity|]. apply String.eqb_neq. exact E.
Qed.




Lemma array_map_Forall2 {A B} (f : A -> Completion B) (R : A -> B -> Prop)
    (l : list A) (ys : list B) :
  (forall x y, f x = Normal y -> R x y) ->
  array_map f l = Normal ys -> Forall2 R l ys.
Proof.
  intros F. revert ys; induction l as [|x l IH]; intros ys; cbn [array_map].
  - intros [= <-]. constructor.
  - destruct (f x) as [y|] eqn:Ex; cbn [bind]; [|discriminate].
    destruct (array_map f l) as [ys'|]; cbn [bind]; [|discriminate].
    intros [= <-]. constructor; [apply F, Ex | apply IH; reflexivity].
Qed.


Section Recommendations.
Context {H : Host}.

End Recommendations.



(** ** Override and default laws *)

Lemma fold_step_undefined (path : list string) : fold_left step path JUndefined = JUndefined.
Proof. apply fold_step_falsy. reflexivity. Qed.

(** A non-empty list found by the reduction is found by strict reading. *)
Lemma resolve_parts_array (path : list string) (v : JsVal) :
  ~ In "length" path ->
  nonempty_array (fold_left step path v) = true -> select v path = fold_left step path v.
Proof.
  revert v; induction path as [|k rest IH]; intros v NL A; [reflexivity|].
  assert (K : k <> "length") by (intros ->; apply NL; left; reflexivity).
  assert (NL' : ~ In "length" rest) by (intros I; apply NL; right; exact I).
  cbn [fold_left select] in *. fold (select (field v k) rest).
  unfold step at 2 in A. unfold step at 2.
  destruct (truthy v) eqn:T.
  - assert (E : prop v k = field v k \/ prop v k = JUndefined).
    { destruct v; simpl; auto;
        (destruct (k =? "length") eqn:EK; [apply String.eqb_eq in EK; contradiction|auto]). }
    destruct E as [E|E].
    + rewrite E in *. apply IH; assumption.
    + rewrite E in A. rewrite fold_step_undefined in A. discriminate.
  - rewrite fold_step_falsy in A by exact T.
    destruct v as [| | | | |[|x l]|]; simpl in *; discriminate.
Qed.

Lemma select_array_resolve (path : list string) (v : JsVal) :
  nonempty_array (select v path) = true -> fold_left step path v = select v path.
Proof.
  intros A. apply resolve_parts_select.
  destruct (select v path) as [| | | | |[|x l]|]; simpl in *; congruence.
Qed.

Lemma get_law (data : JsVal) (p : string) (d : JsVal) :
  ~ In "length" (split_on "." p) ->
  let path := split_on "." p in
  (usable (select data path) = true -> Part001.get data p d = select data path)
  /\ (usable (select data path) = false -> sections_passable data path = true ->
      Part001.get data p d = d).
Proof.
  intros NL path. rewrite get001. unfold resolve. fold path. split.
  - intros U. rewrite (resolve_parts_select _ _ U), U. reflexivity.
  - intros U S. rewrite (resolve_parts_unusable path data NL S U). reflexivity.
Qed.

Lemma getArray_law (data : JsVal) (p : string) (d : list JsVal) :
  ~ In "length" (split_on "." p) ->
  let path := split_on "." p in
  (nonempty_array (select data path) = true ->
   JArr (Part001.getArray data p d) = select data path)
  /\ (nonempty_array (select data path) = false -> Part001.getArray data p d = d).
Proof.
  intros NL path. rewrite getArray001. unfold resolve. fold path. split.
  - intros A. rewrite (select_array_resolve _ _ A).
    destruct (select data path) as [| | | | |[|x l]|]; simpl in *; congruence.
  - intros A.
    destruct (nonempty_array (fold_left step path data)) eqn:B.
    + rewrite (resolve_parts_array path data NL B) in A. congruence.
    + destruct (fold_left step path data) as [| | | | |[|x l]|]; simpl in *; congruence.
Qed.

Lemma split_on_nonempty (sep : ascii) (s : string) : split_on sep s <> [].
Proof.
  destruct s as [|c rest]; simpl; [discriminate|].
  destruct (Ascii.eqb c sep); [discriminate|].
  destruct (split_on sep rest); discriminate.
Qed.

Lemma get_empty (p : string) (d : JsVal) :
  ~ In "length" (split_on "." p) -> Part001.get (JObj []) p d = d.
Proof.
  intros NL. pose proof (split_on_nonempty "." p) as NE.
  apply (get_law (JObj []) p d NL).
  - unfold select. destruct (split_on "." p) as [|k rest]; [contradiction|].
    cbn [fold_left field own]. fold (select JUndefined rest).
    rewrite select_undefined. reflexivity.
  - destruct (split_on "." p) as [|k rest]; [reflexivity|].
    cbn [sections_passable field own]. clear NL.
    assert (G : forall l, sections_passable JUndefined l = true)
      by (induction l; simpl; auto).
    rewrite G. reflexivity.
Qed.

Lemma getArray_empty (p : string) (d : list JsVal) :
  ~ In "length" (split_on "." p) -> Part001.getArray (JObj []) p d = d.
Proof.
  intros NL. pose proof (split_on_nonempty "." p) as NE.
  apply (getArray_law (JObj []) p d NL).
  unfold select. destruct (split_on "." p) as [|k rest]; [contradiction|].
  cbn [fold_left field own]. fold (select JUndefined rest).
  rewrite select_undefined. reflexivity.
Qed.

(** No path of this program has a part named [length]. *)
Lemma not_in_length (l : list string) :
  existsb (String.eqb "length") l = false -> ~ In "length" l.
Proof.
  intros E I. assert (T : existsb (String.eqb "length") l = true).
  { apply existsb_exists. exists "length". split; [exact I|apply String.eqb_refl]. }
  congruence.
Qed.

(** The laws at a path follow from what the two reports hold there. *)
Lemma scalar_law_intro (data r r0 : JsVal) (p : string) (d : JsVal) :
  existsb (String.eqb "length") (split_on "." p) = false ->
  select r (split_on "." p) = Part001.get data p d ->
  select r0 (split_on "." p) = Part001.get (JObj []) p d ->
  scalar_law data r r0 (split_on "." p).
Proof.
  intros NL Er E0. apply not_in_length in NL.
  rewrite (get_empty p d NL) in E0.
  destruct (get_law data p d NL) as [Lo Ld].
  unfold scalar_law. rewrite Er, E0. split; assumption.
Qed.

Lemma list_law_intro (data r r0 : JsVal) (p : string) (d : list JsVal) :
  existsb (String.eqb "length") (split_on "." p) = false ->
  select r (split_on "." p) = JArr (Part001.getArray data p d) ->
  select r0 (split_on "." p) = JArr (Part001.getArray (JObj []) p d) ->
  list_law data r r0 (split_on "." p).
Proof.
  intros NL Er E0. apply not_in_length in NL.
  rewrite (getArray_empty p d NL) in E0.
  destruct (getArray_law data p d NL) as [Lo Ld].
  unfold list_law. rewrite Er, E0. split; [assumption|].
  intros A. rewrite (Ld A). reflexivity.
Qed.

(** Settles the law at one concrete path; [r] and [r0] are local
    definitions of the two report literals. *)
Ltac read_literal r :=
  lazy beta iota zeta delta
    [r select split_on fold_left field own String.eqb Ascii.eqb Bool.eqb];
  reflexivity.

Ltac scalar_case r r0 :=
  idtac;
  eapply scalar_law_intro; [vm_compute; reflexivity | read_literal r | read_literal r0].

Ltac list_case r r0 :=
  idtac;
  eapply list_law_intro; [vm_compute; reflexivity | read_literal r | read_literal r0].

Ltac each_path tac :=
  let p := fresh "p" in
  let I := fresh "I" in
  intros p I;
  repeat (destruct I as [<-|I]; [tac|]);
  destruct I.

Section Laws.
Context {H : Host}.

(** C3, amended. For each of the scalar paths that the normalizer reads
    through [get] and for each of the list paths that it reads through
    [getArray]: a usable value (neither [null] nor the empty string), found
    in the candidate at a scalar path, is in the report unchanged, and so
    is a non-empty list found at a list path; where the candidate has
    nothing usable at a scalar path, and no enclosing section of the
    candidate is [false] or [0], the report holds the default, which is
    what the report for the empty candidate holds there; where the
    candidate has anything but a non-empty list at a list path, the report
    holds the default list.  For part_000 the scalar paths include
    [roiAnalysis.estimatedLostRevenue].  The other leaves follow other
    rules (the fixed title-page fields, the date, the screenshot, the
    overall scores, the completed recommendations, and in part_001 the
    revenue risk).  With the url [https://acme.io] the default company
    profile opens with the details [ACME.IO]. *)
Theorem override_and_default_laws (dateStr : string) (data : JsVal) (url : string)
    (perfScore : JsNumber) (currency : string) (screenshot : JsVal) :
  Ensures (Part001.createSafeReport dateStr data url perfScore currency screenshot)
    (fun r =>
       Returns (Part001.createSafeReport dateStr (JObj []) url perfScore currency screenshot)
         (laws scalar_paths list_paths data r))
  /\ Ensures (Part000.createSafeReport dateStr data url perfScore currency)
       (fun r =>
          Returns (Part000.createSafeReport dateStr (JObj []) url perfScore currency)
            (laws ("roiAnalysis.estimatedLostRevenue" :: scalar_paths) list_paths data r))
  /\ Returns (Part001.createSafeReport dateStr (JObj []) "https://acme.io"
                perfScore "USD" screenshot)
       (fun r0 => field (item (select r0 ["businessIntelligence"; "companyProfile"]) 0)
                        "details" = JStr "ACME.IO").
Proof.
  split; [|split].
  - intros r R.
    destruct (createSafeReport001_returns dateStr (JObj []) url perfScore currency
                screenshot eq_refl) as [r0 R0].
    exists r0. split; [exact R0|].
    run001 R. run001 R0. clear Erecs Erecs0.
    match goal with |- laws _ _ _ ?a ?b => set (r := a); set (r0 := b) end.
    split.
    + unfold scalar_paths. each_path ltac:(scalar_case r r0).
    + unfold list_paths. each_path ltac:(list_case r r0).
  - intros r R.
    destruct (createSafeReport000_returns dateStr (JObj []) url perfScore currency
                eq_refl) as [r0 R0].
    exists r0. split; [exact R0|].
    run000 R. run000 R0. clear Erecs Erecs0.
    match goal with |- laws _ _ _ ?a ?b => set (r := a); set (r0 := b) end.
    split.
    + unfold scalar_paths. each_path ltac:(scalar_case r r0).
    + unfold list_paths. each_path ltac:(list_case r r0).
  - destruct (createSafeReport001_returns dateStr (JObj []) "https://acme.io" perfScore
                "USD" screenshot eq_refl) as [r0 R0].
    exists r0. split; [exact R0|].
    run001 R0.
    rewrite (toUpperCase_ascii (domain_of "https://acme.io") eq_refl). reflexivity.
Qed.
End Laws.

(** C3 as stated fails: part_001 never reads the candidate's
    [roiAnalysis.estimatedLostRevenue], nor either revision the
    candidate's report title. *)
Lemma supplied_values_overridden :
  Returns (Part001.createSafeReport (H := sample_host) "NOVEMBER 2026"
             (JObj [("titlePage", JObj [("reportTitle", JStr "Quarterly Review")]);
                    ("roiAnalysis", JObj [("estimatedLostRevenue", JStr "$1,000")])])
             "example.com" (Fin 72) "USD" JNull)
    (fun r => select r ["roiAnalysis"; "estimatedLostRevenue"]
              = JStr "$25,000 - $45,000 Risk"
              /\ select r ["titlePage"; "reportTitle"] = JStr "Website Audit Pro").
Proof.
  eexists. split; [vm_compute; reflexivity|]. split; reflexivity.
Qed.

(** ** Schema completeness *)
























Section SchemaCompleteness.
Context {H : Host}.




End SchemaCompleteness.

Section SchemaTheorem.
Context {H : Host}.

End SchemaTheorem.



(** ** The fallback queue *)

Lemma unique_from_fresh (l seen : list string) :
  NoDup l -> (forall x, In x l -> ~ In x seen) -> unique_from seen l = l.
Proof.
  revert seen; induction l as [|x l IH]; intros seen ND F; [reflexivity|].
  cbn [unique_from]. inversion ND as [|? ? Nx ND']; subst.
  destruct (existsb (String.eqb x) seen) eqn:E.
  - apply existsb_exists in E. destruct E as [y [Iy Ey]].
    apply String.eqb_eq in Ey. subst y.
    exfalso. apply (F x); [left; reflexivity|exact Iy].
  - f_equal. apply IH; [exact ND'|].
    intros y Iy [->|Is]; [contradiction|].
    apply (F y); [right; exact Iy|exact Is].
Qed.

Lemma fallbackModels_NoDup : NoDup Part000.fallbackModels.
Proof.
  unfold Part000.fallbackModels.
  repeat (constructor; [cbn; intuition discriminate|]). constructor.
Qed.

Lemma modelQueue_NoDup (model : string) : NoDup (Part000.modelQueue model).
Proof.
  unfold Part000.modelQueue. constructor.
  - intros I. apply filter_In in I. destruct I as [_ I].
    rewrite String.eqb_refl in I. discriminate.
  - apply NoDup_filter. apply fallbackModels_NoDup.
Qed.

Lemma uniqueQueue_modelQueue (model : string) :
  Part000.uniqueQueue model = Part000.modelQueue model.
Proof.
  unfold Part000.uniqueQueue, unique. apply unique_from_fresh.
  - apply modelQueue_NoDup.
  - intros x _ [].
Qed.

Lemma attempt_from_rule (generateContent : string -> Generation) (queue : list string) :
  queue <> [] ->
  fallback_rule (Part000.attemptGeneration generateContent) queue
    (fst (Part000.attempt_from generateContent queue))
    (snd (Part000.attempt_from generateContent queue)).
Proof.
  induction queue as [|m rest IH]; [contradiction|]. intros _.
  cbn [Part000.attempt_from].
  destruct (Part000.attemptGeneration generateContent m) as [res|e] eqn:A.
  - exists [], m, rest. cbn. repeat split; [intros ? []|exact A].
  - destruct rest as [|m' rest'].
    + exists [], m, []. cbn. repeat split; [intros ? []|].
      exists e. split; [exact A|reflexivity].
    + destruct IH as [earlier [last_model [rest0 [T [Q [F O]]]]]]; [discriminate|].
      destruct (Part000.attempt_from generateContent (m' :: rest')) as [tried outcome].
      cbn [fst snd] in *.
      exists (m :: earlier), last_model, rest0. repeat split.
      * rewrite T. reflexivity.
      * rewrite Q. reflexivity.
      * intros x [<-|I]; [exists e; exact A|apply F, I].
      * exact O.
Qed.

(** C5, amended. In part_000 the queue is the selected model followed by
    the fixed fallback models other than it, each model once; the models
    are tried in that order, one at a time, each attempt being the
    generation raced against a timer of 180000 ms (180 s); the first attempt
    that succeeds ends the loop and its response is the result, nothing
    after it being tried; and when every model of the queue has failed, the
    run fails with an error that carries the message of the last model's
    failure.  In part_001 there is no queue: the selected model alone is
    tried, once, against a timer of 180000 ms; its response is the result,
    and its failure, or the expiry of the timer, is the failure of the run
    as it is, no other model being tried. *)
Theorem fallback_queue_behaviour (generateContent : string -> Generation) (model : string) :
  Part000.uniqueQueue model
  = model :: filter (fun m => negb (m =? model)) Part000.fallbackModels
  /\ NoDup (Part000.uniqueQueue model)
  /\ (forall m, Part000.attemptGeneration generateContent m
                = Part000.timeoutPromise 180000 (generateContent m))
  /\ (forall after res, Part000.timeoutPromise 180000 (Fulfils after res)
                        = if (after <? 180000)%N then Normal res
                          else Throw (Error "Analysis Request Timed Out (180s limit). The model is busy or the prompt is too complex."))
  /\ (forall after e, Part000.timeoutPromise 180000 (Rejects after e)
                      = if (after <? 180000)%N then Throw e
                        else Throw (Error "Analysis Request Timed Out (180s limit). The model is busy or the prompt is too complex."))
  /\ Part000.timeoutPromise 180000 Hangs
     = Throw (Error "Analysis Request Timed Out (180s limit). The model is busy or the prompt is too complex.")
  /\ fallback_rule (Part000.attemptGeneration generateContent)
       (Part000.uniqueQueue model)
       (fst (Part000.generate generateContent model))
       (snd (Part000.generate generateContent model))
  /\ fst (Part001.generate generateContent model) = [model]
  /\ snd (Part001.generate generateContent model)
     = match generateContent model with
       | Fulfils after res =>
           if (after <? 180000)%N then Normal res
           else Throw (Error "Analysis Request Timed Out (180s limit). The model is busy.")
       | Rejects after e =>
           if (after <? 180000)%N then Throw e
           else Throw (Error "Analysis Request Timed Out (180s limit). The model is busy.")
       | Hangs => Throw (Error "Analysis Request Timed Out (180s limit). The model is busy.")
       end.
Proof.
  split; [apply uniqueQueue_modelQueue|].
  split; [rewrite uniqueQueue_modelQueue; apply modelQueue_NoDup|].
  split; [reflexivity|]. split; [reflexivity|]. split; [reflexivity|].
  split; [reflexivity|]. split; [|split; [reflexivity|]].
  - unfold Part000.generate. apply attempt_from_rule.
    rewrite uniqueQueue_modelQueue. discriminate.
  - unfold Part001.generate. cbn [snd].
    destruct (generateContent model); reflexivity.
Qed.

(** C5 as stated fails in part_001: where the selected model and the next
    one are overloaded and the third would answer, part_000 tries the three
    and returns the third's response, and part_001 tries the selected model
    only and fails with its error. *)
Lemma no_fallback_in_part_001 :
  Part000.generate busy_api "gemini-3-flash-preview"
  = (["gemini-3-flash-preview"; "gemini-2.5-flash"; "gemini-flash-latest"],
     Normal (JObj [("text", JStr "{}")]))
  /\ Part001.generate busy_api "gemini-3-flash-preview"
     = (["gemini-3-flash-preview"],
        Throw (mkError "ApiError" "The model is overloaded.")).
Proof. split; reflexivity. Qed.

(** The amended C5 on the spec's scenario in part_000: the selected model
    and the next one fail, the third succeeds; exactly these three are
    tried, in order, and the third's response is the result.  With the
    default selection, whose model hangs, the timer ends the first attempt
    and the same three follow; in part_001 the timer ends the run. *)
Lemma fallback_queue_behaviour_witness :
  Part000.generate busy_api "gemini-3-flash-preview"
  = (["gemini-3-flash-preview"; "gemini-2.5-flash"; "gemini-flash-latest"],
     Normal (JObj [("text", JStr "{}")]))
  /\ Part000.generate busy_api "gemini-3-pro-preview"
     = (["gemini-3-pro-preview"; "gemini-3-flash-preview"; "gemini-2.5-flash";
         "gemini-flash-latest"],
        Normal (JObj [("text", JStr "{}")]))
  /\ Part000.generate (fun _ => Rejects 300 (mkError "ApiError" "Quota exceeded."))
       "gemini-2.5-flash"
     = (["gemini-2.5-flash"; "gemini-3-flash-preview"; "gemini-flash-latest"],
        Throw (Error "All models failed. Last error: Quota exceeded."))
  /\ fallback_rule (Part000.attemptGeneration busy_api)
       (Part000.uniqueQueue "gemini-3-flash-preview")
       (fst (Part000.generate busy_api "gemini-3-flash-preview"))
       (snd (Part000.generate busy_api "gemini-3-flash-preview"))
  /\ snd (Part001.generate busy_api "gemini-3-pro-preview")
     = Throw (Error "Analysis Request Timed Out (180s limit). The model is busy.")
  /\ snd (Part001.generate busy_api "gemini-flash-latest")
     = Normal (JObj [("text", JStr "{}")]).
Proof.
  split; [reflexivity|]. split; [reflexivity|]. split; [reflexivity|].
  split; [|split].
  - exact (proj1 (proj2 (proj2 (proj2 (proj2 (proj2 (proj2
      (fallback_queue_behaviour busy_api "gemini-3-flash-preview")))))))).
  - exact (proj2 (proj2 (proj2 (proj2 (proj2 (proj2 (proj2 (proj2
      (fallback_queue_behaviour busy_api "gemini-3-pro-preview"))))))))).
  - exact (proj2 (proj2 (proj2 (proj2 (proj2 (proj2 (proj2 (proj2
      (fallback_queue_behaviour busy_api "gemini-flash-latest"))))))))).
Defined.

(** ** Fetcher resilience *)

Section Resilience.
Context {H : Host}.

Lemma is_opportunity_null (a : JsVal) :
  nullish a = true -> exists e, PerformanceService.is_opportunity a = Throw e.
Proof.
  intros N. unfold PerformanceService.is_opportunity, member. rewrite N.
  cbn [bind]. eauto.
Qed.

Lemma is_opportunity_qualifies (a : JsVal) :
  nullish a = false -> PerformanceService.is_opportunity a = Normal (qualifies a).
Proof.
  intros N. unfold PerformanceService.is_opportunity, member. rewrite N.
  reflexivity.
Qed.

Lemma array_filter_throws (values : list JsVal) :
  existsb nullish values = true ->
  exists e, array_filter PerformanceService.is_opportunity values = Throw e.
Proof.
  induction values as [|a rest IH]; [discriminate|].
  cbn [existsb array_filter]. intros E.
  destruct (nullish a) eqn:N.
  - destruct (is_opportunity_null a N) as [e ->]. cbn [bind]. eauto.
  - rewrite (is_opportunity_qualifies a N). cbn [bind].
    destruct (IH E) as [e ->]. cbn [bind]. eauto.
Qed.


Lemma member_nullish (v : JsVal) (k : string) :
  nullish v = true -> exists e, member v k = Throw e.
Proof. intros N. unfold member. rewrite N. eauto. Qed.

Lemma member_prop (v : JsVal) (k : string) :
  nullish v = false -> member v k = Normal (prop v k).
Proof. intros N. unfold member. rewrite N. reflexivity. Qed.

Lemma Object_values_nullish (v : JsVal) :
  nullish v = true -> exists e, Object_values v = Throw e.
Proof. destruct v; simpl; try discriminate; eauto. Qed.

(** The mapping of a parsed payload, once the response is in and ok. *)
Lemma malformed_throws (after : N) (res : Response) (data : JsVal) :
  body res = Parsed data -> Malformed data ->
  exists e, PerformanceService.measure (Responds after res) = Throw e.
Proof.
  intros B M. unfold PerformanceService.measure, PerformanceService.fetch.
  destruct (after <? PerformanceService.timeout_ms)%N; cbn [bind]; [|eauto].
  destruct (ok res); cbn [negb].
  2:{ destruct (member (PerformanceService.json_or_empty res) "error"); cbn [bind]; eauto. }
  unfold PerformanceService.json. rewrite B. cbn [bind].
  destruct (nullish data) eqn:Nd.
  { destruct (member_nullish data "lighthouseResult" Nd) as [e ->]. cbn [bind]. eauto. }
  rewrite (member_prop data _ Nd). cbn [bind].
  destruct (nullish (prop data "lighthouseResult")) eqn:Nr.
  { destruct (member_nullish _ "audits" Nr) as [e ->]. cbn [bind]. eauto. }
  rewrite !(member_prop _ _ Nr). cbn [bind].
  unfold PerformanceService.opportunities_of, PerformanceService.ranked.
  set (audits := prop (prop data "lighthouseResult") "audits") in *.
  set (categories := prop (prop data "lighthouseResult") "categories") in *.
  destruct M as [N|N|N|N|values V E]; try congruence.
  - destruct (Object_values_nullish audits N) as [e ->]. cbn [bind]. eauto.
  - destruct (Object_values audits) as [values|]; cbn [bind]; [|eauto].
    destruct (array_filter PerformanceService.is_opportunity values); cbn [bind]; [|eauto].
    destruct (member_nullish categories "performance" N) as [e ->]. cbn [bind]. eauto.
  - change (Object_values audits = Normal values) in V. rewrite V. cbn [bind].
    destruct (array_filter_throws values E) as [e ->]. cbn [bind]. eauto.
Qed.

Lemma internal_failure_throws (net : Network) :
  InternalFailure net -> exists e, PerformanceService.measure net = Throw e.
Proof.
  intros F. destruct F as [|after res L|after e|after res B|after res e B|after res data B M].
  - cbn. eauto.
  - unfold PerformanceService.measure, PerformanceService.fetch, PerformanceService.timeout_ms.
    apply N.ltb_ge in L. rewrite L. cbn [bind]. eauto.
  - unfold PerformanceService.measure, PerformanceService.fetch.
    destruct (after <? PerformanceService.timeout_ms)%N; cbn [bind]; eauto.
  - unfold PerformanceService.measure, PerformanceService.fetch.
    destruct (after <? PerformanceService.timeout_ms)%N; cbn [bind]; [|eauto].
    rewrite B. cbn [negb].
    destruct (member (PerformanceService.json_or_empty res) "error"); cbn [bind]; eauto.
  - unfold PerformanceService.measure, PerformanceService.fetch.
    destruct (after <? PerformanceService.timeout_ms)%N; cbn [bind]; [|eauto].
    destruct (ok res); cbn [negb].
    + unfold PerformanceService.json. rewrite B. cbn [bind]. eauto.
    + destruct (member (PerformanceService.json_or_empty res) "error"); cbn [bind]; eauto.
  - apply (malformed_throws after res data B M).
Qed.

Lemma failed_degraded (e : JsError) : degraded (PerformanceService.failed e).
Proof. unfold degraded. cbn. repeat split. eauto. Qed.

(** C4. Once a key is found, so that the fetch is made,
    [fetchRealAuditData] never throws; and whenever the fetch fails
    internally (nothing arrives within 60 seconds, the network fails, the
    status is not 2xx, the body is not JSON, or the payload cannot be
    mapped) it returns the record of the [catch] block, in which every
    score and number is 0, [https] and [viewport] are false, there are no
    opportunities, and [errors] holds one diagnostic: the time-out message
    for an aborted request and the message of the error otherwise. *)
Theorem fetcher_resilience (net : string -> string -> Network)
    (url geminiKey : string) (pageSpeedKey envKey : option string) (activeKey : string) :
  PerformanceService.resolve_key geminiKey pageSpeedKey envKey = Some activeKey ->
  let reaction := net (PerformanceService.target_of url) activeKey in
  Returns (PerformanceService.fetchRealAuditData net url geminiKey pageSpeedKey envKey)
          (fun _ => True)
  /\ (InternalFailure reaction ->
      Returns (PerformanceService.fetchRealAuditData net url geminiKey pageSpeedKey envKey)
        (fun r => degraded r /\ errors r <> []
                  /\ exists e, PerformanceService.measure reaction = Throw e
                               /\ r = PerformanceService.failed e))
  /\ (forall e, PerformanceService.measure reaction = Throw e ->
      name e = "AbortError" ->
      Returns (PerformanceService.fetchRealAuditData net url geminiKey pageSpeedKey envKey)
        (fun r => errors r = ["PageSpeed Analysis Timed Out (Skipped)"]))
  /\ (reaction = Silent ->
      Returns (PerformanceService.fetchRealAuditData net url geminiKey pageSpeedKey envKey)
        (fun r => errors r = ["PageSpeed Analysis Timed Out (Skipped)"])).
Proof.
  intros K reaction. unfold PerformanceService.fetchRealAuditData. rewrite K.
  fold reaction. split; [|split; [|split]].
  - destruct (PerformanceService.measure reaction); eexists; split; eauto.
  - intros F. destruct (internal_failure_throws reaction F) as [e E]. rewrite E.
    eexists. split; [reflexivity|]. split; [apply failed_degraded|].
    split; [discriminate|]. exists e. split; reflexivity.
  - intros e E A. rewrite E. eexists. split; [reflexivity|].
    cbn. rewrite A. reflexivity.
  - intros S. rewrite S. cbn. eexists. split; reflexivity.
Qed.

(** Without any key no request is made and the function throws. *)
Lemma no_key_throws (net : string -> string -> Network)
    (url geminiKey : string) (pageSpeedKey envKey : option string) :
  PerformanceService.resolve_key geminiKey pageSpeedKey envKey = None ->
  PerformanceService.fetchRealAuditData net url geminiKey pageSpeedKey envKey
  = Throw (Error "No API Key found. Please configure process.env.API_KEY or use Settings.").
Proof.
  intros K. unfold PerformanceService.fetchRealAuditData. rewrite K. reflexivity.
Qed.
End Resilience.

(** C4 on a server error, whose body explains it, and on a payload
    without a Lighthouse result. *)
Lemma fetcher_resilience_witness :
  PerformanceService.resolve_key "gemini-key" (Some "  ") None = Some "gemini-key"
  /\ Returns (PerformanceService.fetchRealAuditData (H := sample_host)
                (fun _ _ => Responds 800 refusal)
                "example.com" "gemini-key" (Some "  ") None)
       (fun r => degraded r /\ errors r = ["PageSpeed API Error: Quota exceeded."])
  /\ Returns (PerformanceService.fetchRealAuditData (H := sample_host)
                (fun _ _ => Responds 800 hollow)
                "example.com" "gemini-key" (Some "  ") None)
       (fun r => degraded r /\ errors r <> []).
Proof.
  split; [reflexivity|]. split.
  - destruct (proj1 (proj2 (fetcher_resilience (H := sample_host)
      (fun _ _ => Responds 800 refusal)
      "example.com" "gemini-key" (Some "  ") None "gemini-key" eq_refl))
      (bad_status 800 refusal eq_refl)) as [r [R [D [_ [e [M E]]]]]].
    exists r. split; [exact R|]. split; [exact D|].
    vm_compute in M. injection M as <-. rewrite E. reflexivity.
  - destruct (proj1 (proj2 (fetcher_resilience (H := sample_host)
      (fun _ _ => Responds 800 hollow)
      "example.com" "gemini-key" (Some "  ") None "gemini-key" eq_refl))
      (malformed_payload 800 hollow (JObj []) eq_refl (no_result (JObj []) eq_refl)))
      as [r [R [D [N _]]]].
    exists r. split; [exact R|]. split; [exact D|exact N].
Defined.

(** ** Opportunities *)





Section Sorting.
Context {A : Type} (key : A -> JsNumber).

Let compare (a b : A) : option comparison := sub_sign (key b) (key a).
Let R (a b : A) : Prop := num_geb (key a) (key b) = true.







End Sorting.

Section Opportunities.
Context {H : Host}.


End Opportunities.


(** ** White space *)

(** Turns the tests on bytes into arithmetic. *)
Ltac bytes :=
  unfold plain, is_space, is_space2, is_space3 in *;
  repeat rewrite <- ?not_true_iff_false, ?andb_true_iff, ?orb_true_iff, ?negb_true_iff,
                 ?Nat.eqb_eq, ?Nat.leb_le, ?Nat.ltb_lt in *;
  lia.

Lemma trim_start_eq (s : string) :
  trim_start s = match white_space s with Some rest => trim_start rest | None => s end.
Proof.
  destruct s as [|c1 [|c2 [|c3 r]]]; try reflexivity.
  - unfold white_space. cbn [trim_start]. destruct (is_space c1); reflexivity.
  - unfold white_space. cbn [trim_start].
    destruct (is_space c1); [reflexivity|]. destruct (is_space2 c1 c2); reflexivity.
  - unfold white_space.
    change (trim_start (String c1 (String c2 (String c3 r))))
      with (if is_space c1 then trim_start (String c2 (String c3 r))
            else if is_space2 c1 c2 then trim_start (String c3 r)
                 else if is_space3 c1 c2 c3 then trim_start r
                      else String c1 (String c2 (String c3 r))).
    destruct (is_space c1); [reflexivity|]. destruct (is_space2 c1 c2); [reflexivity|].
    destruct (is_space3 c1 c2 c3); reflexivity.
Qed.

Lemma all_space_eq (s : string) :
  all_space s = match white_space s with Some rest => all_space rest | None => s =? "" end.
Proof.
  destruct s as [|c1 [|c2 [|c3 r]]]; try reflexivity.
  - unfold white_space. cbn [all_space]. destruct (is_space c1); reflexivity.
  - unfold white_space. cbn [all_space].
    destruct (is_space c1); [reflexivity|]. destruct (is_space2 c1 c2); reflexivity.
  - unfold white_space.
    change (all_space (String c1 (String c2 (String c3 r))))
      with (if is_space c1 then all_space (String c2 (String c3 r))
            else if is_space2 c1 c2 then all_space (String c3 r)
                 else if is_space3 c1 c2 c3 then all_space r else false).
    destruct (is_space c1); [reflexivity|]. destruct (is_space2 c1 c2); [reflexivity|].
    destruct (is_space3 c1 c2 c3); reflexivity.
Qed.

(** A white-space character is one to three bytes, none of them plain. *)
Lemma white_space_split (s rest : string) :
  white_space s = Some rest ->
  exists w, s = w ++ rest /\ white_space w = Some ""
            /\ (forall c, occurs c w = true -> plain c = false).
Proof.
  unfold white_space.
  destruct s as [|c1 s1]; [discriminate|].
  destruct (is_space c1) eqn:E1.
  { intros [= <-]. exists (String c1 ""). split; [reflexivity|]. split.
    - unfold white_space. rewrite E1. reflexivity.
    - intros c O. cbn [occurs] in O. rewrite orb_false_r in O.
      apply Ascii.eqb_eq in O. subst c. unfold plain. rewrite E1. apply andb_false_r. }
  destruct s1 as [|c2 s2]; [discriminate|].
  destruct (is_space2 c1 c2) eqn:E2.
  { intros [= <-]. exists (String c1 (String c2 "")). split; [reflexivity|]. split.
    - unfold white_space. rewrite E1, E2. reflexivity.
    - intros c O. cbn [occurs] in O. rewrite orb_false_r in O.
      apply orb_true_iff in O. destruct O as [O|O]; apply Ascii.eqb_eq in O; subst c;
        clear E1; bytes. }
  destruct s2 as [|c3 s3]; [discriminate|].
  destruct (is_space3 c1 c2 c3) eqn:E3; [|discriminate].
  intros [= <-]. exists (String c1 (String c2 (String c3 ""))). split; [reflexivity|]. split.
  - unfold white_space. rewrite E1, E2, E3. reflexivity.
  - intros c O. cbn [occurs] in O. rewrite orb_false_r in O.
    apply orb_true_iff in O. destruct O as [O|O]; [|apply orb_true_iff in O; destruct O as [O|O]];
      apply Ascii.eqb_eq in O; subst c; clear E1 E2; bytes.
Qed.

Lemma occurs_app (c : ascii) (a b : string) :
  occurs c (a ++ b) = occurs c a || occurs c b.
Proof.
  induction a as [|d rest IH]; [reflexivity|].
  cbn [append occurs]. rewrite IH. apply orb_assoc.
Qed.

Lemma string_app_assoc (a b c : string) : (a ++ b) ++ c = a ++ b ++ c.
Proof. induction a as [|x a IH]; [reflexivity|]. cbn [append]. rewrite IH. reflexivity. Qed.

Lemma append_empty_right (s : string) : s ++ "" = s.
Proof. induction s as [|c s IH]; [reflexivity|]. cbn [append]. rewrite IH. reflexivity. Qed.

Lemma string_length_app (a b : string) :
  String.length (a ++ b) = (String.length a + String.length b)%nat.
Proof. induction a as [|c a IH]; [reflexivity|]. cbn [append String.length]. rewrite IH. reflexivity. Qed.

Lemma white_space_shorter (s rest : string) :
  white_space s = Some rest -> (String.length rest < String.length s)%nat.
Proof.
  intros W. destruct (white_space_split s rest W) as [w [-> [Ww _]]].
  rewrite string_length_app. destruct w; [discriminate Ww|]. cbn [String.length]. lia.
Qed.

(** Induction along the white space that a string starts with. *)
Lemma white_induction (P : string -> Prop) :
  (forall s, (forall rest, white_space s = Some rest -> P rest) -> P s) ->
  forall s, P s.
Proof.
  intros Step s.
  assert (G : forall n s, (String.length s < n)%nat -> P s).
  { induction n as [|n IH]; intros t L; [lia|].
    apply Step. intros rest W. apply IH.
    pose proof (white_space_shorter t rest W). lia. }
  apply (G (S (String.length s))). lia.
Qed.

Lemma white_space_app (a rest b : string) :
  white_space a = Some rest -> white_space (a ++ b) = Some (rest ++ b).
Proof.
  unfold white_space.
  destruct a as [|c1 a1]; [discriminate|]. cbn [append].
  destruct (is_space c1); [intros [= <-]; reflexivity|].
  destruct a1 as [|c2 a2]; [discriminate|]. cbn [append].
  destruct (is_space2 c1 c2); [intros [= <-]; reflexivity|].
  destruct a2 as [|c3 a3]; [discriminate|]. cbn [append].
  destruct (is_space3 c1 c2 c3); [intros [= <-]; reflexivity|discriminate].
Qed.

(** A plain byte starts no white-space character, and ends none that the
    text before it has begun. *)
Lemma white_space_plain (c : ascii) (s : string) :
  plain c = true -> white_space (String c s) = None.
Proof.
  intros P. unfold white_space.
  assert (E1 : is_space c = false) by bytes.
  rewrite E1. destruct s as [|c2 s2]; [reflexivity|].
  assert (E2 : is_space2 c c2 = false) by (clear E1; bytes).
  rewrite E2. destruct s2 as [|c3 s3]; [reflexivity|].
  assert (E3 : is_space3 c c2 c3 = false) by (clear E1 E2; bytes).
  rewrite E3. reflexivity.
Qed.

Lemma white_space_none_app (a : string) (c : ascii) (b : string) :
  plain c = true -> white_space a = None -> white_space (a ++ String c b) = None.
Proof.
  intros P. destruct a as [|c1 a1]; [intros _; apply white_space_plain, P|].
  unfold white_space. cbn [append].
  destruct (is_space c1); [discriminate|].
  destruct a1 as [|c2 a2]; cbn [append].
  { intros _. assert (E2 : is_space2 c1 c = false) by bytes. rewrite E2.
    destruct b as [|c3 b3]; [reflexivity|].
    assert (E3 : is_space3 c1 c c3 = false) by (clear E2; bytes). rewrite E3. reflexivity. }
  destruct (is_space2 c1 c2); [discriminate|].
  destruct a2 as [|c3 a3]; cbn [append].
  { intros _. assert (E3 : is_space3 c1 c2 c = false) by bytes. rewrite E3. reflexivity. }
  destruct (is_space3 c1 c2 c3); [discriminate|reflexivity].
Qed.

(** What [trim_start] leaves starts with no white space, and text that
    starts with none is left as it is. *)
Lemma trim_start_head (s : string) : white_space (trim_start s) = None.
Proof.
  induction s as [s IH] using white_induction.
  rewrite trim_start_eq. destruct (white_space s) as [rest|] eqn:W; [apply IH; reflexivity|exact W].
Qed.

Lemma trim_start_fixed (s : string) : white_space s = None -> trim_start s = s.
Proof. intros W. rewrite trim_start_eq, W. reflexivity. Qed.

Lemma trim_start_split (s : string) :
  exists w, s = w ++ trim_start s /\ all_space w = true.
Proof.
  induction s as [s IH] using white_induction.
  rewrite trim_start_eq. destruct (white_space s) as [rest|] eqn:W.
  - destruct (IH rest eq_refl) as [w' [E A]].
    destruct (white_space_split s rest W) as [w [-> [Ww _]]].
    exists (w ++ w'). split.
    + rewrite string_app_assoc, <- E. reflexivity.
    + rewrite all_space_eq, (white_space_app w "" w' Ww). exact A.
  - exists "". split; reflexivity.
Qed.

Lemma all_space_app (a b : string) :
  all_space a = true -> all_space (a ++ b) = all_space b.
Proof.
  induction a as [a IH] using white_induction. intros A.
  rewrite all_space_eq in A. destruct (white_space a) as [rest|] eqn:W.
  - rewrite (all_space_eq (a ++ b)), (white_space_app a rest b W). apply IH; auto.
  - apply String.eqb_eq in A. subst a. reflexivity.
Qed.

Lemma all_space_no_plain (s : string) (c : ascii) :
  all_space s = true -> occurs c s = true -> plain c = false.
Proof.
  induction s as [s IH] using white_induction. intros A O.
  rewrite all_space_eq in A. destruct (white_space s) as [rest|] eqn:W.
  - destruct (white_space_split s rest W) as [w [-> [_ Pw]]].
    rewrite occurs_app in O. apply orb_true_iff in O. destruct O as [O|O].
    + apply Pw, O.
    + apply (IH rest eq_refl A O).
  - apply String.eqb_eq in A. subst s. discriminate O.
Qed.

Lemma trim_start_spaces (w s : string) :
  all_space w = true -> trim_start (w ++ s) = trim_start s.
Proof.
  induction w as [w IH] using white_induction. intros A.
  rewrite all_space_eq in A. destruct (white_space w) as [rest|] eqn:W.
  - rewrite trim_start_eq, (white_space_app w rest s W). apply IH; auto.
  - apply String.eqb_eq in A. subst w. reflexivity.
Qed.

Lemma trim_start_app (a : string) (c : ascii) (b : string) :
  plain c = true -> trim_start (a ++ String c b) = trim_start a ++ String c b.
Proof.
  intros P. induction a as [a IH] using white_induction.
  rewrite (trim_start_eq a). destruct (white_space a) as [rest|] eqn:W.
  - rewrite trim_start_eq, (white_space_app a rest _ W). apply IH. reflexivity.
  - apply trim_start_fixed. apply white_space_none_app; assumption.
Qed.

(** The end. *)
Lemma trim_end_spaces (w : string) : all_space w = true -> trim_end w = "".
Proof. destruct w as [|c w]; [reflexivity|]. intros A. cbn [trim_end]. rewrite A. reflexivity. Qed.

Lemma trim_end_split (s : string) :
  exists w, s = trim_end s ++ w /\ all_space w = true.
Proof.
  induction s as [|c s IH]; [exists ""; split; reflexivity|].
  cbn [trim_end]. destruct (all_space (String c s)) eqn:A.
  - exists (String c s). split; [reflexivity|exact A].
  - destruct IH as [w [E W]]. exists w. split; [|exact W].
    cbn [append]. rewrite <- E. reflexivity.
Qed.

Lemma trim_end_idem (s : string) : trim_end (trim_end s) = trim_end s.
Proof.
  induction s as [|c s IH]; [reflexivity|].
  cbn [trim_end]. destruct (all_space (String c s)) eqn:A; [reflexivity|].
  cbn [trim_end]. rewrite IH.
  destruct (all_space (String c (trim_end s))) eqn:B; [|reflexivity].
  destruct (trim_end_split s) as [w [E W]].
  rewrite E in A. change (String c (trim_end s ++ w)) with (String c (trim_end s) ++ w) in A.
  rewrite (all_space_app _ _ B), W in A. discriminate A.
Qed.

Lemma trim_end_plain (c : ascii) (a b : string) :
  plain c = true -> occurs c b = true -> trim_end (a ++ b) = a ++ trim_end b.
Proof.
  intros P O. induction a as [|d a IH]; [reflexivity|].
  cbn [append trim_end]. rewrite IH.
  destruct (all_space (String d (a ++ b))) eqn:A; [|reflexivity].
  assert (Q : plain c = false).
  { apply (all_space_no_plain _ c A). cbn [occurs]. rewrite occurs_app, O.
    rewrite !orb_true_r. reflexivity. }
  congruence.
Qed.

Lemma trim_end_app (p s : string) :
  forallb plain (list_ascii_of_string p) = true -> trim_end (p ++ s) = p ++ trim_end s.
Proof.
  induction p as [|c p IH]; intros F; [reflexivity|].
  cbn [list_ascii_of_string forallb] in F. apply andb_true_iff in F. destruct F as [C F].
  cbn [append trim_end]. rewrite (IH F).
  rewrite all_space_eq, (white_space_plain c _ C). reflexivity.
Qed.

(** Trimming the end puts no white space at the start. *)
Lemma trim_end_head (s : string) :
  white_space s = None -> white_space (trim_end s) = None.
Proof.
  intros W. destruct (white_space (trim_end s)) as [rest|] eqn:K; [|reflexivity].
  destruct (trim_end_split s) as [w [E _]].
  rewrite E, (white_space_app _ rest w K) in W. discriminate W.
Qed.

Lemma trim_idem (s : string) : trim (trim s) = trim s.
Proof.
  unfold trim.
  rewrite (trim_start_fixed (trim_end (trim_start s))).
  - apply trim_end_idem.
  - apply trim_end_head. apply trim_start_head.
Qed.

(** Text that trimming leaves as it is ends with no white space. *)
Lemma trim_end_fixed_end (a w : string) :
  trim_end (a ++ w) = a ++ w -> all_space w = true -> w = "".
Proof.
  intros E W. induction a as [|c a IH].
  - cbn [append] in E. rewrite (trim_end_spaces w W) in E. auto.
  - cbn [append trim_end] in E.
    destruct (all_space (String c (a ++ w))); [discriminate E|].
    injection E as E. apply IH, E.
Qed.

Lemma startsWith_app (p s : string) : startsWith (p ++ s) p = true.
Proof.
  unfold startsWith. induction p as [|c p IH]; [reflexivity|].
  cbn [append strip_prefix]. rewrite Ascii.eqb_refl. exact IH.
Qed.

Lemma occurs_trim (c : ascii) (s : string) :
  occurs c s = false -> occurs c (trim s) = false.
Proof.
  intros O. unfold trim.
  destruct (trim_start_split s) as [w [E _]].
  destruct (trim_end_split (trim_start s)) as [w' [E' _]].
  rewrite E, occurs_app in O. apply orb_false_iff in O. destruct O as [_ O].
  rewrite E', occurs_app in O. apply orb_false_iff in O. apply O.
Qed.

(** ** The target of a measurement *)

(** X1. The target that is measured always names a scheme: it is the
    trimmed input when that starts with [http://] or [https://], and the
    trimmed input with [https://] in front of it otherwise.  It has no
    white space at either end, and it is a target of itself: preparing it
    again changes nothing. *)
Theorem target_names_a_scheme (url : string) :
  let trimmed := trim url in
  let target := PerformanceService.target_of url in
  (startsWith trimmed "http://" || startsWith trimmed "https://" = true ->
   target = trimmed)
  /\ (startsWith trimmed "http://" || startsWith trimmed "https://" = false ->
      target = "https://" ++ trimmed)
  /\ (startsWith target "http://" || startsWith target "https://" = true)
  /\ white_space target = None
  /\ (forall a w, target = a ++ w -> all_space w = true -> w = "")
  /\ trim target = target
  /\ PerformanceService.target_of target = target.
Proof.
  intros trimmed target.
  assert (T : trim target = target).
  { unfold target, PerformanceService.target_of.
    destruct (negb (startsWith (trim url) "http://") && negb (startsWith (trim url) "https://")).
    - unfold trim at 1. rewrite trim_start_fixed by (apply white_space_plain; reflexivity).
      rewrite trim_end_app by reflexivity.
      f_equal. unfold trim. apply trim_end_idem.
    - apply trim_idem. }
  assert (S : startsWith target "http://" || startsWith target "https://" = true).
  { unfold target, PerformanceService.target_of.
    destruct (startsWith (trim url) "http://") eqn:A; cbn [negb andb].
    - rewrite A. reflexivity.
    - destruct (startsWith (trim url) "https://") eqn:B; cbn [negb].
      + rewrite B. apply orb_true_r.
      + rewrite (startsWith_app "https://" (trim url)). apply orb_true_r. }
  assert (W : white_space target = None).
  { rewrite <- T. unfold trim. apply trim_end_head, trim_start_head. }
  split; [|split; [|split; [exact S|split; [exact W|split; [|split; [exact T|]]]]]].
  - intros P. unfold target, PerformanceService.target_of. fold trimmed.
    rewrite <- negb_orb, P. reflexivity.
  - intros P. unfold target, PerformanceService.target_of. fold trimmed.
    rewrite <- negb_orb, P. reflexivity.
  - intros a w E A. apply (trim_end_fixed_end a w); [|exact A].
    rewrite <- E. unfold trim in T. rewrite (trim_start_fixed _ W) in T. exact T.
  - unfold PerformanceService.target_of at 1. rewrite T.
    apply orb_true_iff in S.
    destruct S as [S|S]; rewrite S; cbn [negb andb]; [reflexivity|].
    rewrite andb_false_r. reflexivity.
Qed.

(** X1 on an address given with white space around it, a no-break space
    and a byte-order mark among it, and on one that names [http://]. *)
Lemma target_names_a_scheme_witness :
  PerformanceService.target_of (nbsp ++ " example.com/shop " ++ bom)
  = "https://example.com/shop"
  /\ PerformanceService.target_of " http://example.com" = "http://example.com".
Proof.
  split.
  - exact (proj1 (proj2 (target_names_a_scheme (nbsp ++ " example.com/shop " ++ bom)))
             eq_refl).
  - exact (proj1 (target_names_a_scheme " http://example.com") eq_refl).
Defined.

(** ** The key of a measurement *)

Lemma trim_blank_or_clean (s : string) :
  (trim s =? "") = false -> trim s <> "" /\ trim (trim s) = trim s.
Proof.
  intros E. split; [|apply trim_idem].
  intros Z. rewrite Z in E. discriminate.
Qed.

Section Keys.
Context {H : Host}.

(** X2. [fetchRealAuditData] throws outward in one case only: when the
    PageSpeed key, the Gemini key and [process.env.API_KEY] are all missing
    or blank, that is empty once trimmed; the error then says that no key
    was found, whatever the network would have done.  In every other case it returns a record, and
    the key it uses is the first of the three, in this order, that is not
    blank, with the white space at its ends removed. *)
Theorem fetch_throws_only_without_key (net : string -> string -> Network)
    (url geminiKey : string) (pageSpeedKey envKey : option string) :
  (blank pageSpeedKey && blank (Some geminiKey) && blank envKey = true ->
   PerformanceService.fetchRealAuditData net url geminiKey pageSpeedKey envKey
   = Throw (Error "No API Key found. Please configure process.env.API_KEY or use Settings."))
  /\ (blank pageSpeedKey && blank (Some geminiKey) && blank envKey = false ->
      exists used,
        PerformanceService.resolve_key geminiKey pageSpeedKey envKey = Some used
        /\ used <> "" /\ trim used = used
        /\ Some used
           = (if negb (blank pageSpeedKey) then option_map trim pageSpeedKey
              else if negb (blank (Some geminiKey)) then Some (trim geminiKey)
              else option_map trim envKey)
        /\ Returns
             (PerformanceService.fetchRealAuditData net url geminiKey pageSpeedKey envKey)
             (fun r => r = match PerformanceService.measure
                                   (net (PerformanceService.target_of url) used) with
                           | Normal record => record
                           | Throw e => PerformanceService.failed e
                           end)).
Proof.
  unfold PerformanceService.fetchRealAuditData, PerformanceService.resolve_key, blank.
  split.
  - intros B. apply andb_true_iff in B. destruct B as [B Be].
    apply andb_true_iff in B. destruct B as [Bp Bg].
    rewrite Bg.
    destruct pageSpeedKey as [p|]; [rewrite Bp|];
      (destruct envKey as [e|]; [rewrite Be|]); reflexivity.
  - intros B.
    destruct pageSpeedKey as [p|]; [destruct (trim p =? "") eqn:Ep|];
      cbn [negb andb option_map] in *.
    2:{ destruct (trim_blank_or_clean p Ep) as [N C].
        exists (trim p). repeat split; try assumption.
        destruct (PerformanceService.measure _); eexists; split; reflexivity. }
    all: destruct (trim geminiKey =? "") eqn:Eg; cbn [negb andb] in *.
    2,4:
      destruct (trim_blank_or_clean geminiKey Eg) as [N C];
      exists (trim geminiKey); repeat split; try assumption;
      destruct (PerformanceService.measure _); eexists; split; reflexivity.
    all: destruct envKey as [e|]; [|discriminate B].
    all: destruct (trim e =? "") eqn:Ee; [discriminate B|].
    all: destruct (trim_blank_or_clean e Ee) as [N C].
    all: exists (trim e); cbn [option_map]; repeat split; try assumption.
    all: destruct (PerformanceService.measure _); eexists; split; reflexivity.
Qed.
End Keys.

(** X2 with a Gemini key given with a space after it and a PageSpeed key
    that is a no-break space and a byte-order mark, and with blank keys
    only, the Gemini key a no-break space. *)
Lemma fetch_throws_only_without_key_witness :
  Returns (PerformanceService.fetchRealAuditData (H := sample_host)
             (fun _ key => if key =? "AIza-key" then Responds 800 hollow else Silent)
             "example.com" "AIza-key " (Some (nbsp ++ bom)) None)
          (fun r => errors r <> ["PageSpeed Analysis Timed Out (Skipped)"])
  /\ PerformanceService.fetchRealAuditData (H := sample_host)
       (fun _ _ => Responds 800 hollow) "example.com" nbsp (Some "") (Some " ")
     = Throw (Error "No API Key found. Please configure process.env.API_KEY or use Settings.").
Proof.
  split.
  - destruct (proj2 (fetch_throws_only_without_key (H := sample_host)
      (fun _ key => if key =? "AIza-key" then Responds 800 hollow else Silent)
      "example.com" "AIza-key " (Some (nbsp ++ bom)) None) eq_refl)
      as [used [K [_ [_ [_ [r [R E]]]]]]].
    exists r. split; [exact R|].
    vm_compute in K. injection K as <-. rewrite E. vm_compute. discriminate.
  - exact (proj1 (fetch_throws_only_without_key (H := sample_host)
      (fun _ _ => Responds 800 hollow) "example.com" nbsp (Some "") (Some " ")) eq_refl).
Defined.

(** ** The request URL *)

Lemma split_on_free (sep : ascii) (s : string) :
  occurs sep s = false -> split_on sep s = [s].
Proof.
  induction s as [|c rest IH]; [reflexivity|].
  cbn [occurs split_on]. intros O. apply orb_false_iff in O. destruct O as [C O].
  rewrite C, (IH O). reflexivity.
Qed.

Lemma split_on_app (sep : ascii) (a b : string) :
  occurs sep a = false -> split_on sep (a ++ String sep b) = a :: split_on sep b.
Proof.
  induction a as [|c rest IH]; cbn [occurs append split_on].
  - intros _. rewrite Ascii.eqb_refl. reflexivity.
  - intros O. apply orb_false_iff in O. destruct O as [C O].
    rewrite C, (IH O). reflexivity.
Qed.

Lemma hex_digit_value (n : nat) :
  (n < 16)%nat -> nat_of_ascii (hex_digit n) = if (n <? 10)%nat then (48 + n)%nat else (55 + n)%nat.
Proof.
  intros L. unfold hex_digit.
  destruct (n <? 10)%nat; apply nat_ascii_embedding; lia.
Qed.

Lemma hex_digit_safe (n : nat) : (n < 16)%nat -> form_safe (hex_digit n) = true.
Proof.
  intros L. do 16 (destruct n as [|n]; [reflexivity|]). lia.
Qed.

Lemma hex_digit_inj (n m : nat) :
  (n < 16)%nat -> (m < 16)%nat -> hex_digit n = hex_digit m -> n = m.
Proof.
  intros Ln Lm E. apply (f_equal nat_of_ascii) in E.
  rewrite (hex_digit_value n Ln), (hex_digit_value m Lm) in E.
  destruct (n <? 10)%nat eqn:A, (m <? 10)%nat eqn:B;
    try apply Nat.ltb_lt in A; try apply Nat.ltb_lt in B;
    try apply Nat.ltb_ge in A; try apply Nat.ltb_ge in B; lia.
Qed.

Lemma nat_of_ascii_bound (c : ascii) : (nat_of_ascii c < 256)%nat.
Proof. apply nat_ascii_bounded. Qed.

(** A character that the serializer would escape never occurs in what it
    writes, unless it is [%] or [+]. *)
Lemma form_encode_free (c : ascii) (s : string) :
  form_safe c = false -> Ascii.eqb c "%" = false -> Ascii.eqb c "+" = false ->
  occurs c (form_encode s) = false.
Proof.
  intros S P Q.
  assert (D : forall d, form_safe d = true -> Ascii.eqb d c = false).
  { intros d Sd. destruct (Ascii.eqb d c) eqn:E; [|reflexivity].
    apply Ascii.eqb_eq in E. subst d. congruence. }
  induction s as [|d rest IH]; [reflexivity|].
  cbn [form_encode]. rewrite occurs_app, IH, orb_false_r.
  unfold form_byte. destruct (form_safe d) eqn:Sd.
  - cbn [occurs]. rewrite (D d Sd). reflexivity.
  - destruct (Ascii.eqb d " ").
    + cbn [occurs]. rewrite Ascii.eqb_sym, Q. reflexivity.
    + pose proof (nat_of_ascii_bound d) as B.
      cbn [occurs]. rewrite (Ascii.eqb_sym "%" c), P.
      rewrite (D _ (hex_digit_safe (nat_of_ascii d / 16)
                      ltac:(apply Nat.Div0.div_lt_upper_bound; lia))).
      rewrite (D _ (hex_digit_safe (nat_of_ascii d mod 16)
                      ltac:(apply Nat.mod_upper_bound; lia))).
      reflexivity.
Qed.

(** Nothing is lost in the serialization: two texts that are written alike
    are the same text. *)
Lemma form_encode_inj (s t : string) : form_encode s = form_encode t -> s = t.
Proof.
  revert t. induction s as [|c s IH]; intros [|d t]; cbn [form_encode].
  - reflexivity.
  - unfold form_byte. destruct (form_safe d); [discriminate|].
    destruct (Ascii.eqb d " "); discriminate.
  - unfold form_byte. destruct (form_safe c); [discriminate|].
    destruct (Ascii.eqb c " "); discriminate.
  - intros E.
    assert (G : c = d /\ form_encode s = form_encode t).
    { unfold form_byte in E.
      destruct (form_safe c) eqn:Sc, (form_safe d) eqn:Sd.
      - injection E as -> E. auto.
      - destruct (Ascii.eqb d " ").
        + injection E as -> E. discriminate Sc.
        + injection E as -> E. discriminate Sc.
      - destruct (Ascii.eqb c " ").
        + injection E as <- E. discriminate Sd.
        + injection E as <- E. discriminate Sd.
      - destruct (Ascii.eqb c " ") eqn:Pc, (Ascii.eqb d " ") eqn:Pd.
        + apply Ascii.eqb_eq in Pc, Pd. injection E as E. subst. auto.
        + discriminate E.
        + discriminate E.
        + pose proof (nat_of_ascii_bound c) as Bc.
          pose proof (nat_of_ascii_bound d) as Bd.
          pose proof (Nat.div_mod_eq (nat_of_ascii c) 16) as Dc.
          pose proof (Nat.div_mod_eq (nat_of_ascii d) 16) as Dd.
          assert (Hc : (nat_of_ascii c / 16 < 16)%nat)
            by (apply Nat.Div0.div_lt_upper_bound; lia).
          assert (Hd : (nat_of_ascii d / 16 < 16)%nat)
            by (apply Nat.Div0.div_lt_upper_bound; lia).
          assert (Lc : (nat_of_ascii c mod 16 < 16)%nat) by (apply Nat.mod_upper_bound; lia).
          assert (Ld : (nat_of_ascii d mod 16 < 16)%nat) by (apply Nat.mod_upper_bound; lia).
          revert E Dc Dd Hc Hd Lc Ld.
          generalize (nat_of_ascii c / 16)%nat (nat_of_ascii c mod 16)%nat
                     (nat_of_ascii d / 16)%nat (nat_of_ascii d mod 16)%nat.
          intros hc lc hd ld E Dc Dd Hc Hd Lc Ld.
          injection E as Eh El E.
          apply hex_digit_inj in Eh; [|assumption|assumption].
          apply hex_digit_inj in El; [|assumption|assumption].
          split; [|exact E].
          rewrite <- (ascii_nat_embedding c), <- (ascii_nat_embedding d).
          f_equal. lia. }
    destruct G as [-> G]. f_equal. apply IH. exact G.
Qed.

Lemma append_inj_right (p a b : string) : p ++ a = p ++ b -> a = b.
Proof.
  induction p as [|c p IH]; cbn [append]; [auto|].
  intros E. injection E as E. auto.
Qed.

(** X3. Whatever the target and the key hold, the request has the same
    seven parameters in the same order: cut at its ampersands, the query is
    the target as [url], the four categories, the desktop strategy and the
    key, so that an ampersand, an equals sign or a hash in the target or in
    the key cannot add or change a parameter.  Different targets or keys
    give different requests. *)
Theorem request_has_seven_parameters (targetUrl key : string) :
  (exists query,
     buildUrl targetUrl key = endpoint ++ "?" ++ query
     /\ split_on "&" query
        = ["url=" ++ form_encode targetUrl;
           "category=PERFORMANCE"; "category=SEO"; "category=ACCESSIBILITY";
           "category=BEST_PRACTICES"; "strategy=DESKTOP";
           "key=" ++ form_encode key])
  /\ occurs "&" (form_encode targetUrl) = false
  /\ occurs "=" (form_encode targetUrl) = false
  /\ occurs "#" (form_encode targetUrl) = false
  /\ split_on "=" ("key=" ++ form_encode key) = ["key"; form_encode key]
  /\ (forall targetUrl' key',
        buildUrl targetUrl key = buildUrl targetUrl' key' ->
        targetUrl = targetUrl' /\ key = key').
Proof.
  assert (A : forall s, occurs "&" (form_encode s) = false)
    by (intros s; apply form_encode_free; reflexivity).
  assert (Q : forall s, occurs "=" (form_encode s) = false)
    by (intros s; apply form_encode_free; reflexivity).
  assert (S : forall t k,
    split_on "&" (form_serialize [("url", t); ("category", "PERFORMANCE");
       ("category", "SEO"); ("category", "ACCESSIBILITY");
       ("category", "BEST_PRACTICES"); ("strategy", "DESKTOP"); ("key", k)])
    = ["url=" ++ form_encode t;
       "category=PERFORMANCE"; "category=SEO"; "category=ACCESSIBILITY";
       "category=BEST_PRACTICES"; "strategy=DESKTOP"; "key=" ++ form_encode k]).
  { intros t k. unfold form_serialize. cbn [map join fst snd append].
    assert (P : forall n v, occurs "&" (form_encode n ++ String "=" (form_encode v)) = false).
    { intros n v. rewrite occurs_app. cbn [occurs]. rewrite !A. reflexivity. }
    rewrite !split_on_app by apply P.
    rewrite split_on_free by apply P.
    reflexivity. }
  split; [|split; [apply A|split; [apply Q|split; [|split]]]].
  - eexists. split; [reflexivity|apply S].
  - apply form_encode_free; reflexivity.
  - change ("key=" ++ form_encode key) with ("key" ++ String "=" (form_encode key)).
    rewrite split_on_app by reflexivity. f_equal. apply split_on_free, Q.
  - intros t' k' E. unfold buildUrl in E.
    apply append_inj_right in E. apply append_inj_right in E.
    apply (f_equal (split_on "&")) in E. rewrite !S in E.
    injection E as Et Ek.
    split; apply form_encode_inj; assumption.
Qed.

(** ** The failures of a measurement are the listed ones *)

Section Exhaustive.
Context {H : Host}.



End Exhaustive.


(** ** The reply of the model, unfenced *)

Lemma strip_prefix_split (p s rest : string) :
  strip_prefix p s = Some rest -> s = p ++ rest.
Proof.
  revert s. induction p as [|a p IH]; intros s; cbn [strip_prefix append].
  - intros [= ->]. reflexivity.
  - destruct s as [|b s]; [discriminate|].
    destruct (Ascii.eqb a b) eqn:E; [|discriminate].
    apply Ascii.eqb_eq in E. subst b. intros S. rewrite (IH _ S). reflexivity.
Qed.

(** The bytes that are pending are passed over. *)
Lemma without_json_fences_pending (skipping : bool) (p s : string) :
  without_json_fences skipping (String.length p) (p ++ s) = without_json_fences skipping 0 s.
Proof.
  induction p as [|c p IH]; [reflexivity|].
  cbn [append String.length without_json_fences]. exact IH.
Qed.

Lemma without_json_fences_fence (c : ascii) (rest : string) :
  (if startsWith (String c rest) "```json" then without_json_fences true 6 rest
   else String c (without_json_fences false 0 rest))
  = match strip_prefix "```json" (String c rest) with
    | Some rest7 => without_json_fences true 0 rest7
    | None => String c (without_json_fences false 0 rest)
    end.
Proof.
  unfold startsWith.
  destruct (strip_prefix "```json" (String c rest)) as [rest7|] eqn:S; [|reflexivity].
  apply strip_prefix_split in S. cbn [append] in S. injection S as -> ->.
  apply (without_json_fences_pending true "``json" rest7).
Qed.

Lemma without_json_fences_step (c : ascii) (rest : string) :
  without_json_fences false 0 (String c rest)
  = match strip_prefix "```json" (String c rest) with
    | Some rest7 => without_json_fences true 0 rest7
    | None => String c (without_json_fences false 0 rest)
    end.
Proof. cbn [without_json_fences]. apply without_json_fences_fence. Qed.

Lemma without_json_fences_white (c : ascii) (rest : string) :
  without_json_fences true 0 (String c rest)
  = match white_space (String c rest) with
    | Some after => without_json_fences true 0 after
    | None => without_json_fences false 0 (String c rest)
    end.
Proof.
  rewrite without_json_fences_step. cbn [without_json_fences]. unfold white_length.
  destruct (white_space (String c rest)) as [after|] eqn:W;
    [|apply without_json_fences_fence].
  destruct (white_space_split _ _ W) as [w [E [Ww _]]].
  destruct w as [|d w]; [discriminate Ww|].
  cbn [append] in E. injection E as <- ->.
  change (String c (w ++ after)) with (String c w ++ after).
  rewrite string_length_app, Nat.add_sub. cbn [String.length].
  apply without_json_fences_pending.
Qed.

(** After a fence, white space is passed over. *)
Lemma without_json_fences_skip (s : string) :
  without_json_fences true 0 s = without_json_fences false 0 (trim_start s).
Proof.
  induction s as [s IH] using white_induction.
  destruct s as [|c rest]; [reflexivity|].
  rewrite without_json_fences_white, trim_start_eq.
  destruct (white_space (String c rest)) as [after|]; [apply IH|]; reflexivity.
Qed.

Lemma strip_prefix_other (p s : string) (c d : ascii) :
  Ascii.eqb c d = false -> strip_prefix (String c p) (String d s) = None.
Proof. intros E. cbn [strip_prefix]. rewrite E. reflexivity. Qed.

Lemma backtick_free_head (c : ascii) (s : string) :
  occurs "`" (String c s) = false -> Ascii.eqb "`" c = false /\ occurs "`" s = false.
Proof.
  cbn [occurs]. intros O. apply orb_false_iff in O. destruct O as [C O].
  rewrite Ascii.eqb_sym. auto.
Qed.

(** Text without a backtick, followed by whatever [tail] is left as it is,
    loses no opening fence. *)
Lemma without_json_fences_free (a tail : string) :
  occurs "`" a = false ->
  without_json_fences false 0 (a ++ tail) = a ++ without_json_fences false 0 tail.
Proof.
  induction a as [|c rest IH]; [reflexivity|].
  intros O. apply backtick_free_head in O. destruct O as [C O].
  cbn [append]. rewrite without_json_fences_step.
  rewrite (strip_prefix_other _ _ _ _ C), (IH O). reflexivity.
Qed.

Lemma without_closing_fence_free (a tail : string) :
  occurs "`" a = false ->
  without_closing_fence (a ++ tail) = a ++ without_closing_fence tail.
Proof.
  induction a as [|c rest IH]; [reflexivity|].
  intros O. apply backtick_free_head in O. destruct O as [C O].
  cbn [append without_closing_fence]. unfold closes.
  rewrite (strip_prefix_other _ _ _ _ C), (IH O). reflexivity.
Qed.

Lemma occurs_trim_start (c : ascii) (s : string) :
  occurs c s = false -> occurs c (trim_start s) = false.
Proof.
  intros O. destruct (trim_start_split s) as [w [E _]].
  rewrite E, occurs_app in O. apply orb_false_iff in O. apply O.
Qed.

(** The two replacements on text that is already trimmed. *)
Lemma unfence_plain (s : string) :
  occurs "`" s = false -> without_closing_fence (without_json_fences false 0 s) = s.
Proof.
  intros O.
  rewrite <- (append_empty_right s) at 1.
  rewrite (without_json_fences_free s "" O). cbn [without_json_fences].
  rewrite (without_closing_fence_free s "" O). cbn [without_closing_fence].
  apply append_empty_right.
Qed.

Lemma unfence_json (w body : string) :
  all_space w = true -> occurs "`" body = false ->
  without_closing_fence (without_json_fences false 0 ("```json" ++ w ++ body ++ "```"))
  = trim_start body.
Proof.
  intros W O.
  change ("```json" ++ w ++ body ++ "```")
    with (String "`" ("``json" ++ w ++ body ++ "```")).
  rewrite without_json_fences_step. cbn [strip_prefix Ascii.eqb Bool.eqb append].
  rewrite without_json_fences_skip, (trim_start_spaces w _ W).
  change (body ++ "```") with (body ++ String "`" "``").
  rewrite trim_start_app by reflexivity.
  change (String "`" "``") with "```".
  rewrite (without_json_fences_free _ "```" (occurs_trim_start _ _ O)).
  change (without_json_fences false 0 "```") with "```".
  rewrite (without_closing_fence_free _ "```" (occurs_trim_start _ _ O)).
  change (without_closing_fence "```") with "". apply append_empty_right.
Qed.

Lemma all_space_fence (a : string) : all_space (a ++ "```") = false.
Proof.
  destruct (all_space (a ++ "```")) eqn:A; [|reflexivity].
  assert (P : plain "`" = false).
  { apply (all_space_no_plain _ _ A). rewrite occurs_app. apply orb_true_r. }
  discriminate P.
Qed.

Lemma strip_json_app (body : string) :
  startsWith body "json" = false -> strip_prefix "json" (body ++ "```") = None.
Proof.
  unfold startsWith.
  destruct body as [|c1 [|c2 [|c3 [|c4 b]]]]; cbn [append strip_prefix];
    repeat match goal with
           | |- context [Ascii.eqb ?x ?y] => is_var y; destruct (Ascii.eqb x y)
           end;
    intros J; try reflexivity; discriminate J.
Qed.

Lemma fence_then_tag (x : string) :
  strip_prefix "```json" ("```" ++ x) = strip_prefix "json" x.
Proof. reflexivity. Qed.

Lemma short_fence (c : ascii) (x : string) :
  Ascii.eqb "`" c = false ->
  strip_prefix "```json" ("``" ++ String c x) = None
  /\ strip_prefix "```json" ("`" ++ String c x) = None
  /\ strip_prefix "```" ("``" ++ String c x) = None
  /\ strip_prefix "```" ("`" ++ String c x) = None.
Proof.
  intros C.
  change (strip_prefix "```json" ("``" ++ String c x))
    with (strip_prefix "`json" (String c x)).
  change (strip_prefix "```json" ("`" ++ String c x))
    with (strip_prefix "``json" (String c x)).
  change (strip_prefix "```" ("``" ++ String c x)) with (strip_prefix "`" (String c x)).
  change (strip_prefix "```" ("`" ++ String c x)) with (strip_prefix "``" (String c x)).
  rewrite !(strip_prefix_other _ _ _ _ C). auto.
Qed.

Lemma unfence_bare (body : string) :
  occurs "`" body = false -> startsWith body "json" = false ->
  without_closing_fence (without_json_fences false 0 ("```" ++ body ++ "```"))
  = "```" ++ body.
Proof.
  intros O J. destruct body as [|c b]; [reflexivity|].
  pose proof (strip_json_app _ J) as SJ.
  destruct (backtick_free_head _ _ O) as [C O'].
  destruct (short_fence c (b ++ "```") C) as [S2 [S1 [T2 T1]]].
  change (String c b ++ "```") with (String c (b ++ "```")) in *.
  assert (K : without_json_fences false 0 ("```" ++ String c (b ++ "```"))
              = "```" ++ String c (b ++ "```")).
  { change ("```" ++ String c (b ++ "```"))
      with (String "`" ("``" ++ String c (b ++ "```"))).
    rewrite without_json_fences_step.
    change (String "`" ("``" ++ String c (b ++ "```")))
      with ("```" ++ String c (b ++ "```")).
    rewrite fence_then_tag, SJ. f_equal.
    change ("``" ++ String c (b ++ "```"))
      with (String "`" ("`" ++ String c (b ++ "```"))).
    rewrite without_json_fences_step.
    change (String "`" ("`" ++ String c (b ++ "```")))
      with ("``" ++ String c (b ++ "```")).
    rewrite S2. f_equal.
    change ("`" ++ String c (b ++ "```")) with (String "`" (String c (b ++ "```"))).
    rewrite without_json_fences_step.
    change (String "`" (String c (b ++ "```"))) with ("`" ++ String c (b ++ "```")).
    rewrite S1. f_equal.
    change (String c (b ++ "```")) with (String c b ++ "```").
    rewrite (without_json_fences_free _ "```" O). reflexivity. }
  rewrite K.
  change ("```" ++ String c (b ++ "```"))
    with (String "`" ("``" ++ String c (b ++ "```"))).
  cbn [without_closing_fence].
  change (String "`" ("``" ++ String c (b ++ "```")))
    with ("```" ++ String c (b ++ "```")).
  assert (Z : closes ("```" ++ String c (b ++ "```")) = false).
  { unfold closes. change (strip_prefix "```" ("```" ++ String c (b ++ "```")))
      with (Some (String c (b ++ "```"))).
    change (String c (b ++ "```")) with (String c b ++ "```"). apply all_space_fence. }
  rewrite Z.
  change ("``" ++ String c (b ++ "```"))
    with (String "`" ("`" ++ String c (b ++ "```"))).
  cbn [without_closing_fence].
  change (String "`" ("`" ++ String c (b ++ "```")))
    with ("``" ++ String c (b ++ "```")).
  unfold closes at 1. rewrite T2.
  change ("`" ++ String c (b ++ "```")) with (String "`" (String c (b ++ "```"))).
  cbn [without_closing_fence].
  change (String "`" (String c (b ++ "```"))) with ("`" ++ String c (b ++ "```")).
  unfold closes at 1. rewrite T1.
  unfold closes. rewrite (strip_prefix_other _ _ _ _ C).
  rewrite (without_closing_fence_free b "```" O').
  change (without_closing_fence "```") with "". rewrite append_empty_right.
  reflexivity.
Qed.

(** X5. What reaches [JSON.parse].  A reply that holds no backtick is
    parsed as it is, trimmed.  A reply wrapped in a fence that opens with
    the [json] tag is parsed as its body, whatever white space surrounds
    the fences.  A reply wrapped in fences without the tag keeps its
    opening fence, only the closing one being removed.  A response without
    text makes the run throw a TypeError before anything is parsed.  White
    space is what ECMAScript takes for it: the no-break space, the
    byte-order mark and the other space and line separators of Unicode
    besides the ASCII ones. *)
Theorem reply_is_unfenced (res : JsVal) (text : string) :
  nullish res = false -> prop res "text" = JStr text ->
  (occurs "`" text = false -> unfenced res = Normal (trim text))
  /\ (forall before after_tag body afterwards,
        all_space before = true -> all_space after_tag = true ->
        all_space afterwards = true -> occurs "`" body = false ->
        text = before ++ "```json" ++ after_tag ++ body ++ "```" ++ afterwards ->
        unfenced res = Normal (trim_start body))
  /\ (forall body,
        occurs "`" body = false -> startsWith body "json" = false ->
        text = "```" ++ body ++ "```" ->
        unfenced res = Normal ("```" ++ body))
  /\ (forall other, nullish other = false -> nullish (prop other "text") = true ->
        exists e, unfenced other = Throw e /\ name e = "TypeError").
Proof.
  intros N T.
  assert (U : unfenced res
              = Normal (without_closing_fence (without_json_fences false 0 (trim text)))).
  { unfold unfenced. rewrite (member_prop _ _ N), T. reflexivity. }
  rewrite U. split; [|split; [|split]].
  - intros O. f_equal. apply unfence_plain. apply occurs_trim, O.
  - intros before after_tag body afterwards B A F O ->. f_equal.
    assert (E : trim (before ++ "```json" ++ after_tag ++ body ++ "```" ++ afterwards)
                = "```json" ++ after_tag ++ body ++ "```").
    { unfold trim. rewrite (trim_start_spaces before _ B).
      rewrite trim_start_fixed by (apply white_space_plain; reflexivity).
      assert (K : trim_end ("```" ++ afterwards) = "```").
      { rewrite trim_end_app by reflexivity. rewrite (trim_end_spaces _ F). reflexivity. }
      assert (Q : occurs "`" ("```" ++ afterwards) = true) by reflexivity.
      set (fence := "```" ++ afterwards) in *.
      rewrite <- !string_app_assoc.
      rewrite (trim_end_plain "`" _ fence eq_refl Q).
      rewrite K, !string_app_assoc. reflexivity. }
    rewrite E. apply unfence_json; assumption.
  - intros body O J ->. f_equal.
    assert (E : trim ("```" ++ body ++ "```") = "```" ++ body ++ "```").
    { unfold trim. rewrite trim_start_fixed by (apply white_space_plain; reflexivity).
      rewrite <- string_app_assoc.
      rewrite (trim_end_plain "`" _ "```" eq_refl eq_refl).
      apply string_app_assoc. }
    rewrite E. apply unfence_bare; assumption.
  - intros other No Nt. unfold unfenced. rewrite (member_prop _ _ No). cbn [bind].
    destruct (prop other "text"); try discriminate Nt; cbn [String_trim bind]; eauto.
Qed.

(** X5 on a fenced reply, on a plain one, and on one that opens with a
    byte-order mark and closes with a no-break space. *)
Lemma reply_is_unfenced_witness :
  unfenced (JObj [("text", JStr ("```json" ++ nl ++ "{}" ++ nl ++ "```" ++ nl))])
  = Normal ("{}" ++ nl)
  /\ unfenced (JObj [("text", JStr "  {}  ")]) = Normal "{}"
  /\ unfenced (JObj [("text", JStr (bom ++ "{}" ++ nbsp))]) = Normal "{}"
  /\ unfenced (JObj [("text", JStr (bom ++ "```json" ++ nbsp ++ "{}```" ++ nbsp))])
     = Normal "{}".
Proof.
  split; [|split; [|split]].
  - exact (proj1 (proj2 (reply_is_unfenced
      (JObj [("text", JStr ("```json" ++ nl ++ "{}" ++ nl ++ "```" ++ nl))])
      ("```json" ++ nl ++ "{}" ++ nl ++ "```" ++ nl) eq_refl eq_refl))
      "" nl ("{}" ++ nl) nl eq_refl eq_refl eq_refl eq_refl eq_refl).
  - exact (proj1 (reply_is_unfenced (JObj [("text", JStr "  {}  ")]) "  {}  "
      eq_refl eq_refl) eq_refl).
  - exact (proj1 (reply_is_unfenced (JObj [("text", JStr (bom ++ "{}" ++ nbsp))])
      (bom ++ "{}" ++ nbsp) eq_refl eq_refl) eq_refl).
  - exact (proj1 (proj2 (reply_is_unfenced
      (JObj [("text", JStr (bom ++ "```json" ++ nbsp ++ "{}```" ++ nbsp))])
      (bom ++ "```json" ++ nbsp ++ "{}```" ++ nbsp) eq_refl eq_refl))
      bom nbsp "{}" nbsp eq_refl eq_refl eq_refl eq_refl eq_refl).
Defined.

(** ** The progress of a run *)

Lemma tick_below (p : Q) : (p < 99)%Q -> tick p = (p + (1 # 2))%Q.
Proof.
  intros L. unfold tick. destruct (Qle_bool 99 p) eqn:E; [|reflexivity].
  apply Qle_bool_iff in E. exfalso. apply (Qlt_not_le _ _ L E).
Qed.

Lemma tick_capped (p : Q) : (99 <= p)%Q -> tick p = 99%Q.
Proof. intros L. unfold tick. apply Qle_bool_iff in L. rewrite L. reflexivity. Qed.

Lemma progress_value (n : nat) :
  (progress n == if (n <=? 198)%nat then Z.of_nat n # 2 else 99)%Q.
Proof.
  induction n as [|n IH]; [reflexivity|].
  cbn [progress].
  destruct (n <=? 198)%nat eqn:A.
  - apply Nat.leb_le in A.
    destruct (S n <=? 198)%nat eqn:B.
    + apply Nat.leb_le in B. rewrite tick_below.
      * rewrite IH. unfold Qeq, Qplus. cbn [Qnum Qden]. lia.
      * rewrite IH. unfold Qlt. cbn [Qnum Qden]. lia.
    + apply Nat.leb_gt in B. rewrite tick_capped; [reflexivity|].
      rewrite IH. unfold Qle. cbn [Qnum Qden]. lia.
  - apply Nat.leb_gt in A.
    assert (B : (S n <=? 198)%nat = false) by (apply Nat.leb_gt; lia).
    rewrite B. rewrite tick_capped; [reflexivity|].
    rewrite IH. apply Qle_refl.
Qed.

(** X6. While a run is analysing, the progress after [n] intervals is half
    of [n] up to the 198th interval and 99 from then on: it never goes
    back, it never passes 99, and the screen never prints more than 99
    per cent before the run has ended. *)
Theorem progress_stops_at_99 (n : nat) :
  (progress n == if (n <=? 198)%nat then Z.of_nat n # 2 else 99)%Q
  /\ (progress n <= progress (S n))%Q
  /\ (progress n <= 99)%Q
  /\ (shown (progress n) <= 99)%Z
  /\ ((198 <= n)%nat -> shown (progress n) = 99%Z).
Proof.
  pose proof (progress_value n) as V. pose proof (progress_value (S n)) as V'.
  assert (L : (progress n <= 99)%Q).
  { rewrite V. destruct (n <=? 198)%nat eqn:A; [|apply Qle_refl].
    apply Nat.leb_le in A. unfold Qle. cbn [Qnum Qden]. lia. }
  split; [exact V|]. split; [|split; [exact L|split]].
  - rewrite V, V'.
    destruct (n <=? 198)%nat eqn:A, (S n <=? 198)%nat eqn:B;
      try apply Nat.leb_le in A; try apply Nat.leb_le in B;
      try apply Nat.leb_gt in A; try apply Nat.leb_gt in B;
      unfold Qle; cbn [Qnum Qden]; lia.
  - unfold shown.
    apply Z.le_trans with (Qfloor (99 + (1 # 2))); [|reflexivity].
    apply Qfloor_resp_le. apply Qplus_le_l. exact L.
  - intros G. unfold shown.
    assert (E : (progress n == 99)%Q).
    { rewrite V. destruct (n <=? 198)%nat eqn:A; [|reflexivity].
      apply Nat.leb_le in A. assert (n = 198%nat) by lia. subst n. reflexivity. }
    rewrite E. reflexivity.
Qed.

(** X6 after half a minute (200 intervals of 150 ms) and after 3 seconds. *)
Lemma progress_stops_at_99_witness :
  shown (progress 200) = 99%Z /\ shown (progress 20) = 10%Z.
Proof.
  split.
  - apply (proj2 (proj2 (proj2 (proj2 (progress_stops_at_99 200))))). lia.
  - reflexivity.
Defined.

(** ** The name of the exported file *)

Lemma list_ascii_app (a b : string) :
  list_ascii_of_string (a ++ b) = (list_ascii_of_string a ++ list_ascii_of_string b)%list.
Proof. induction a as [|c a IH]; [reflexivity|]. cbn. rewrite IH. reflexivity. Qed.

Lemma sanitized_safe (s : string) : name_safe (App000.sanitized s).
Proof.
  unfold name_safe. induction s as [|c s IH]; [reflexivity|].
  cbn [App000.sanitized]. rewrite list_ascii_app, forallb_app, IH, andb_true_r.
  unfold App000.underscored. destruct (App000.alphanumeric c) eqn:A.
  - cbn. rewrite A. reflexivity.
  - destruct (nat_of_ascii c <? 128)%nat; [reflexivity|].
    destruct (nat_of_ascii c <? 192)%nat; [reflexivity|].
    destruct (nat_of_ascii c <? 240)%nat; reflexivity.
Qed.

Lemma sanitized_kept (s : string) :
  forallb App000.alphanumeric (list_ascii_of_string s) = true -> App000.sanitized s = s.
Proof.
  induction s as [|c s IH]; [reflexivity|].
  cbn [list_ascii_of_string forallb App000.sanitized]. intros F.
  apply andb_true_iff in F. destruct F as [A F].
  unfold App000.underscored. rewrite A, (IH F). reflexivity.
Qed.

Section ExportName.
Context {H : Host}.

(** X7. The file that part_000 exports is named after the website name
    of the report: every character of that name that is not an ASCII letter
    or digit is replaced by an underscore, so the name holds letters,
    digits and underscores only, before [_Audit_Pro.pdf]; a name of letters
    and digits is kept as it is.  When the candidate names no website, the
    file is named after the upper-cased domain of the url.  A website name
    that the candidate supplied as something other than a string is kept
    by the normalizer and makes the export throw a TypeError. *)
Theorem export_name_is_safe (dateStr : string) (data : JsVal) (url : string)
    (perfScore : JsNumber) (currency : string) :
  Ensures (Part000.createSafeReport dateStr data url perfScore currency)
    (fun r =>
       match select r ["titlePage"; "websiteName"] with
       | JStr s =>
           App000.filename r = Normal (App000.sanitized s ++ "_Audit_Pro.pdf")
       | _ => exists e, App000.filename r = Throw e /\ name e = "TypeError"
       end
       /\ (usable (select data ["titlePage"; "websiteName"]) = false ->
           sections_passable data ["titlePage"; "websiteName"] = true ->
           App000.filename r
           = Normal (App000.sanitized (toUpperCase (domain_of url)) ++ "_Audit_Pro.pdf")))
  /\ (forall s, name_safe (App000.sanitized s))
  /\ (forall s, forallb App000.alphanumeric (list_ascii_of_string s) = true ->
                App000.sanitized s = s).
Proof.
  split; [|split; [exact sanitized_safe|exact sanitized_kept]].
  intros r R. run000 R. clear Erecs.
  match goal with |- context [select ?a _] => set (r := a) end.
  set (websiteName := Part001.get data "titlePage.websiteName"
                        (JStr (toUpperCase (domain_of url)))).
  assert (S : select r ["titlePage"; "websiteName"] = websiteName).
  { lazy beta iota zeta delta
      [r select fold_left field own String.eqb Ascii.eqb Bool.eqb]. reflexivity. }
  assert (F : App000.filename r
              = match websiteName with
                | JStr s => Normal (App000.sanitized s ++ "_Audit_Pro.pdf")
                | JUndefined | JNull =>
                    Throw (TypeError
                      "Cannot read properties of null or undefined (reading replace)")
                | _ => Throw (TypeError
                         "report.titlePage.websiteName.replace is not a function")
                end).
  { lazy beta iota zeta delta
      [r App000.filename member nullish prop bind own String.eqb Ascii.eqb Bool.eqb].
    reflexivity. }
  rewrite S, F. split.
  - destruct websiteName; try reflexivity; eexists; split; reflexivity.
  - intros U P. unfold websiteName.
    rewrite (proj2 (get_law data "titlePage.websiteName" _
                      ltac:(apply not_in_length; reflexivity)) U P).
    reflexivity.
Qed.
End ExportName.

(** X7 on a report for [https://acme.io/pricing] with no website named,
    and on one whose candidate names the website by a number. *)
Lemma export_name_is_safe_witness :
  Returns (Part000.createSafeReport (H := sample_host) "NOVEMBER 2026" (JObj [])
             "https://acme.io/pricing" (Fin 72) "USD")
    (fun r => App000.filename r = Normal "ACME_IO_Audit_Pro.pdf")
  /\ Returns (Part000.createSafeReport (H := sample_host) "NOVEMBER 2026"
                (JObj [("titlePage", JObj [("websiteName", JInt 42)])])
                "https://acme.io/pricing" (Fin 72) "USD")
       (fun r => exists e, App000.filename r = Throw e /\ name e = "TypeError").
Proof.
  split.
  - destruct (createSafeReport000_returns (H := sample_host) "NOVEMBER 2026" (JObj [])
                "https://acme.io/pricing" (Fin 72) "USD" eq_refl) as [r R].
    exists r. split; [exact R|].
    exact (proj2 (proj1 (export_name_is_safe (H := sample_host) "NOVEMBER 2026" (JObj [])
             "https://acme.io/pricing" (Fin 72) "USD") r R) eq_refl eq_refl).
  - destruct (createSafeReport000_returns (H := sample_host) "NOVEMBER 2026"
                (JObj [("titlePage", JObj [("websiteName", JInt 42)])])
                "https://acme.io/pricing" (Fin 72) "USD" eq_refl) as [r R].
    exists r. split; [exact R|].
    pose proof (proj1 (proj1 (export_name_is_safe (H := sample_host) "NOVEMBER 2026"
             (JObj [("titlePage", JObj [("websiteName", JInt 42)])])
             "https://acme.io/pricing" (Fin 72) "USD") r R)) as E.
    vm_compute in R. injection R as <-. exact E.
Defined.

(** ** The readers of the two revisions *)

Section Readers.
Context {H : Host}.

(** X8. The reduction along a path never throws, because [acc &&] stops it
    at the first falsy value; so the getters of part_000, which have no
    [try]/[catch], always return, and return what the getters of part_001
    return, whose [catch] branch is never taken.  A getter returns what the
    reduction found when that is usable (for [getArray]: a non-empty
    list), and the fallback in every other case. *)
Theorem readers_never_throw (obj : JsVal) (path : string) (fallback : JsVal)
    (fallbacks : list JsVal) :
  path_reduce obj path = Normal (resolve obj path)
  /\ Part000.get obj path fallback = Normal (Part001.get obj path fallback)
  /\ Part000.getArray obj path fallbacks = Normal (Part001.getArray obj path fallbacks)
  /\ Part001.get obj path fallback
     = (if usable (resolve obj path) then resolve obj path else fallback)
  /\ Part001.getArray obj path fallbacks
     = (if nonempty_array (resolve obj path)
        then match resolve obj path with JArr items => items | _ => [] end
        else fallbacks).
Proof.
  assert (R : path_reduce obj path = Normal (resolve obj path)).
  { unfold path_reduce, resolve.
    generalize (split_on "." path). intros parts. revert obj.
    induction parts as [|part parts IH]; intros obj; cbn [fold_left]; [reflexivity|].
    rewrite <- IH. f_equal.
    unfold reducer, step, member. cbn [bind].
    destruct (truthy obj) eqn:T; [|reflexivity].
    destruct obj; try discriminate T; reflexivity. }
  split; [exact R|].
  unfold Part000.get, Part000.getArray, Part001.get, Part001.getArray.
  rewrite R. cbn [bind]. repeat split.
  destruct (resolve obj path) as [| | | | |[|x l]|]; reflexivity.
Qed.
End Readers.

(** ** The domain of the url *)

Lemma strip_prefix_app (p s : string) : strip_prefix p (p ++ s) = Some s.
Proof.
  induction p as [|c p IH]; [reflexivity|].
  cbn [append strip_prefix]. rewrite Ascii.eqb_refl. exact IH.
Qed.

Lemma strip_prefix_occurs (p s rest : string) (c : ascii) :
  occurs c p = true -> strip_prefix p s = Some rest -> occurs c s = true.
Proof.
  revert s. induction p as [|a p IH]; intros s; [discriminate|].
  destruct s as [|b s]; cbn [strip_prefix occurs]; [discriminate|].
  destruct (Ascii.eqb a b) eqn:E; [|discriminate].
  apply Ascii.eqb_eq in E. subst b. intros O S.
  destruct (Ascii.eqb a c); [reflexivity|]. cbn [orb] in *. eapply IH; eassumption.
Qed.

Lemma first_segment_app (sep : ascii) (a b : string) :
  occurs sep a = false -> first_segment sep (a ++ String sep b) = a.
Proof. intros O. unfold first_segment. rewrite (split_on_app sep a b O). reflexivity. Qed.

Lemma first_segment_free (sep : ascii) (a : string) :
  occurs sep a = false -> first_segment sep a = a.
Proof. intros O. unfold first_segment. rewrite (split_on_free sep a O). reflexivity. Qed.

Lemma first_segment_clean (sep : ascii) (s : string) :
  occurs sep (first_segment sep s) = false.
Proof.
  unfold first_segment. induction s as [|c s IH]; [reflexivity|].
  cbn [split_on]. destruct (Ascii.eqb c sep) eqn:E; [reflexivity|].
  destruct (split_on sep s) as [|hd tl].
  - cbn [occurs]. rewrite E. reflexivity.
  - cbn [occurs]. rewrite E. exact IH.
Qed.

(** X9. The domain that names the client is the host of the url: what
    stands between a leading [http://] or [https://], if there is one, and
    the first slash after it.  It never holds a slash.  The scheme is
    recognized in lower case and at the very start only: a url that starts
    otherwise is cut at its first slash, scheme and all. *)
Theorem domain_is_the_host (host rest : string) :
  occurs "/" host = false ->
  domain_of ("https://" ++ host ++ "/" ++ rest) = host
  /\ domain_of ("http://" ++ host ++ "/" ++ rest) = host
  /\ domain_of ("https://" ++ host) = host
  /\ domain_of host = host
  /\ (forall url, occurs "/" (domain_of url) = false)
  /\ (forall url, startsWith url "http://" = false -> startsWith url "https://" = false ->
                  domain_of url = first_segment "/" url).
Proof.
  intros O.
  assert (N : forall p, occurs "/" p = true -> strip_prefix p host = None).
  { intros p P. destruct (strip_prefix p host) as [r|] eqn:S; [|reflexivity].
    rewrite (strip_prefix_occurs p host r "/" P S) in O. discriminate. }
  assert (M : forall x, strip_scheme ("https://" ++ x) = x).
  { intros x. unfold strip_scheme. rewrite strip_prefix_app. reflexivity. }
  assert (M' : forall x, strip_scheme ("http://" ++ x) = x).
  { intros x. unfold strip_scheme.
    change (strip_prefix "https://" ("http://" ++ x))
      with (strip_prefix "s://" (String ":" (String "/" (String "/" x)))).
    rewrite strip_prefix_other by reflexivity.
    rewrite strip_prefix_app. reflexivity. }
  assert (Z : strip_scheme host = host).
  { unfold strip_scheme. rewrite !N by reflexivity. reflexivity. }
  unfold domain_of. repeat split.
  - rewrite M. apply first_segment_app, O.
  - rewrite M'. apply first_segment_app, O.
  - rewrite M. apply first_segment_free, O.
  - rewrite Z. apply first_segment_free, O.
  - intros url. apply first_segment_clean.
  - intros url A B. unfold strip_scheme, startsWith in *.
    destruct (strip_prefix "https://" url); [discriminate|].
    destruct (strip_prefix "http://" url); [discriminate|]. reflexivity.
Qed.

(** X9 on a url with a path, and on urls whose scheme is not recognized. *)
Lemma domain_is_the_host_witness :
  domain_of "https://acme.io/pricing?plan=pro" = "acme.io"
  /\ domain_of "HTTPS://acme.io/pricing" = "HTTPS:"
  /\ domain_of " https://acme.io" = " https:".
Proof.
  split; [|split; reflexivity].
  exact (proj1 (domain_is_the_host "acme.io" "pricing?plan=pro" eq_refl)).
Defined.

(** ** What a completed recommendation keeps *)

Lemma define_keys (props : list (string * JsVal)) (k : string) (v : JsVal) :
  map fst (define props k v)
  = if existsb (String.eqb k) (map fst props) then map fst props
    else (map fst props ++ [k])%list.
Proof.
  induction props as [|[k' v'] rest IH]; [reflexivity|].
  cbn [define map fst existsb]. rewrite (String.eqb_sym k k').
  destruct (k' =? k) eqn:E.
  - apply String.eqb_eq in E. subst k'. reflexivity.
  - cbn [map fst orb]. rewrite IH.
    destruct (existsb (String.eqb k) (map fst rest)); reflexivity.
Qed.

Section Keeping.
Context {H : Host}.

Lemma complete001_keeps (rec out : JsVal) :
  Part001.complete rec = Normal out ->
  keeps rec out
  /\ exists props, out = JObj props
       /\ firstn (List.length (spread rec)) (map fst props) = map fst (spread rec).
Proof.
  unfold Part001.complete, member. destruct (nullish rec); [discriminate|].
  cbn [bind]. intros [= <-]. split.
  - intros k Nr Nc. cbn [field].
    rewrite !own_define_other by congruence. reflexivity.
  - eexists. split; [reflexivity|]. rewrite !define_keys.
    rewrite <- (length_map fst (spread rec)).
    repeat match goal with
           | |- context [if ?b then _ else _] => destruct b
           end;
      rewrite <- ?app_assoc, ?firstn_app, ?Nat.sub_diag, ?firstn_all; cbn [firstn];
      rewrite ?app_nil_r; reflexivity.
Qed.

Lemma complete000_keeps (rec out : JsVal) :
  Part000.complete rec = Normal out ->
  keeps rec out
  /\ exists props, out = JObj props
       /\ firstn (List.length (spread rec)) (map fst props) = map fst (spread rec).
Proof.
  unfold Part000.complete, member. destruct (nullish rec); [discriminate|].
  cbn [bind]. intros [= <-]. split.
  - intros k Nr Nc. cbn [field].
    rewrite !own_define_other by congruence. reflexivity.
  - eexists. split; [reflexivity|]. rewrite !define_keys.
    rewrite <- (length_map fst (spread rec)).
    repeat match goal with
           | |- context [if ?b then _ else _] => destruct b
           end;
      rewrite <- ?app_assoc, ?firstn_app, ?Nat.sub_diag, ?firstn_all; cbn [firstn];
      rewrite ?app_nil_r; reflexivity.
Qed.

(** X10. Nothing that the model supplied in a recommendation is lost or
    changed but the two projections: in the report, the entry that stands
    for a supplied recommendation is an object that holds, under every
    other name, what the supplied one held there, extra properties
    included.  A supplied object keeps its properties where they were;
    a projection that was missing goes after them.  (An entry that is a
    string is spread into its characters; this is stated for ASCII strings
    only.) *)
Theorem recommendations_keep_the_rest (dateStr : string) (data : JsVal) (url : string)
    (perfScore : JsNumber) (currency : string) (screenshot : JsVal) :
  supplied_recommendations data <> [] ->
  Ensures (Part001.createSafeReport dateStr data url perfScore currency screenshot)
    (fun r => exists recs,
       select r ["recommendations"] = JArr recs
       /\ Forall2 (fun rec out => spread_as_copied rec = true -> keeps rec out)
            (supplied_recommendations data) recs
       /\ Forall2 (fun rec out =>
            forall props, rec = JObj props ->
              exists added, out = JObj added
                /\ firstn (List.length props) (map fst added) = map fst props
                /\ forall k, k <> "projectedRevenue" -> k <> "projectedCustomers" ->
                             field out k = field rec k)
            (supplied_recommendations data) recs)
  /\ Ensures (Part000.createSafeReport dateStr data url perfScore currency)
       (fun r => exists recs,
          select r ["recommendations"] = JArr recs
          /\ Forall2 (fun rec out => spread_as_copied rec = true -> keeps rec out)
               (supplied_recommendations data) recs
          /\ Forall2 (fun rec out =>
               forall props, rec = JObj props ->
                 exists added, out = JObj added
                   /\ firstn (List.length props) (map fst added) = map fst props
                   /\ forall k, k <> "projectedRevenue" -> k <> "projectedCustomers" ->
                                field out k = field rec k)
               (supplied_recommendations data) recs).
Proof.
  intros S. split.
  - intros r R. run001 R. exists recs. split; [reflexivity|].
    rewrite getArray_recommendations in Erecs.
    destruct (supplied_recommendations data) as [|x l] eqn:Sd; [contradiction|].
    split.
    + eapply array_map_Forall2; [|exact Erecs].
      intros rec out C _. apply (complete001_keeps rec out C).
    + eapply array_map_Forall2; [|exact Erecs].
      intros rec out C props ->.
      destruct (complete001_keeps _ out C) as [K [added [-> F]]].
      exists added. split; [reflexivity|]. split; [exact F|exact K].
  - intros r R. run000 R. exists recs. split; [reflexivity|].
    rewrite getArray_recommendations in Erecs.
    destruct (supplied_recommendations data) as [|x l] eqn:Sd; [contradiction|].
    split.
    + eapply array_map_Forall2; [|exact Erecs].
      intros rec out C _. apply (complete000_keeps rec out C).
    + eapply array_map_Forall2; [|exact Erecs].
      intros rec out C props ->.
      destruct (complete000_keeps _ out C) as [K [added [-> F]]].
      exists added. split; [reflexivity|]. split; [exact F|exact K].
Qed.
End Keeping.

(** X10 on a recommendation with a property of its own and no
    [projectedCustomers]. *)
Lemma recommendations_keep_the_rest_witness :
  Returns (Part001.createSafeReport (H := sample_host) "NOVEMBER 2026"
             (JObj [("recommendations", JArr [JObj [
                ("title", JStr "Compress images"); ("projectedRevenue", JStr "$2,000");
                ("ticket", JStr "OPS-7")]])])
             "example.com" (Fin 72) "USD" JNull)
    (fun r => select r ["recommendations"]
              = JArr [JObj [("title", JStr "Compress images");
                            ("projectedRevenue", JStr "$2,000");
                            ("ticket", JStr "OPS-7");
                            ("projectedCustomers", JStr "+5-10%")]]
              /\ exists recs, select r ["recommendations"] = JArr recs
                   /\ Forall2 keeps
                        [JObj [("title", JStr "Compress images");
                               ("projectedRevenue", JStr "$2,000");
                               ("ticket", JStr "OPS-7")]] recs).
Proof.
  destruct (createSafeReport001_returns (H := sample_host) "NOVEMBER 2026"
    (JObj [("recommendations", JArr [JObj [
       ("title", JStr "Compress images"); ("projectedRevenue", JStr "$2,000");
       ("ticket", JStr "OPS-7")]])])
    "example.com" (Fin 72) "USD" JNull eq_refl) as [r R].
  exists r. split; [exact R|]. split.
  - vm_compute in R. injection R as <-. reflexivity.
  - destruct (proj1 (recommendations_keep_the_rest (H := sample_host) "NOVEMBER 2026"
      (JObj [("recommendations", JArr [JObj [
         ("title", JStr "Compress images"); ("projectedRevenue", JStr "$2,000");
         ("ticket", JStr "OPS-7")]])])
      "example.com" (Fin 72) "USD" JNull ltac:(discriminate)) r R) as [recs [E [K _]]].
    exists recs. split; [exact E|].
    inversion K as [|rec out l l' K1 K2]; subst. inversion K2; subst.
    constructor; [exact (K1 eq_refl)|constructor].
Defined.

(** ** What of the candidate a call depends on *)

Lemma In_eqb (p : string) (l : list string) : existsb (String.eqb p) l = true -> In p l.
Proof.
  intros E. apply existsb_exists in E. destruct E as [q [I E]].
  apply String.eqb_eq in E. subst q. exact I.
Qed.

Section Dependence.
Context {H : Host}.

Lemma get_alike (d1 d2 : JsVal) (p : string) (fallback : JsVal) :
  resolve d1 p = resolve d2 p -> Part001.get d1 p fallback = Part001.get d2 p fallback.
Proof. intros E. rewrite !get001, E. reflexivity. Qed.

Lemma getArray_alike (d1 d2 : JsVal) (p : string) (fallback : list JsVal) :
  resolve d1 p = resolve d2 p ->
  Part001.getArray d1 p fallback = Part001.getArray d2 p fallback.
Proof. intros E. rewrite !getArray001, E. reflexivity. Qed.

(** Replaces every read of [d1] in the goal by the same read of [d2]. *)
Ltac read_alike A d1 d2 :=
  repeat match goal with
         | |- context [Part001.get d1 ?p ?fb] =>
             rewrite (get_alike d1 d2 p fb)
               by (apply A, In_eqb; vm_compute; reflexivity)
         | |- context [Part001.getArray d1 ?p ?fb] =>
             rewrite (getArray_alike d1 d2 p fb)
               by (apply A, In_eqb; vm_compute; reflexivity)
         end.

(** X11. A call depends on the candidate through the paths it reads and
    through nothing else: two candidates in which the reduction finds the
    same at each of these paths, and which hold the same title-page
    screenshot, give the same report, or make the call throw the same
    error.  So whatever else a candidate holds, under other names or
    deeper down, changes nothing. *)
Theorem report_depends_on_paths_read (dateStr : string) (d1 d2 : JsVal) (url : string)
    (perfScore : JsNumber) (currency : string) (screenshot : JsVal) :
  (alike paths_read001 d1 d2 ->
   Part001.createSafeReport dateStr d1 url perfScore currency screenshot
   = Part001.createSafeReport dateStr d2 url perfScore currency screenshot)
  /\ (alike paths_read000 d1 d2 ->
      Part000.createSafeReport dateStr d1 url perfScore currency
      = Part000.createSafeReport dateStr d2 url perfScore currency).
Proof.
  split; intros [A S].
  - rewrite (proj2_sig (normal001 dateStr d1 url perfScore currency screenshot)).
    rewrite (proj2_sig (normal001 dateStr d2 url perfScore currency screenshot)).
    cbn [proj1_sig normal001]. rewrite S.
    read_alike A d1 d2. reflexivity.
  - rewrite (proj2_sig (normal000 dateStr d1 url perfScore currency)).
    rewrite (proj2_sig (normal000 dateStr d2 url perfScore currency)).
    cbn [proj1_sig normal000]. rewrite S.
    read_alike A d1 d2. reflexivity.
Qed.
End Dependence.

(** X11 on a candidate and the same candidate with more in it. *)
Lemma report_depends_on_paths_read_witness :
  Part001.createSafeReport (H := sample_host) "NOVEMBER 2026"
    (JObj [("titlePage", JObj [("subTitle", JStr "Spring review")])])
    "example.com" (Fin 72) "USD" JNull
  = Part001.createSafeReport (H := sample_host) "NOVEMBER 2026"
      (JObj [("titlePage", JObj [("subTitle", JStr "Spring review");
                                 ("colour", JStr "teal")]);
             ("notes", JArr [JStr "draft"])])
      "example.com" (Fin 72) "USD" JNull.
Proof.
  apply (proj1 (report_depends_on_paths_read (H := sample_host) "NOVEMBER 2026"
    (JObj [("titlePage", JObj [("subTitle", JStr "Spring review")])])
    (JObj [("titlePage", JObj [("subTitle", JStr "Spring review");
                               ("colour", JStr "teal")]);
           ("notes", JArr [JStr "draft"])])
    "example.com" (Fin 72) "USD" JNull)).
  split; [|reflexivity].
  intros p I. unfold paths_read001, scalar_paths, list_paths in I. cbn [app In] in I.
  repeat (destruct I as [<-|I]; [reflexivity|]). destruct I.
Defined.

(** ** Normalizing a report again *)

Lemma js_or_again (s c e : JsVal) :
  truthy e = false -> js_or (js_or s (js_or (js_or s c) e)) e = js_or (js_or s c) e.
Proof.
  intros E. unfold js_or.
  destruct (truthy s) eqn:Ts; rewrite ?Ts; [reflexivity|].
  destruct (truthy c) eqn:Tc; rewrite ?Tc, ?E; reflexivity.
Qed.

Lemma js_or_twice (c e : JsVal) :
  truthy e = false -> js_or (js_or c e) e = js_or c e.
Proof.
  intros E. unfold js_or. destruct (truthy c) eqn:Tc; rewrite ?Tc, ?E; reflexivity.
Qed.

Lemma define_same (props : list (string * JsVal)) (k : string) :
  existsb (String.eqb k) (map fst props) = true ->
  define props k (own props k) = props.
Proof.
  induction props as [|[k' v'] rest IH]; [discriminate|].
  cbn [map fst existsb define own]. rewrite (String.eqb_sym k k').
  destruct (k' =? k) eqn:E.
  - apply String.eqb_eq in E. subst k'. reflexivity.
  - cbn [orb]. intros X. rewrite (IH X). reflexivity.
Qed.

Lemma define_has (props : list (string * JsVal)) (k : string) (v : JsVal) :
  existsb (String.eqb k) (map fst (define props k v)) = true.
Proof.
  induction props as [|[k' v'] rest IH]; cbn [define map fst existsb].
  - rewrite String.eqb_refl. reflexivity.
  - destruct (k' =? k) eqn:E; cbn [map fst existsb].
    + rewrite String.eqb_refl. reflexivity.
    + rewrite IH. apply orb_true_r.
Qed.

Lemma define_keeps_key (props : list (string * JsVal)) (k k' : string) (v : JsVal) :
  existsb (String.eqb k') (map fst props) = true ->
  existsb (String.eqb k') (map fst (define props k v)) = true.
Proof.
  rewrite define_keys. intros X.
  destruct (existsb (String.eqb k) (map fst props)); [exact X|].
  rewrite existsb_app, X. reflexivity.
Qed.

Lemma js_or_kept (a b : JsVal) : truthy a = true -> js_or a b = a.
Proof. intros T. unfold js_or. rewrite T. reflexivity. Qed.

(** Completing what has been completed changes nothing. *)
Lemma recompleted (props : list (string * JsVal)) (a b : JsVal) (revenue customers : string) :
  revenue <> "" -> customers <> "" ->
  let once := define (define props "projectedRevenue" (js_or a (JStr revenue)))
                     "projectedCustomers" (js_or b (JStr customers)) in
  define (define once "projectedRevenue"
            (js_or (own once "projectedRevenue") (JStr revenue)))
         "projectedCustomers" (js_or (own once "projectedCustomers") (JStr customers))
  = once.
Proof.
  intros Nr Nc once.
  assert (R : own once "projectedRevenue" = js_or a (JStr revenue)).
  { unfold once. rewrite own_define_other by discriminate. apply own_define_same. }
  assert (C : own once "projectedCustomers" = js_or b (JStr customers)).
  { unfold once. apply own_define_same. }
  rewrite (js_or_kept (own once "projectedRevenue"))
    by (rewrite R; apply js_or_truthy; exact Nr).
  rewrite (js_or_kept (own once "projectedCustomers"))
    by (rewrite C; apply js_or_truthy; exact Nc).
  rewrite (define_same once "projectedRevenue")
    by (unfold once; apply define_keeps_key, define_has).
  apply define_same. unfold once. apply define_has.
Qed.

Lemma array_map_again {A} (f : A -> Completion A) (l ys : list A) :
  (forall x y, f x = Normal y -> f y = Normal y) ->
  array_map f l = Normal ys -> array_map f ys = Normal ys.
Proof.
  intros F. revert ys. induction l as [|x l IH]; intros ys; cbn [array_map].
  - intros [= <-]. reflexivity.
  - destruct (f x) as [y|] eqn:Ex; cbn [bind]; [|discriminate].
    destruct (array_map f l) as [ys'|]; cbn [bind]; [|discriminate].
    intros [= <-]. cbn [array_map]. rewrite (F x y Ex). cbn [bind].
    rewrite (IH ys' eq_refl). reflexivity.
Qed.

Section Again.
Context {H : Host}.

Lemma complete001_again (rec out : JsVal) :
  Part001.complete rec = Normal out -> Part001.complete out = Normal out.
Proof.
  unfold Part001.complete at 1. unfold member. destruct (nullish rec); [discriminate|].
  cbn [bind]. intros [= <-]. unfold Part001.complete, member.
  cbn [nullish bind prop spread]. f_equal. f_equal.
  apply recompleted; discriminate.
Qed.

Lemma complete000_again (rec out : JsVal) :
  Part000.complete rec = Normal out -> Part000.complete out = Normal out.
Proof.
  unfold Part000.complete at 1. unfold member. destruct (nullish rec); [discriminate|].
  cbn [bind]. intros [= <-]. unfold Part000.complete, member.
  cbn [nullish bind prop spread]. f_equal. f_equal.
  apply recompleted; discriminate.
Qed.

(** A leaf that the report took through [get] is read back as it is. *)
Lemma get_again (data r : JsVal) (p : string) (d : JsVal) :
  existsb (String.eqb "length") (split_on "." p) = false ->
  select r (split_on "." p) = Part001.get data p d ->
  sections_passable r (split_on "." p) = true ->
  Part001.get r p d = Part001.get data p d.
Proof.
  intros NL E S. apply not_in_length in NL.
  destruct (get_law r p d NL) as [Lo Ld].
  destruct (usable (select r (split_on "." p))) eqn:U.
  - rewrite (Lo eq_refl). exact E.
  - rewrite (Ld eq_refl S). rewrite E in U. rewrite get001 in *.
    destruct (usable (resolve data p)) eqn:V; [congruence|reflexivity].
Qed.

Lemma get_found (r : JsVal) (p : string) (d : JsVal) :
  existsb (String.eqb "length") (split_on "." p) = false ->
  usable (select r (split_on "." p)) = true ->
  Part001.get r p d = select r (split_on "." p).
Proof.
  intros NL U. apply not_in_length in NL. apply (get_law r p d NL). exact U.
Qed.

Lemma getArray_again (data r : JsVal) (p : string) (d : list JsVal) :
  existsb (String.eqb "length") (split_on "." p) = false ->
  select r (split_on "." p) = JArr (Part001.getArray data p d) ->
  Part001.getArray r p d = Part001.getArray data p d.
Proof.
  intros NL E. apply not_in_length in NL.
  destruct (getArray_law r p d NL) as [Lo Ld].
  destruct (nonempty_array (select r (split_on "." p))) eqn:U.
  - specialize (Lo eq_refl). rewrite E in Lo. injection Lo as Lo. exact Lo.
  - rewrite (Ld eq_refl). rewrite E in U. rewrite getArray001 in *.
    destruct (resolve data p) as [| | | | |[|x l]|]; try reflexivity.
    discriminate U.
Qed.

Lemma getArray_found (r : JsVal) (p : string) (d recs : list JsVal) :
  existsb (String.eqb "length") (split_on "." p) = false ->
  select r (split_on "." p) = JArr recs -> recs <> [] ->
  Part001.getArray r p d = recs.
Proof.
  intros NL E N. apply not_in_length in NL.
  destruct (getArray_law r p d NL) as [Lo _].
  rewrite E in Lo. destruct recs as [|x l]; [contradiction|].
  specialize (Lo eq_refl). injection Lo as Lo. exact Lo.
Qed.

Lemma getArray_some (data : JsVal) (p : string) (d : list JsVal) :
  d <> [] -> Part001.getArray data p d <> [].
Proof.
  intros N. rewrite getArray001.
  destruct (resolve data p) as [| | | | |[|x l]|]; try exact N. discriminate.
Qed.

Lemma array_map_some {A B} (f : A -> Completion B) (l : list A) (ys : list B) :
  array_map f l = Normal ys -> l <> [] -> ys <> [].
Proof.
  intros E N Z. apply array_map_length in E. subst ys.
  destruct l; [contradiction|discriminate E].
Qed.

(** Settle the side conditions of the lemmas above on the report [r], a
    local definition. *)
Ltac on_report r :=
  lazy beta iota zeta delta
    [r select split_on fold_left field own String.eqb Ascii.eqb Bool.eqb
     sections_passable passable truthy usable orb andb negb];
  reflexivity.

Ltac read_again data r :=
  repeat match goal with
         | |- context [Part001.get r ?p ?fb] =>
             rewrite (get_again data r p fb)
               by first [vm_compute; reflexivity | on_report r]
         | |- context [Part001.getArray r ?p ?fb] =>
             rewrite (getArray_again data r p fb)
               by first [vm_compute; reflexivity | on_report r]
         end.

(** X12. Normalizing is idempotent: a report that is handed back as the
    candidate, with the same url, score, currency (and measured screenshot)
    and at the same date, comes out as it went in. *)
Theorem normalizing_again_changes_nothing (dateStr : string) (data : JsVal) (url : string)
    (perfScore : JsNumber) (currency : string) (screenshot : JsVal) :
  Ensures (Part001.createSafeReport dateStr data url perfScore currency screenshot)
    (fun r => Part001.createSafeReport dateStr r url perfScore currency screenshot
              = Normal r)
  /\ Ensures (Part000.createSafeReport dateStr data url perfScore currency)
       (fun r => Part000.createSafeReport dateStr r url perfScore currency = Normal r).
Proof.
  split.
  - intros r0 R. run001 R.
    match goal with
    | |- Part001.createSafeReport _ ?a _ _ _ _ = _ => set (r := a)
    end.
    rewrite (proj2_sig (normal001 dateStr r url perfScore currency screenshot)).
    cbn [proj1_sig normal001].
    match type of Erecs with
    | array_map _ (Part001.getArray data ?p ?d) = _ =>
        assert (G : Part001.getArray r p d = recs);
        [apply getArray_found;
         [vm_compute; reflexivity
         |on_report r
         |apply (array_map_some _ _ _ Erecs), getArray_some; discriminate]
        |rewrite G]
    end.
    rewrite (array_map_again _ _ _ complete001_again Erecs).
    cbn [object evaluate bind array].
    assert (S : opt_member (opt_member r "titlePage") "screenshot"
                = js_or (js_or screenshot
                           (opt_member (opt_member data "titlePage") "screenshot"))
                        (JStr "")).
    { lazy beta iota zeta delta
        [r opt_member nullish prop own String.eqb Ascii.eqb Bool.eqb]. reflexivity. }
    rewrite S, js_or_again by reflexivity.
    rewrite !(get_found r "executiveSummary.overallScore")
      by first [vm_compute; reflexivity | on_report r].
    read_again data r.
    reflexivity.
  - intros r0 R. run000 R.
    match goal with
    | |- Part000.createSafeReport _ ?a _ _ _ = _ => set (r := a)
    end.
    rewrite (proj2_sig (normal000 dateStr r url perfScore currency)).
    cbn [proj1_sig normal000].
    match type of Erecs with
    | array_map _ (Part001.getArray data ?p ?d) = _ =>
        assert (G : Part001.getArray r p d = recs);
        [apply getArray_found;
         [vm_compute; reflexivity
         |on_report r
         |apply (array_map_some _ _ _ Erecs), getArray_some; discriminate]
        |rewrite G]
    end.
    rewrite (array_map_again _ _ _ complete000_again Erecs).
    cbn [object evaluate bind array].
    assert (S : opt_member (opt_member r "titlePage") "screenshot"
                = js_or (opt_member (opt_member data "titlePage") "screenshot") (JStr "")).
    { lazy beta iota zeta delta
        [r opt_member nullish prop own String.eqb Ascii.eqb Bool.eqb]. reflexivity. }
    rewrite S, js_or_twice by reflexivity.
    rewrite !(get_found r "executiveSummary.overallScore")
      by first [vm_compute; reflexivity | on_report r].
    read_again data r.
    reflexivity.
Qed.
End Again.

(** X12 on a candidate with gaps. *)
Lemma normalizing_again_changes_nothing_witness :
  Returns (Part001.createSafeReport (H := sample_host) "NOVEMBER 2026" partial_candidate
             "example.com" (Fin 72) "USD" JNull)
    (fun r => Part001.createSafeReport (H := sample_host) "NOVEMBER 2026" r
                "example.com" (Fin 72) "USD" JNull = Normal r)
  /\ Returns (Part000.createSafeReport (H := sample_host) "NOVEMBER 2026" partial_candidate
                "example.com" (Fin 72) "USD")
       (fun r => Part000.createSafeReport (H := sample_host) "NOVEMBER 2026" r
                   "example.com" (Fin 72) "USD" = Normal r).
Proof.
  split.
  - destruct (createSafeReport001_returns (H := sample_host) "NOVEMBER 2026"
      partial_candidate "example.com" (Fin 72) "USD" JNull eq_refl) as [r R].
    exists r. split; [exact R|].
    exact (proj1 (normalizing_again_changes_nothing (H := sample_host) "NOVEMBER 2026"
             partial_candidate "example.com" (Fin 72) "USD" JNull) r R).
  - destruct (createSafeReport000_returns (H := sample_host) "NOVEMBER 2026"
      partial_candidate "example.com" (Fin 72) "USD" eq_refl) as [r R].
    exists r. split; [exact R|].
    exact (proj2 (normalizing_again_changes_nothing (H := sample_host) "NOVEMBER 2026"
             partial_candidate "example.com" (Fin 72) "USD" JNull) r R).
Defined.

(** ** One audit run *)


Lemma eqb_empty_false (a : string) : a <> "" -> (a =? "") = false.
Proof. intros N. apply String.eqb_neq. exact N. Qed.

Section Run.
Context {H : Host} {J : Json}.
Variable world : World.
Variable st : AppState.

End Run.


(** ** Runs that fail *)

Lemma blank_or_string (a b : string) :
  blank (Some a) = true -> blank (Some b) = true -> blank (Some (or_string a b)) = true.
Proof. intros A B. unfold or_string. destruct (a =? ""); assumption. Qed.

Lemma resolve_key_blank (geminiKey : string) (pageSpeedKey envKey : option string) :
  blank pageSpeedKey = true -> blank (Some geminiKey) = true -> blank envKey = true ->
  PerformanceService.resolve_key geminiKey pageSpeedKey envKey = None.
Proof.
  unfold blank, PerformanceService.resolve_key. intros P G E. rewrite G.
  destruct pageSpeedKey; [rewrite P|]; (destruct envKey; [rewrite E|]); reflexivity.
Qed.




Section Failing.
Context {H : Host} {J : Json}.
Variable world : World.
Variable st : AppState.


(** X14. What a run needs and what it tells.  Without a url the
    handler does nothing.  With no Gemini key in the settings and none in
    the environment, the run ends in the error state and says that the key
    is missing, whatever the network and the model would have done.  With
    keys that hold white space only, it ends there too, with the fetcher's
    message that no key was found.  Whatever the error, the message shown
    is never empty, and the report of an earlier run stays on display. *)
Theorem audit_needs_a_key :
  (app_url st = "" ->
   App001.handleAudit world st = st /\ App000.handleAudit world st = st)
  /\ (app_url st <> "" -> app_apiKey st = "" ->
      API_KEY world = None \/ API_KEY world = Some "" ->
      let told := Error "API Key is missing. Please add your Gemini API Key in Settings." in
      App001.handleAudit world st = failed_with st told
      /\ App000.handleAudit world st = failed_with st told)
  /\ (app_url st <> "" ->
      blank (Some (app_apiKey st)) = true -> blank (Some (app_psKey st)) = true ->
      blank (API_KEY world) = true ->
      or_string (app_apiKey st) (match API_KEY world with Some k => k | None => "" end)
      <> "" ->
      let told :=
        Error "No API Key found. Please configure process.env.API_KEY or use Settings." in
      App001.handleAudit world st = failed_with st told
      /\ App000.handleAudit world st = failed_with st told)
  /\ (forall err,
        app_status (failed_with st err) = status_error
        /\ app_report (failed_with st err) = app_report st
        /\ exists told, app_error (failed_with st err) = Some told /\ told <> "").
Proof.
  split; [|split; [|split]].
  - intros U. unfold App001.handleAudit, App000.handleAudit. rewrite U. split; reflexivity.
  - intros U K E told.
    unfold App001.handleAudit, App000.handleAudit. rewrite (eqb_empty_false _ U).
    unfold App001.synthesize, App000.synthesize, App001.getEnvKey. rewrite K.
    destruct E as [-> | ->]; split; reflexivity.
  - intros U Ba Bp Be Nk told.
    assert (E : App001.getEnvKey world = match API_KEY world with
                                         | Some k => if k =? "" then None else Some k
                                         | None => None
                                         end) by reflexivity.
    assert (Same : match App001.getEnvKey world with Some k => k | None => "" end
                   = match API_KEY world with Some k => k | None => "" end).
    { rewrite E. destruct (API_KEY world) as [k|]; [|reflexivity].
      destruct (k =? "") eqn:Z; [|reflexivity]. apply String.eqb_eq in Z. auto. }
    assert (B : blank (Some (or_string (app_apiKey st)
                  (match API_KEY world with Some k => k | None => "" end))) = true).
    { apply blank_or_string; [exact Ba|].
      destruct (API_KEY world); [exact Be|reflexivity]. }
    unfold App001.handleAudit, App000.handleAudit. rewrite (eqb_empty_false _ U).
    unfold App001.synthesize, App000.synthesize. rewrite Same.
    rewrite (eqb_empty_false _ Nk).
    unfold PerformanceService.fetchRealAuditData.
    rewrite (resolve_key_blank _ _ _ Bp B Be). split; reflexivity.
  - intros err. cbn [failed_with app_status app_report app_error].
    split; [reflexivity|]. split; [reflexivity|].
    eexists. split; [reflexivity|].
    unfold or_string. destruct (message err =? "") eqn:Z; [discriminate|].
    apply String.eqb_neq. exact Z.
Qed.

End Failing.

(** X14 with no key anywhere, and with a key of two spaces. *)
Lemma audit_needs_a_key_witness :
  app_error (App001.handleAudit (H := sample_host) (J := sample_json) sample_world
               (mkAppState "acme.io" status_idle (Fin 0) None None "" "" "m" "USD"))
  = Some "API Key is missing. Please add your Gemini API Key in Settings."
  /\ app_error (App000.handleAudit (H := sample_host) (J := sample_json) sample_world
                  (mkAppState "acme.io" status_idle (Fin 0) None None "" "  " "m" "USD"))
     = Some "No API Key found. Please configure process.env.API_KEY or use Settings.".
Proof.
  split.
  - rewrite (proj1 (proj1 (proj2 (audit_needs_a_key (H := sample_host) (J := sample_json)
      sample_world (mkAppState "acme.io" status_idle (Fin 0) None None "" "" "m" "USD")))
      ltac:(discriminate) eq_refl (or_introl eq_refl))).
    reflexivity.
  - rewrite (proj2 (proj1 (proj2 (proj2 (audit_needs_a_key (H := sample_host)
      (J := sample_json) sample_world
      (mkAppState "acme.io" status_idle (Fin 0) None None "" "  " "m" "USD"))))
      ltac:(discriminate) eq_refl eq_refl eq_refl ltac:(discriminate))).
    reflexivity.
Defined.


(** ** The attempts of part_000 *)

Lemma modelQueue_length (model : string) :
  List.length (Part000.modelQueue model)
  = if existsb (String.eqb model) Part000.fallbackModels then 3%nat else 4%nat.
Proof.
  unfold Part000.modelQueue, Part000.fallbackModels. cbn [filter existsb List.length].
  rewrite !(String.eqb_sym model).
  destruct ("gemini-3-flash-preview" =? model) eqn:A;
    destruct ("gemini-2.5-flash" =? model) eqn:B;
    destruct ("gemini-flash-latest" =? model) eqn:C;
    try reflexivity;
    try apply String.eqb_eq in A; try apply String.eqb_eq in B;
    try apply String.eqb_eq in C; subst; discriminate.
Qed.

(** X16. A run of part_000 makes at least one and at most four attempts:
    the queue holds the selected model and the fallback models other than
    it, three models when the selected one is a fallback model and four
    otherwise, and the models attempted are the first ones of the queue,
    the selected model before all others. *)
Theorem at_most_four_attempts (generateContent : string -> Generation) (model : string) :
  let tried := fst (Part000.generate generateContent model) in
  hd_error tried = Some model
  /\ (1 <= List.length tried <= List.length (Part000.uniqueQueue model))%nat
  /\ (List.length (Part000.uniqueQueue model)
      = if existsb (String.eqb model) Part000.fallbackModels then 3%nat else 4%nat)
  /\ (List.length tried <= 4)%nat
  /\ exists rest, Part000.uniqueQueue model = (tried ++ rest)%list.
Proof.
  intros tried.
  assert (N : Part000.uniqueQueue model <> [])
    by (rewrite uniqueQueue_modelQueue; discriminate).
  destruct (attempt_from_rule generateContent (Part000.uniqueQueue model) N)
    as [earlier [last_model [rest [T [Q _]]]]].
  fold (Part000.generate generateContent model) in T, Q. fold tried in T, Q.
  assert (L : List.length (Part000.uniqueQueue model)
              = if existsb (String.eqb model) Part000.fallbackModels then 3%nat else 4%nat)
    by (rewrite uniqueQueue_modelQueue; apply modelQueue_length).
  assert (B : (1 <= List.length tried <= List.length (Part000.uniqueQueue model))%nat).
  { rewrite Q, T, !length_app. cbn [List.length]. lia. }
  split; [|split; [exact B|split; [exact L|split]]].
  - rewrite uniqueQueue_modelQueue in Q. unfold Part000.modelQueue in Q.
    destruct tried as [|m tried']; [destruct earlier; discriminate T|].
    cbn [app] in Q. injection Q as <- _. reflexivity.
  - destruct (existsb (String.eqb model) Part000.fallbackModels); lia.
  - exists rest. exact Q.
Qed.

(** ** When the normalizer throws *)

Section Throwing.
Context {H : Host}.




End Throwing.


(** ** The settings across a reload *)

Lemma stored_store_same (items : list (string * string)) (key value : string) :
  stored (store items key value) key = Some value.
Proof.
  induction items as [|[k v] rest IH]; cbn [store stored].
  - rewrite String.eqb_refl. reflexivity.
  - destruct (k =? key) eqn:E; cbn [stored]; rewrite E; [reflexivity|exact IH].
Qed.

Lemma stored_store_other (items : list (string * string)) (key key' value : string) :
  key <> key' -> stored (store items key value) key' = stored items key'.
Proof.
  intros N. induction items as [|[k v] rest IH]; cbn [store stored].
  - destruct (key =? key') eqn:E; [apply String.eqb_eq in E; contradiction|reflexivity].
  - destruct (k =? key) eqn:E; cbn [stored].
    + apply String.eqb_eq in E. subst k.
      destruct (key =? key') eqn:E'; [apply String.eqb_eq in E'; contradiction|reflexivity].
    + destruct (k =? key'); [reflexivity|exact IH].
Qed.

Lemma item_or_empty (v : string) : item_or (Some v) "" = v.
Proof.
  unfold item_or, or_string. destruct (v =? "") eqn:E; [|reflexivity].
  apply String.eqb_eq in E. auto.
Qed.

(** X18. The settings survive a reload.  With an open storage, what the
    two effects write is what the initializers read back: both keys and
    the theme as they were, and the currency as it was, or [USD] if it
    was empty; items of the storage under other names are left alone.
    With a storage closed to the page, part_001 neither writes nor throws
    and starts from the defaults (no keys, [USD], light theme), while
    part_000, which goes to [localStorage] unguarded, throws the
    SecurityError when it starts.  On an open storage the two revisions
    read the same settings. *)
Theorem settings_survive_reload (items : list (string * string)) (cfg : Settings) :
  Settings001.initial (Settings001.persist (Open items) cfg)
  = {| psKey := psKey cfg; apiKey := apiKey cfg;
       currency_code := or_string (currency_code cfg) "USD";
       darkMode := darkMode cfg |}
  /\ Settings000.persist (Open items) cfg
     = Normal (Settings001.persist (Open items) cfg)
  /\ Settings000.initial (Open items) = Normal (Settings001.initial (Open items))
  /\ (forall key, key <> "pro-ps-key" -> key <> "pro-currency" ->
                  key <> "pro-api-key" -> key <> "pro-theme" ->
                  safeLocalStorage.getItem (Settings001.persist (Open items) cfg) key
                  = safeLocalStorage.getItem (Open items) key)
  /\ Settings001.persist Blocked cfg = Blocked
  /\ Settings001.initial Blocked
     = {| psKey := ""; apiKey := ""; currency_code := "USD"; darkMode := false |}
  /\ Settings000.initial Blocked = Throw SecurityError
  /\ Settings000.persist Blocked cfg = Throw SecurityError.
Proof.
  split; [|split; [|split; [|split]]]; try (repeat split; reflexivity).
  - unfold Settings001.initial, Settings001.persist, safeLocalStorage.setItem,
      safeLocalStorage.getItem.
    cbn [localStorage_setItem localStorage_getItem].
    repeat rewrite ?stored_store_same, ?stored_store_other by discriminate.
    rewrite !item_or_empty. cbn [item_or is_dark]. f_equal.
    destruct (darkMode cfg); reflexivity.
  - intros key N1 N2 N3 N4.
    unfold Settings001.persist, safeLocalStorage.setItem, safeLocalStorage.getItem.
    cbn [localStorage_setItem localStorage_getItem].
    rewrite !stored_store_other by congruence. reflexivity.
Qed.

(** ** The states of the application *)

Section Reachable.
Context {H : Host} {J : Json}.

Lemma failed_with_presentable (st : AppState) (err : JsError) :
  presentable (failed_with st err).
Proof.
  unfold presentable. cbn [failed_with app_status app_report app_error].
  split; [discriminate|]. split; [|discriminate].
  intros _. eexists. split; [reflexivity|].
  unfold or_string. destruct (message err =? "") eqn:Z; [discriminate|].
  apply String.eqb_neq. exact Z.
Qed.

Lemma completed_with_presentable (st : AppState) (r : JsVal) :
  presentable (completed_with st r).
Proof.
  unfold presentable. cbn [completed_with app_status app_report app_error].
  split; [eauto|]. split; discriminate.
Qed.

Lemma step001_presentable (st : AppState) (ev : Event) :
  presentable st -> presentable (step001 st ev).
Proof.
  intros P. destruct ev as [v|v|v|v|v|world| |]; cbn [step001]; try exact P.
  - unfold App001.handleAudit. destruct (app_url st =? ""); [exact P|].
    destruct (App001.synthesize world st);
      [apply completed_with_presentable|apply failed_with_presentable].
  - unfold presentable. cbn. repeat split; discriminate.
Qed.

Lemma step000_presentable (st : AppState) (ev : Event) :
  presentable st -> presentable (step000 st ev).
Proof.
  intros P. destruct ev as [v|v|v|v|v|world| |]; cbn [step000]; try exact P.
  - unfold App000.handleAudit. destruct (app_url st =? ""); [exact P|].
    destruct (App000.synthesize world st);
      [apply completed_with_presentable|apply failed_with_presentable].
  - unfold presentable. cbn. repeat split; discriminate.
  - unfold presentable. cbn. repeat split; discriminate.
Qed.

(** X19. Whatever is done to the page, in whatever order and in whatever
    world each audit runs, the state stays presentable in both revisions
    once each call has settled: when the status is complete there is a
    report to show, when it is error there is a message that is not empty,
    and a run that has settled has left the status at complete or error,
    not at analysing. *)
Theorem every_state_is_presentable (cfg : Settings) (events : list Event) :
  presentable (fold_left step001 events (starting cfg))
  /\ presentable (fold_left step000 events (starting cfg)).
Proof.
  assert (S : presentable (starting cfg)).
  { unfold presentable. cbn. repeat split; discriminate. }
  revert S. generalize (starting cfg). intros st S. split.
  - revert st S. induction events as [|ev events IH]; intros st S; [exact S|].
    cbn [fold_left]. apply IH, step001_presentable, S.
  - revert st S. induction events as [|ev events IH]; intros st S; [exact S|].
    cbn [fold_left]. apply IH, step000_presentable, S.
Qed.
End Reachable.
